(** * FitStream backend: sessions, bookings, ratings and stream tracking

    A shallow embedding of the Express/Mongoose controllers and models of the
    FitStream backend, with the properties of the session life cycle, the
    booking and refund flow, ratings, participant tracking, analytics and
    RTC credentials.

    Conventions of the embedding.
    - A Mongoose collection is a finite map from document id to document.
      [findById] is a lookup, [save] re-inserts the document under its id
      and runs the schema's [pre('save')] hook, which stamps [updatedAt].
    - A request handler [async (req, res, next)] is a function from the
      request and the database to the response and the new database.  An
      exception caught by [catch (err) { next(err) }] ends in the global
      error handler, which answers 500; nothing that was not saved before
      the exception reaches the database.
    - Dates are milliseconds since the epoch, in [Z].  Every [new Date()]
      of one request reads the same instant, the field [now] of the request.
    - Tokens, costs, durations and instants are integers in [Z]. Ratings
      are JavaScript numbers: a rating is the rational value of a double,
      in [Q], and the arithmetic on ratings is the IEEE 754 binary64
      arithmetic of the engine, modelled below. JavaScript's [undefined]
      is [None].
    - A request body is a JSON document whose numeric fields hold numbers.
      Token amounts are whole numbers and their arithmetic is exact: the
      rounding of sums beyond [2 ^ 53] and amounts sent as text are not
      modelled.
    - Ids are well-formed ObjectIds; the [CastError] of [findById] on a
      malformed path id is not modelled. *)

From Stdlib Require Import ZArith Lia QArith Qround.
From stdpp Require Import gmap strings list fin_maps.

Local Open Scope string_scope.
Local Open Scope list_scope.
Local Open Scope Z_scope.

(** ** Documents *)

Inductive Status := scheduled | live | completed | cancelled.

Inductive Role := role_user | role_trainer | role_admin.

Global Instance Status_eq_dec : EqDecision Status.
Proof. solve_decision. Defined.

Global Instance Role_eq_dec : EqDecision Role.
Proof. solve_decision. Defined.

(** [participants] sub-document of a session (models/Session.js). The
    duration is in seconds. *)
Record Participant := mkParticipant {
  p_user : string;
  joinedAt : option Z;
  leaveAt : option Z;
  p_duration : option Z;
  p_messages : Z;
  p_reactions : Z
}.

(** [ratings] sub-document of a session. *)
Record Rating := mkRating {
  r_user : string;
  r_rating : Q;
  r_feedback : option string;
  r_createdAt : Z
}.

Record StreamingDetails := mkStreamingDetails {
  channelName : option string;
  resourceId : option string;
  sid : option string;
  startedAt : option Z;
  endedAt : option Z
}.

(** Session document. [s_duration] is in minutes; [averageRating] is kept in
    tenths, the precision [toFixed(1)] leaves. *)
Record Session := mkSession {
  s_trainer : string;
  scheduledAt : Z;
  s_duration : Z;
  tokenCost : Z;
  maxParticipants : Z;
  participants : list Participant;
  status : Status;
  streamingDetails : StreamingDetails;
  ratings : list Rating;
  averageRating : Z;
  s_updatedAt : Z
}.

Record Booking := mkBooking {
  b_session : string;
  bookedAt : Z
}.

Record CompletedSession := mkCompletedSession {
  c_session : string;
  completedAt : Z;
  c_rating : Q;
  c_feedback : option string
}.

(** User document. [trainerRating] (in tenths) and [totalRatings] are the
    two fields of [trainerProfile] the controllers write. *)
Record User := mkUser {
  role : Role;
  tokens : Z;
  bookedSessions : list Booking;
  completedSessions : list CompletedSession;
  trainerRating : Z;
  totalRatings : Z;
  u_updatedAt : Z
}.

Record Package := mkPackage {
  tokenAmount : Z;
  price : Z;
  active : bool;
  isPromotion : bool;
  validUntil : option Z
}.

Record Transaction := mkTransaction {
  t_user : string;
  t_package : string;
  t_tokenAmount : Z;
  t_amount : Z;
  t_paymentMethod : string;
  t_status : string
}.

Record DB := mkDB {
  sessions : gmap string Session;
  users : gmap string User;
  packages : gmap string Package;
  transactions : list Transaction
}.

(** ** Field updates *)

Definition set_status (st : Status) (s : Session) : Session :=
  mkSession (s_trainer s) (scheduledAt s) (s_duration s) (tokenCost s)
    (maxParticipants s) (participants s) st (streamingDetails s)
    (ratings s) (averageRating s) (s_updatedAt s).

Definition set_participants (ps : list Participant) (s : Session) : Session :=
  mkSession (s_trainer s) (scheduledAt s) (s_duration s) (tokenCost s)
    (maxParticipants s) ps (status s) (streamingDetails s)
    (ratings s) (averageRating s) (s_updatedAt s).

Definition set_ratings (rs : list Rating) (s : Session) : Session :=
  mkSession (s_trainer s) (scheduledAt s) (s_duration s) (tokenCost s)
    (maxParticipants s) (participants s) (status s) (streamingDetails s)
    rs (averageRating s) (s_updatedAt s).

Definition set_averageRating (a : Z) (s : Session) : Session :=
  mkSession (s_trainer s) (scheduledAt s) (s_duration s) (tokenCost s)
    (maxParticipants s) (participants s) (status s) (streamingDetails s)
    (ratings s) a (s_updatedAt s).

Definition set_streamingDetails (d : StreamingDetails) (s : Session) : Session :=
  mkSession (s_trainer s) (scheduledAt s) (s_duration s) (tokenCost s)
    (maxParticipants s) (participants s) (status s) d
    (ratings s) (averageRating s) (s_updatedAt s).

Definition set_schedule (at_ dur cost maxp : Z) (s : Session) : Session :=
  mkSession (s_trainer s) at_ dur cost maxp (participants s) (status s)
    (streamingDetails s) (ratings s) (averageRating s) (s_updatedAt s).

Definition set_s_updatedAt (t : Z) (s : Session) : Session :=
  mkSession (s_trainer s) (scheduledAt s) (s_duration s) (tokenCost s)
    (maxParticipants s) (participants s) (status s) (streamingDetails s)
    (ratings s) (averageRating s) t.

Definition set_tokens (t : Z) (u : User) : User :=
  mkUser (role u) t (bookedSessions u) (completedSessions u)
    (trainerRating u) (totalRatings u) (u_updatedAt u).

Definition set_bookedSessions (bs : list Booking) (u : User) : User :=
  mkUser (role u) (tokens u) bs (completedSessions u)
    (trainerRating u) (totalRatings u) (u_updatedAt u).

Definition set_completedSessions (cs : list CompletedSession) (u : User) : User :=
  mkUser (role u) (tokens u) (bookedSessions u) cs
    (trainerRating u) (totalRatings u) (u_updatedAt u).

Definition set_trainerProfile (r n : Z) (u : User) : User :=
  mkUser (role u) (tokens u) (bookedSessions u) (completedSessions u)
    r n (u_updatedAt u).

Definition set_u_updatedAt (t : Z) (u : User) : User :=
  mkUser (role u) (tokens u) (bookedSessions u) (completedSessions u)
    (trainerRating u) (totalRatings u) t.

Definition set_sessions (m : gmap string Session) (db : DB) : DB :=
  mkDB m (users db) (packages db) (transactions db).

Definition set_users (m : gmap string User) (db : DB) : DB :=
  mkDB (sessions db) m (packages db) (transactions db).

(** [doc.save()]: the [pre('save')] hook of the schema stamps [updatedAt],
    then the document replaces the stored one. *)
Definition saveSession (now : Z) (id : string) (s : Session) (db : DB) : DB :=
  set_sessions (<[id := set_s_updatedAt now s]> (sessions db)) db.

Definition saveUser (now : Z) (id : string) (u : User) (db : DB) : DB :=
  set_users (<[id := set_u_updatedAt now u]> (users db)) db.

Definition saveTransaction (t : Transaction) (db : DB) : DB :=
  mkDB (sessions db) (users db) (packages db) (transactions db ++ [t]).

(** ** Requests and responses *)

(** The fields of [req.body] the controllers destructure. *)
Record Body := mkBody {
  body_status : option string;
  body_scheduledAt : option Z;
  body_duration : option Z;
  body_tokenCost : option Z;
  body_maxParticipants : option Z;
  body_rating : option Q;
  body_feedback : option string;
  body_tokens : option Z;
  body_operation : option string;
  body_paymentMethod : option string
}.

Definition emptyBody : Body :=
  mkBody None None None None None None None None None None.

(** Bodies with one field, or the rating and its feedback. *)
Definition statusBody (st : string) : Body :=
  mkBody (Some st) None None None None None None None None None.

Definition costBody (c : Z) : Body :=
  mkBody None None None (Some c) None None None None None None.

Definition ratingBody (r : Q) (fb : option string) : Body :=
  mkBody None None None None None (Some r) fb None None None.

(** [req.params.id] / [req.params.sessionId], [req.user], [req.body] and the
    instant the request is served. *)
Record Req := mkReq {
  params_id : string;
  user_id : string;
  user_role : Role;
  body : Body;
  now : Z
}.

Inductive Payload :=
| NoData
| TokensData (t : Z)
| RatingData (rating : Q) (sessionRating : Z)
| SessionData (s : Session)
| StreamData (appId channel token : string) (uid : option string)
| EmptyStreamData
| AnalyticsData (registered attended completed_ : nat)
| ErrorData (name : string).

Record Res := mkRes {
  code : Z;
  message : string;
  data : Payload
}.

Definition Handler : Type := Req → DB → Res * DB.

(** [res.status(c).json({ message })] *)
Definition reply (c : Z) (m : string) : Res := mkRes c m NoData.

(** [next(err)] with the global error handler of middleware/errorHandler.js:
    the error carries no [statusCode], so the answer is 500; its body is
    [{ success: false, error: { message, type: err.name } }], without a
    top-level message. The text of [err.message] is not modelled. *)
Definition next_err (name : string) : Res := mkRes 500 EmptyString (ErrorData name).

(** JavaScript truthiness of an optional number and of an optional string. *)
Definition truthyZ (o : option Z) : bool :=
  match o with Some z => negb (z =? 0) | None => false end.

Definition truthyQ (o : option Q) : bool :=
  match o with Some q => negb (Qeq_bool q 0) | None => false end.

Definition truthyS (o : option string) : bool :=
  match o with Some s => negb (String.eqb s EmptyString) | None => false end.

Definition isSome {A} (o : option A) : bool :=
  match o with Some _ => true | None => false end.

Definition status_name (st : Status) : string :=
  match st with
  | scheduled => "scheduled"
  | live => "live"
  | completed => "completed"
  | cancelled => "cancelled"
  end.

(** The [enum] validator of the [status] path. *)
Definition parse_status (s : string) : option Status :=
  if String.eqb s "scheduled" then Some scheduled
  else if String.eqb s "live" then Some live
  else if String.eqb s "completed" then Some completed
  else if String.eqb s "cancelled" then Some cancelled
  else None.

(** ** models/Session.js: instance methods *)

(** [Array.prototype.findIndex]; [None] stands for the result -1. *)
Fixpoint findIndex {A} (f : A → bool) (l : list A) : option nat :=
  match l with
  | [] => None
  | x :: l' => if f x then Some 0%nat else S <$> findIndex f l'
  end.

Definition sumZ {A} (f : A → Z) (l : list A) : Z :=
  foldl (λ total x, total + f x) 0 l.

(** *** Double precision arithmetic

    The sum and the quotient of [calculateAverageRating] are those of IEEE
    754 binary64 numbers: the exact result rounded to the nearest number
    with a significand of 53 bits, a tie going to the even significand. The
    exponent range (overflow, subnormal numbers), the sign of zero and NaN
    are not modelled. *)

(** The integer nearest to [n / d] for [0 < d], a tie going to the even
    one. *)
Definition round_even (n d : Z) : Z :=
  let q := n / d in
  let r := n mod d in
  if 2 * r <? d then q
  else if d <? 2 * r then q + 1
  else if Z.even q then q else q + 1.

(** The fraction [n / d] divided by [2 ^ e]. *)
Definition scaled (n d e : Z) : Z * Z :=
  if 0 <=? e then (n, d * 2 ^ e) else (n * 2 ^ (- e), d).

(** The double nearest to [n / d] for positive [n] and [d]: with [e] the
    exponent that puts [n / d / 2 ^ e] between [2 ^ 52] and [2 ^ 53], the
    significand is that quotient rounded. *)
Definition fl_pos (n d : Z) : Q :=
  let k := Z.log2 n - Z.log2 d in
  let e := (if (scaled n d k).2 <=? (scaled n d k).1 then k else k - 1) - 52 in
  let m := round_even (scaled n d e).1 (scaled n d e).2 in
  Qred (if 0 <=? e then inject_Z (m * 2 ^ e) else Qmake m (Z.to_pos (2 ^ (- e)))).

Definition fl (x : Q) : Q :=
  match Qnum x with
  | Z0 => 0%Q
  | Zpos _ => fl_pos (Qnum x) (Zpos (Qden x))
  | Zneg _ => Qopp (fl_pos (- Qnum x) (Zpos (Qden x)))
  end.

(** [a + b] and [a / b] on doubles. *)
Definition fadd (a b : Q) : Q := fl (a + b)%Q.

Definition fdiv (a b : Q) : Q := fl (a / b)%Q.

(** [x.toFixed(1)], in tenths: the integer [n] for which [n / 10] is nearest
    to the exact value of the double [x], the larger [n] on a tie (the
    magnitude is rounded and the sign put back). The string goes back into
    a [Number] field; the model keeps the number of tenths. *)
Definition toFixed1 (x : Q) : Z :=
  if Qnum x <? 0 then - Qfloor (10 * (- x) + (1 # 2))%Q
  else Qfloor (10 * x + (1 # 2))%Q.

(** [list.reduce((total, x) => total + f(x), 0)] on doubles. *)
Definition sumQ {A} (f : A → Q) (l : list A) : Q :=
  foldl (λ total x, fadd total (f x)) 0%Q l.

Definition calculateAverageRating (s : Session) : Session :=
  if (length (ratings s) =? 0)%nat then set_averageRating 0 s
  else
    let sum := sumQ r_rating (ratings s) in
    set_averageRating
      (toFixed1 (fdiv sum (inject_Z (Z.of_nat (length (ratings s)))))) s.

Definition isUser (userId : string) (p : Participant) : bool :=
  String.eqb (p_user p) userId.

Definition rejoin (now : Z) (p : Participant) : Participant :=
  mkParticipant (p_user p) (Some now) None (p_duration p)
    (p_messages p) (p_reactions p).

Definition recordParticipantJoin (userId : string) (now : Z) (s : Session) : Session :=
  match findIndex (isUser userId) (participants s) with
  | Some participantIndex =>
      set_participants (alter (rejoin now) participantIndex (participants s)) s
  | None =>
      set_participants
        (participants s ++ [mkParticipant userId (Some now) None None 0 0]) s
  end.

(** The body of the [if] of [recordParticipantLeave], on the participant at
    [participantIndex]; a participant without [joinedAt] fails the test and
    is left as it is. *)
Definition leave (now : Z) (p : Participant) : Participant :=
  match joinedAt p with
  | Some joinTime =>
      let durationSeconds := (now - joinTime) / 1000 in
      let existingDuration := default 0 (p_duration p) in
      mkParticipant (p_user p) (joinedAt p) (Some now)
        (Some (existingDuration + durationSeconds))
        (p_messages p) (p_reactions p)
  | None => p
  end.

Definition recordParticipantLeave (userId : string) (now : Z) (s : Session) : Session :=
  match findIndex (isUser userId) (participants s) with
  | Some participantIndex =>
      set_participants (alter (leave now) participantIndex (participants s)) s
  | None => s
  end.

(** ** services/agoraService.js *)

Inductive RtcRole := PUBLISHER | SUBSCRIBER.

Record AgoraService := mkAgoraService {
  appId : string;
  appCertificate : string;
  isConfigured : bool
}.

(** The constructor, reading [process.env]. *)
Definition newAgoraService (env : gmap string string) : AgoraService :=
  let get k := env !! k in
  mkAgoraService
    (if truthyS (get "AGORA_APP_ID") then default EmptyString (get "AGORA_APP_ID")
     else "test-app-id")
    (if truthyS (get "AGORA_APP_CERTIFICATE")
     then default EmptyString (get "AGORA_APP_CERTIFICATE")
     else "test-certificate")
    (truthyS (get "AGORA_APP_ID") && truthyS (get "AGORA_APP_CERTIFICATE")).

Record ChannelDetails := mkChannelDetails {
  cd_channelName : string;
  cd_token : string;
  cd_appId : string
}.

Definition channelOf (sessionId : string) : string := "session_" +:+ sessionId.

Section Service.

(** [RtcTokenBuilder.buildTokenWithUid] of the agora-access-token package:
    application id, certificate, channel, uid, role, privilege expire time
    (seconds since the epoch). *)
Variable buildTokenWithUid :
  string → string → string → string → RtcRole → Z → string.

(** The singleton [module.exports = new AgoraService()]. *)
Variable agoraService : AgoraService.

Definition generateToken (now : Z) (channel uid role : string) (expireTime : Z) : string :=
  if negb (isConfigured agoraService) then "placeholder-token-agora-not-configured"
  else
    let currentTime := now / 1000 in
    let privilegeExpireTime := currentTime + expireTime in
    let userRole := if String.eqb role "publisher" then PUBLISHER else SUBSCRIBER in
    buildTokenWithUid (appId agoraService) (appCertificate agoraService)
      channel uid userRole privilegeExpireTime.

Definition createChannel (now : Z) (sessionId trainerId : string) : ChannelDetails :=
  let channel := channelOf sessionId in
  let hostToken := generateToken now channel trainerId "publisher" (24 * 3600) in
  mkChannelDetails channel hostToken (appId agoraService).

Definition generateViewerToken (now : Z) (sessionId userId : string) : ChannelDetails :=
  let channel := channelOf sessionId in
  let viewerToken := generateToken now channel userId "subscriber" (3 * 3600) in
  mkChannelDetails channel viewerToken (appId agoraService).

Definition isAgoraConfigured : bool := isConfigured agoraService.

End Service.

(** [Session.findByIdAndUpdate(sessionId, { $set: updateData })]: no save
    hook runs, a missing document is left missing. *)
Definition updateSessionStreamStatus (now : Z) (sessionId : string) (st : Status)
    (channel : option string) (db : DB) : DB :=
  match sessions db !! sessionId with
  | None => db
  | Some session =>
      let d := streamingDetails session in
      let d' :=
        match st with
        | live => mkStreamingDetails channel None (sid d) (Some now) (endedAt d)
        | completed =>
            mkStreamingDetails (channelName d) (resourceId d) (sid d)
              (startedAt d) (Some now)
        | _ => d
        end in
      set_sessions
        (<[sessionId := set_streamingDetails d' (set_status st session)]> (sessions db)) db
  end.

(** ** controllers/sessionController.js *)

Definition isAdmin (r : Role) : bool := bool_decide (r = role_admin).

Definition liveOrCompleted (st : Status) : bool :=
  bool_decide (st = live) || bool_decide (st = completed).

(** [if (x) doc.x = x] for a number of the body. *)
Definition assignZ (x : option Z) (old : Z) : Z :=
  if truthyZ x then default old x else old.

(** The booking test [user.bookedSessions.some(b => b.session == id)]. *)
Definition hasBooked (sessionId : string) (u : User) : bool :=
  existsb (λ booking, String.eqb (b_session booking) sessionId) (bookedSessions u).

Definition updateSession : Handler := λ req db,
  match sessions db !! params_id req with
  | None => (reply 404 "Session not found", db)
  | Some session =>
    if negb (String.eqb (s_trainer session) (user_id req)) && negb (isAdmin (user_role req))
    then (reply 403 "Not authorized to update this session", db)
    else if liveOrCompleted (status session)
    then (reply 400 ("Cannot update a " +:+ status_name (status session) +:+ " session"), db)
    else
      let b := body req in
      let session :=
        set_schedule
          (assignZ (body_scheduledAt b) (scheduledAt session))
          (assignZ (body_duration b) (s_duration session))
          (assignZ (body_tokenCost b) (tokenCost session))
          (default (maxParticipants session) (body_maxParticipants b))
          session in
      let assigned :=
        match body_status b with
        | Some st =>
            if truthyS (Some st) && negb (String.eqb st "live")
               && negb (String.eqb st "completed")
            then Some st else None
        | None => None
        end in
      match assigned with
      | None =>
          let db' := saveSession (now req) (params_id req) session db in
          (mkRes 200 EmptyString (SessionData (set_s_updatedAt (now req) session)), db')
      | Some st =>
          (* the enum validator of [status] runs in [save] *)
          match parse_status st with
          | None => (next_err "ValidationError", db)
          | Some st' =>
              let session := set_status st' session in
              let db' := saveSession (now req) (params_id req) session db in
              (mkRes 200 EmptyString (SessionData (set_s_updatedAt (now req) session)), db')
          end
      end
  end.

Definition bookSession : Handler := λ req db,
  match sessions db !! params_id req with
  | None => (reply 404 "Session not found", db)
  | Some session =>
    if scheduledAt session <? now req
    then (reply 400 "Cannot book past sessions", db)
    else if bool_decide (status session = cancelled)
    then (reply 400 "This session has been cancelled", db)
    else
      match users db !! user_id req with
      | None => (next_err "TypeError", db)
      | Some user =>
        if hasBooked (params_id req) user
        then (reply 400 "Session already booked", db)
        else if (0 <? maxParticipants session)
                && (maxParticipants session <=? Z.of_nat (length (participants session)))
        then (reply 400 "Session is full", db)
        else if tokens user <? tokenCost session
        then (reply 400 "Insufficient tokens", db)
        else
          let user :=
            set_bookedSessions
              (bookedSessions user ++ [mkBooking (params_id req) (now req)])
              (set_tokens (tokens user - tokenCost session) user) in
          let session :=
            set_participants
              (participants session ++ [mkParticipant (user_id req) None None None 0 0])
              session in
          let db := saveUser (now req) (user_id req) user db in
          let db := saveSession (now req) (params_id req) session db in
          (mkRes 200 "Session booked successfully" (TokensData (tokens user)), db)
      end
  end.

Definition isRater (userId : string) (r : Rating) : bool :=
  String.eqb (r_user r) userId.

(** [a < b] on numbers. *)
Definition Qltb (a b : Q) : bool := negb (Qle_bool b a).

(** The body of the [forEach] that overwrites an existing rating. *)
Definition overwrite (userId : string) (rating : Q) (feedback : option string)
    (now : Z) (r : Rating) : Rating :=
  if isRater userId r
  then mkRating (r_user r) rating
         (if truthyS feedback then feedback else r_feedback r) now
  else r.

(** The sessions of one trainer, [Session.find({ trainer })]. *)
Definition sessionsOf (trainerId : string) (db : DB) : list Session :=
  (map_to_list (filter (λ kv, s_trainer kv.2 = trainerId) (sessions db))).*2.

(** The [forEach] over the trainer's sessions: a session without ratings
    is skipped, the count of the others is added up, and their sums of
    ratings are added in double precision. [Session.find] fixes no order
    of the sessions; the sum depends on it only when ratings are not whole
    numbers. *)
Definition ratingSumOf (trainerSessions : list Session) : Q :=
  foldl (λ ratingSum s,
           if (0 <? length (ratings s))%nat
           then fadd ratingSum (sumQ r_rating (ratings s))
           else ratingSum)
    0%Q trainerSessions.

(** The full rescan that refreshes the trainer's aggregate rating. *)
Definition updateTrainerRating (now : Z) (trainerId : string) (db : DB) : DB :=
  match users db !! trainerId with
  | None => db
  | Some trainer =>
      let trainerSessions := sessionsOf trainerId db in
      let totalRatings := sumZ (λ s, Z.of_nat (length (ratings s))) trainerSessions in
      let ratingSum := ratingSumOf trainerSessions in
      if 0 <? totalRatings
      then saveUser now trainerId
             (set_trainerProfile (toFixed1 (fdiv ratingSum (inject_Z totalRatings)))
                totalRatings trainer) db
      else db
  end.

Definition rateSession : Handler := λ req db,
  let feedback := body_feedback (body req) in
  if negb (truthyQ (body_rating (body req)))
  then (reply 400 "Rating must be between 1 and 5", db)
  else
  let rating := default 0%Q (body_rating (body req)) in
  if Qltb rating 1 || Qltb 5 rating
  then (reply 400 "Rating must be between 1 and 5", db)
  else
  match sessions db !! params_id req with
  | None => (reply 404 "Session not found", db)
  | Some session =>
    if negb (bool_decide (status session = completed))
    then (reply 400 "Can only rate completed sessions", db)
    else if negb (existsb (isUser (user_id req)) (participants session))
    then (reply 403 "You must participate in the session to rate it", db)
    else
      let finish (session : Session) (db : DB) :=
        let session := calculateAverageRating session in
        let db := saveSession (now req) (params_id req) session db in
        let db := updateTrainerRating (now req) (s_trainer session) db in
        (mkRes 200 "Session rated successfully"
           (RatingData rating (averageRating session)), db) in
      if existsb (isRater (user_id req)) (ratings session)
      then
        finish
          (set_ratings
             (overwrite (user_id req) rating feedback (now req) <$> ratings session)
             session) db
      else
        let session :=
          set_ratings
            (ratings session ++ [mkRating (user_id req) rating feedback (now req)])
            session in
        match users db !! user_id req with
        | None => (next_err "TypeError", db)
        | Some user =>
          let alreadyCompleted :=
            existsb (λ s, String.eqb (c_session s) (params_id req))
              (completedSessions user) in
          let db :=
            if alreadyCompleted then db
            else saveUser (now req) (user_id req)
                   (set_completedSessions
                      (completedSessions user
                         ++ [mkCompletedSession (params_id req) (now req) rating feedback])
                      user) db in
          finish session db
        end
  end.

(** One turn of the refund loop: credit, drop the booking, save. *)
Definition refund (sessionId : string) (cost : Z) (u : User) : User :=
  set_bookedSessions
    (List.filter (λ booking, negb (String.eqb (b_session booking) sessionId))
       (bookedSessions u))
    (set_tokens (tokens u + cost) u).

(** [User.find({ 'bookedSessions.session': id })] *)
Definition bookers (sessionId : string) (db : DB) : list (string * User) :=
  map_to_list (filter (λ kv, hasBooked sessionId kv.2 = true) (users db)).

Definition refundAll (now : Z) (sessionId : string) (cost : Z) (db : DB) : DB :=
  foldl (λ db kv, saveUser now kv.1 (refund sessionId cost kv.2) db)
    db (bookers sessionId db).

Definition updateSessionStatus : Handler := λ req db,
  match body_status (body req) ≫= λ st,
        if String.eqb st "scheduled" then Some scheduled
        else if String.eqb st "cancelled" then Some cancelled
        else None with
  | None => (reply 400 "Invalid status", db)
  | Some st =>
    match sessions db !! params_id req with
    | None => (reply 404 "Session not found", db)
    | Some session =>
      if negb (String.eqb (s_trainer session) (user_id req)) && negb (isAdmin (user_role req))
      then (reply 403 "Not authorized to update this session", db)
      else if liveOrCompleted (status session)
      then (reply 400 ("Cannot change status of a " +:+ status_name (status session)
                         +:+ " session"), db)
      else
        let session := set_status st session in
        let db := saveSession (now req) (params_id req) session db in
        let db :=
          if bool_decide (st = cancelled)
          then refundAll (now req) (params_id req) (tokenCost session) db
          else db in
        (mkRes 200
           ("Session " +:+ (if bool_decide (st = cancelled) then "cancelled" else "updated")
              +:+ " successfully")
           (SessionData (set_s_updatedAt (now req) session)), db)
    end
  end.

(** [p.joinedAt] of the attended filter. *)
Definition attended (p : Participant) : bool := isSome (joinedAt p).

(** [p.joinedAt && p.duration && p.duration >= session.duration * 0.8].
    For whole numbers the comparison with [duration * 0.8] is the
    comparison [5 * p.duration >= 4 * duration]. *)
Definition completedParticipant (sessionDuration : Z) (p : Participant) : bool :=
  isSome (joinedAt p) && truthyZ (p_duration p)
  && (4 * sessionDuration <=? 5 * default 0 (p_duration p)).

(** The [participants] block of the analytics. [populate('trainer')] leaves
    [null] for a trainer that is not stored, and [session.trainer._id] then
    raises a [TypeError]; the populated users of the participants and of the
    ratings are not read. *)
Definition getSessionAnalytics : Handler := λ req db,
  match sessions db !! params_id req with
  | None => (reply 404 "Session not found", db)
  | Some session =>
    if negb (isSome (users db !! s_trainer session))
    then (next_err "TypeError", db)
    else if negb (String.eqb (s_trainer session) (user_id req))
            && negb (isAdmin (user_role req))
    then (reply 403 "Not authorized to view analytics for this session", db)
    else
      let totalParticipants := length (participants session) in
      let attendedParticipants := length (List.filter attended (participants session)) in
      let completedParticipants :=
        length (List.filter (completedParticipant (s_duration session))
                  (participants session)) in
      (mkRes 200 EmptyString
         (AnalyticsData totalParticipants attendedParticipants completedParticipants), db)
  end.

(** ** controllers/userController.js and controllers/packageController.js *)

Definition updateTokens : Handler := λ req db,
  if negb (truthyZ (body_tokens (body req))) || (default 0 (body_tokens (body req)) <? 0)
  then (reply 400 "Invalid token amount", db)
  else
  let amount := default 0 (body_tokens (body req)) in
  match users db !! params_id req with
  | None => (reply 404 "User not found", db)
  | Some user =>
    let operation := default EmptyString (body_operation (body req)) in
    let finish (user : User) :=
      (mkRes 200 "Tokens updated successfully" (TokensData (tokens user)),
       saveUser (now req) (params_id req) user db) in
    if String.eqb operation "add"
    then finish (set_tokens (tokens user + amount) user)
    else if String.eqb operation "subtract"
    then
      if tokens user <? amount
      then (reply 400 "User does not have enough tokens", db)
      else finish (set_tokens (tokens user - amount) user)
    else finish (set_tokens amount user)
  end.

(** The [enum] validator of [Transaction.paymentMethod]. *)
Definition validPaymentMethod (m : string) : bool :=
  String.eqb m "credit_card" || String.eqb m "paypal"
  || String.eqb m "stripe" || String.eqb m "other".

Definition purchasePackage : Handler := λ req db,
  if negb (truthyS (body_paymentMethod (body req)))
  then (reply 400 "Payment method is required", db)
  else
  let paymentMethod := default EmptyString (body_paymentMethod (body req)) in
  match packages db !! params_id req with
  | None => (reply 404 "Package not found", db)
  | Some pkg =>
    if negb (active pkg)
    then (reply 400 "This package is not available for purchase", db)
    else if isPromotion pkg
            && match validUntil pkg with Some t => t <? now req | None => false end
    then (reply 400 "This promotion has expired", db)
    else
      let transaction :=
        mkTransaction (user_id req) (params_id req) (tokenAmount pkg) (price pkg)
          paymentMethod "completed" in
      match users db !! user_id req with
      | None => (next_err "TypeError", db)
      | Some user =>
        let user := set_tokens (tokens user + tokenAmount pkg) user in
        if negb (validPaymentMethod paymentMethod)
        then (next_err "ValidationError", db)
        else
          let db := saveTransaction transaction db in
          let db := saveUser (now req) (user_id req) user db in
          (mkRes 200 "Purchase successful" (TokensData (tokens user)), db)
      end
  end.

(** ** controllers/streamController.js *)

Section Controllers.

Variable buildTokenWithUid :
  string → string → string → string → RtcRole → Z → string.
Variable agoraService : AgoraService.

Definition streamDataOf (d : ChannelDetails) (uid : string) : Payload :=
  StreamData (cd_appId d) (cd_channelName d) (cd_token d) (Some uid).

(** [populate('trainer')] leaves [null] for a trainer that is not stored, and
    [session.trainer._id] then raises a [TypeError]. *)
Definition startStream : Handler := λ req db,
  match sessions db !! params_id req with
  | None => (reply 404 "Session not found", db)
  | Some session =>
    if negb (isSome (users db !! s_trainer session))
    then (next_err "TypeError", db)
    else if negb (String.eqb (s_trainer session) (user_id req))
    then (reply 403 "Only the assigned trainer can start this stream", db)
    else if bool_decide (status session = live)
    then (reply 400 "Session is already live", db)
    else if bool_decide (status session = cancelled)
            || bool_decide (status session = completed)
    then (reply 400 ("Cannot start a " +:+ status_name (status session) +:+ " session"), db)
    else
      let details :=
        createChannel buildTokenWithUid agoraService (now req)
          (params_id req) (user_id req) in
      let db :=
        updateSessionStreamStatus (now req) (params_id req) live
          (Some (cd_channelName details)) db in
      (mkRes 200 "Stream started successfully" (streamDataOf details (user_id req)), db)
  end.

(** The service object has no [stopRecording] method: the call of the
    recording branch raises a [TypeError]. *)
Definition endStream : Handler := λ req db,
  match sessions db !! params_id req with
  | None => (reply 404 "Session not found", db)
  | Some session =>
    if negb (String.eqb (s_trainer session) (user_id req))
    then (reply 403 "Only the assigned trainer can end this stream", db)
    else if negb (bool_decide (status session = live))
    then (reply 400 "Session is not currently live", db)
    else if truthyS (resourceId (streamingDetails session))
            && truthyS (sid (streamingDetails session))
    then (next_err "TypeError", db)
    else
      let db := updateSessionStreamStatus (now req) (params_id req) completed None db in
      (reply 200 "Stream ended successfully", db)
  end.

(** The first [exports.joinStream] of the file ("Join a streaming
    session"). *)
Definition joinStream_1 : Handler := λ req db,
  match sessions db !! params_id req with
  | None => (reply 404 "Session not found", db)
  | Some session =>
    if negb (bool_decide (status session = live))
    then (reply 400 "Session is not currently live", db)
    else
      let isTrainer := String.eqb (s_trainer session) (user_id req) in
      let join (db : DB) :=
        let streamDetails :=
          if isTrainer
          then createChannel buildTokenWithUid agoraService (now req)
                 (params_id req) (user_id req)
          else generateViewerToken buildTokenWithUid agoraService (now req)
                 (params_id req) (user_id req) in
        (mkRes 200 "Joined stream successfully"
           (streamDataOf streamDetails (user_id req)), db) in
      if isTrainer then join db
      else
        match users db !! user_id req with
        | None => (next_err "TypeError", db)
        | Some user =>
          if negb (hasBooked (params_id req) user)
          then (reply 403 "You must book this session to join", db)
          else
            let alreadyJoined := existsb (isUser (user_id req)) (participants session) in
            if alreadyJoined then join db
            else
              join (saveSession (now req) (params_id req)
                      (set_participants
                         (participants session
                            ++ [mkParticipant (user_id req) (Some (now req)) None None 0 0])
                         session) db)
        end
  end.

(** The first [exports.leaveStream] of the file. *)
Definition leaveStream_1 : Handler := λ req db,
  (reply 200 "Left stream successfully", db).

(** The second [exports.joinStream] of the file ("Record user joining a
    session"). *)
Definition joinStream : Handler := λ req db,
  match sessions db !! params_id req with
  | None => (reply 404 "Session not found", db)
  | Some session =>
    if negb (bool_decide (status session = live))
    then (reply 400 "Session is not currently live", db)
    else
      let session := recordParticipantJoin (user_id req) (now req) session in
      let db := saveSession (now req) (params_id req) session db in
      let streamData :=
        if truthyS (channelName (streamingDetails session))
        then
          if isAgoraConfigured agoraService
          then
            let d := generateViewerToken buildTokenWithUid agoraService (now req)
                       (params_id req) (user_id req) in
            StreamData (cd_appId d) (cd_channelName d) (cd_token d) None
          else
            StreamData "dev-app-id"
              (default EmptyString (channelName (streamingDetails session)))
              "dev-token-agora-not-configured" (Some (user_id req))
        else EmptyStreamData in
      (mkRes 200 "Joined stream successfully" streamData, db)
  end.

(** The second [exports.leaveStream] of the file ("Record user leaving a
    session"). *)
Definition leaveStream : Handler := λ req db,
  match sessions db !! params_id req with
  | None => (reply 404 "Session not found", db)
  | Some session =>
    let session := recordParticipantLeave (user_id req) (now req) session in
    let db := saveSession (now req) (params_id req) session db in
    (reply 200 "Left stream successfully", db)
  end.

(** The [exports] object of the module after all its assignments, in the
    order of the file: a later assignment to a name replaces the earlier
    one. *)
Definition streamController : gmap string Handler :=
  <["leaveStream" := leaveStream]>
    (<["joinStream" := joinStream]>
       (<["leaveStream" := leaveStream_1]>
          (<["joinStream" := joinStream_1]>
             (<["endStream" := endStream]>
                (<["startStream" := startStream]> ∅))))).

(** ** Middleware and routes *)

(** middleware/auth.js with config/passport.js: the bearer identity is
    looked up and [req.user] is the stored user. *)
Definition authenticate (h : Handler) : Handler := λ req db,
  match users db !! user_id req with
  | None => (reply 401 "Authentication failed", db)
  | Some u => h (mkReq (params_id req) (user_id req) (role u) (body req) (now req)) db
  end.

Definition isTrainer (h : Handler) : Handler := λ req db,
  if bool_decide (user_role req = role_trainer) || bool_decide (user_role req = role_admin)
  then h req db
  else (reply 403 "Trainer access required", db).

Definition isOwnerOrAdmin (h : Handler) : Handler := λ req db,
  if bool_decide (user_role req = role_admin) || String.eqb (user_id req) (params_id req)
  then h req db
  else (reply 403 "Access denied", db).

Inductive Endpoint :=
| PUT_session
| PUT_session_status
| POST_session_book
| POST_session_rate
| GET_session_analytics
| POST_stream_start
| POST_stream_end
| POST_stream_join
| POST_stream_leave
| PUT_user_tokens
| POST_package_purchase.

Definition exported (name : string) : Handler :=
  default (λ _ db, (next_err "TypeError", db)) (streamController !! name).

(** routes/sessionRoutes.js, routes/streamRoutes.js, routes/userRoutes.js
    and routes/packageRoutes.js. *)
Definition route (e : Endpoint) : Handler :=
  match e with
  | PUT_session => authenticate (isTrainer updateSession)
  | PUT_session_status => authenticate (isTrainer updateSessionStatus)
  | POST_session_book => authenticate bookSession
  | POST_session_rate => authenticate rateSession
  | GET_session_analytics => authenticate (isTrainer getSessionAnalytics)
  | POST_stream_start => authenticate (isTrainer (exported "startStream"))
  | POST_stream_end => authenticate (isTrainer (exported "endStream"))
  | POST_stream_join => authenticate (exported "joinStream")
  | POST_stream_leave => authenticate (exported "leaveStream")
  | PUT_user_tokens => authenticate (isOwnerOrAdmin updateTokens)
  | POST_package_purchase => authenticate purchasePackage
  end.

(** A run of the server: requests served one after the other. *)
Definition serve (db : DB) (rs : list (Endpoint * Req)) : DB :=
  foldl (λ db r, (route r.1 r.2 db).2) db rs.

End Controllers.


(** ** Observations used by the statements *)

(** The record of a user in a roster: the first one [findIndex] meets. *)
Definition participantOf (userId : string) (s : Session) : option Participant :=
  findIndex (isUser userId) (participants s) ≫= λ i, participants s !! i.

(** Following the specification's words, not the code: a participant has
    completed the session when they attended and their tracked duration is
    at least 80% of the scheduled duration, both in seconds. *)
Definition completed_spec (sessionDurationMinutes : Z) (p : Participant) : bool :=
  isSome (joinedAt p)
  && (4 * (60 * sessionDurationMinutes) <=? 5 * default 0 (p_duration p)).

(** The tokens held by all users together. *)
Definition totalTokens (db : DB) : Z :=
  map_fold (λ _ u total, tokens u + total) 0 (users db).

(** What the refund loop leaves of one stored user. *)
Definition refunded (now : Z) (sessionId : string) (cost : Z) (u : User) : User :=
  if hasBooked sessionId u then set_u_updatedAt now (refund sessionId cost u) else u.

(** The status of every stored session. *)
Definition statuses (db : DB) : gmap string Status := status <$> sessions db.

(** The moves of the stored status the handlers make. *)
Inductive transition : Status → Status → Prop :=
| transition_start : transition scheduled live
| transition_end : transition live completed
| transition_cancel : transition scheduled cancelled
| transition_reschedule : transition cancelled scheduled.


(** No stored balance is negative. *)
Definition balances_ok (db : DB) : Prop :=
  map_Forall (λ _ u, 0 ≤ tokens u) (users db).

(** [if (feedback) r.feedback = feedback]: the text a resubmission leaves. *)
Definition supplied (old new : option string) : option string :=
  if truthyS new then new else old.

(** One rating call of a user on a session: rating, feedback, instant. *)
Definition rateReq (sessionId userId : string) (c : Q * option string * Z) : Req :=
  mkReq sessionId userId role_user (ratingBody c.1.1 c.1.2) c.2.

Definition rateAll (sessionId userId : string) (db : DB)
    (calls : list (Q * option string * Z)) : DB :=
  foldl (λ db c, (rateSession (rateReq sessionId userId c) db).2) db calls.

(** What a handler may do to the stored statuses: nothing, or one of the
    four moves on the session the request addresses. *)
Definition status_step (h : Handler) : Prop :=
  ∀ req db,
    statuses (h req db).2 = statuses db
    ∨ ∃ st st', statuses db !! params_id req = Some st ∧ transition st st'
                ∧ statuses (h req db).2 = <[params_id req := st']> (statuses db).

(** A request that is not answered 200 leaves the database as it was. *)
Definition rejects_cleanly (h : Handler) : Prop :=
  ∀ req db, code (h req db).1 ≠ 200 → (h req db).2 = db.

(** The session a request addresses has a non-negative token cost, the
    package it addresses a non-negative token amount. *)
Definition cost_ok (id : string) (db : DB) : Prop :=
  ∀ s, sessions db !! id = Some s → 0 ≤ tokenCost s.

Definition amount_ok (id : string) (db : DB) : Prop :=
  ∀ p, packages db !! id = Some p → 0 ≤ tokenAmount p.

(** A handler keeps the balances non-negative on the databases that meet
    [pre] at the id of the request. *)
Definition balances_step (pre : string → DB → Prop) (h : Handler) : Prop :=
  ∀ req db, balances_ok db → pre (params_id req) db → balances_ok (h req db).2.

Definition always (id : string) (db : DB) : Prop := True.

(** The ratings of one user on a session, and the other ones. *)
Definition ratingsOf (userId : string) (s : Session) : list Rating :=
  List.filter (isRater userId) (ratings s).

Definition ratingsOfOthers (userId : string) (s : Session) : list Rating :=
  List.filter (λ r, negb (isRater userId r)) (ratings s).

(** A completed session the user took part in, with at most one rating of
    the user so far. *)
Definition ratable (sessionId userId : string) (db : DB) : Prop :=
  ∃ s, sessions db !! sessionId = Some s ∧ status s = completed
       ∧ existsb (isUser userId) (participants s) = true
       ∧ is_Some (users db !! userId)
       ∧ (length (ratingsOf userId s) ≤ 1)%nat.

(** ** Sample documents *)

Definition noStreaming : StreamingDetails :=
  mkStreamingDetails None None None None None.

(** A one-hour session of trainer1 that costs two tokens and is scheduled at
    instant 5000. *)
Definition sampleSession (st : Status) (ps : list Participant) : Session :=
  mkSession "trainer1" 5000 60 2 0 ps st noStreaming [] 0 0.

Definition sampleUser (t : Z) (bs : list Booking) : User :=
  mkUser role_user t bs [] 0 0 0.

Definition sampleTrainer : User := mkUser role_trainer 0 [] [] 0 0 0.

Definition sampleDB (s : Session) (u : User) : DB :=
  mkDB {["session1" := s]} (<["user1" := u]> {["trainer1" := sampleTrainer]}) ∅ [].

Definition bookedOnly (u : string) : Participant :=
  mkParticipant u None None None 0 0.

Definition sampleBuild : string → string → string → string → RtcRole → Z → string :=
  λ _ _ channel uid _ _, channel +:+ "/" +:+ uid.


(** * Further handlers *)

(** ** controllers/sessionController.js: deletion *)

(** [session.remove()] deletes the stored document. *)
Definition deleteSession : Handler := λ req db,
  match sessions db !! params_id req with
  | None => (reply 404 "Session not found", db)
  | Some session =>
    if negb (String.eqb (s_trainer session) (user_id req)) && negb (isAdmin (user_role req))
    then (reply 403 "Not authorized to delete this session", db)
    else if liveOrCompleted (status session)
    then (reply 400 ("Cannot delete a " +:+ status_name (status session) +:+ " session"), db)
    else
      (reply 200 "Session deleted successfully",
       set_sessions (delete (params_id req) (sessions db)) db)
  end.

(** ** controllers/userController.js: deletion and the booked sessions *)


(** One entry of the answer of [getUserSessions]; the title and the
    trainer's name are not part of the modelled documents. *)
Record BookedSessionView := mkBookedSessionView {
  bv_id : string;
  bv_scheduledAt : Z;
  bv_duration : Z;
  bv_status : Status;
  bv_bookedAt : Z
}.

(** The callback of [user.bookedSessions.map] on the populated booking:
    [populate] leaves [null] for a session or a trainer that is not stored,
    and the callback then reads a property of [null]. *)
Definition bookingView (db : DB) (b : Booking) : option BookedSessionView :=
  match sessions db !! b_session b with
  | None => None
  | Some s =>
      match users db !! s_trainer s with
      | None => None
      | Some _ =>
          Some (mkBookedSessionView (b_session b) (scheduledAt s) (s_duration s)
                  (status s) (bookedAt b))
      end
  end.

Definition getUserSessions (req : Req) (db : DB) : Res + list BookedSessionView :=
  match users db !! params_id req with
  | None => inl (reply 404 "User not found")
  | Some user =>
      match mapM (bookingView db) (bookedSessions user) with
      | Some views => inr views
      | None => inl (next_err "TypeError")
      end
  end.

(** ** controllers/packageController.js: reading and soft deletion *)

Definition deletePackage : Handler := λ req db,
  match packages db !! params_id req with
  | None => (reply 404 "Package not found", db)
  | Some pkg =>
      let pkg := mkPackage (tokenAmount pkg) (price pkg) false (isPromotion pkg)
                   (validUntil pkg) in
      (reply 200 "Package deactivated successfully",
       mkDB (sessions db) (users db) (<[params_id req := pkg]> (packages db))
         (transactions db))
  end.

(** [requester] is the role of [req.user], [None] when the request carries
    no user. *)
Definition getPackageById (requester : option Role) (id : string) (db : DB)
    : Res + Package :=
  match packages db !! id with
  | None => inl (reply 404 "Package not found")
  | Some pkg =>
      if negb (active pkg)
         && negb (match requester with Some r => isAdmin r | None => false end)
      then inl (reply 404 "Package not found")
      else inr pkg
  end.

(** ** controllers/streamController.js: reading *)

Inductive StreamingDetailsRes :=
| SD_reply (r : Res)
| SD_canStart (scheduledAt : Z)
| SD_live (isHost : bool) (d : ChannelDetails) (startedAt : option Z) (uid : string).

(** [(scheduledTime - now) / (1000 * 60) <= bufferMinutes] with the buffer
    of 15 minutes, on whole milliseconds. *)
Definition withinBuffer (scheduledTime now : Z) : bool :=
  scheduledTime - now <=? 15 * (1000 * 60).

Definition getStreamingDetails
    (buildTokenWithUid : string → string → string → string → RtcRole → Z → string)
    (agoraService : AgoraService) (req : Req) (db : DB) : StreamingDetailsRes :=
  match sessions db !! params_id req with
  | None => SD_reply (reply 404 "Session not found")
  | Some session =>
    let isTrainer :=
      bool_decide (user_role req = role_trainer) || bool_decide (user_role req = role_admin) in
    let isSessionTrainer := String.eqb (s_trainer session) (user_id req) in
    let continue :=
      if bool_decide (status session = cancelled)
      then SD_reply (reply 400 "This session has been cancelled")
      else if bool_decide (status session = completed)
      then SD_reply (reply 400 "This session has ended")
      else
        let participant :=
          if bool_decide (status session = scheduled)
          then SD_reply (reply 400 "Stream has not started yet")
          else if bool_decide (status session = live)
          then SD_live false
                 (generateViewerToken buildTokenWithUid agoraService (now req)
                    (params_id req) (user_id req))
                 (startedAt (streamingDetails session)) (user_id req)
          else SD_reply (reply 400 "Unable to determine stream status") in
        if isTrainer && isSessionTrainer
        then
          if bool_decide (status session = scheduled)
             && withinBuffer (scheduledAt session) (now req)
          then SD_canStart (scheduledAt session)
          else if bool_decide (status session = live)
                  && truthyS (channelName (streamingDetails session))
          then SD_live true
                 (createChannel buildTokenWithUid agoraService (now req)
                    (params_id req) (user_id req))
                 (startedAt (streamingDetails session)) (user_id req)
          else if bool_decide (status session = scheduled)
                  && negb (withinBuffer (scheduledAt session) (now req))
          then SD_reply
                 (reply 400 "Stream can be started 15 minutes before scheduled time")
          else participant
        else participant in
    match users db !! s_trainer session with
    | None =>
        (* the populated [session.trainer] is [null] *)
        SD_reply (next_err "TypeError")
    | Some _ =>
      if negb isTrainer || negb isSessionTrainer
      then
        match users db !! user_id req with
        | None => SD_reply (next_err "TypeError")
        | Some user =>
            if negb (hasBooked (params_id req) user)
            then SD_reply (reply 403 "You must book this session to join")
            else continue
        end
      else continue
    end
  end.

(** One entry of the answer of [getStreamParticipants]; the name, the email
    and the picture of the populated user are not part of the modelled
    documents. *)
Record ParticipantView := mkParticipantView {
  pv_id : string;
  pv_joinedAt : option Z;
  pv_active : bool;
  pv_duration : Z
}.

(** The [isActive] of the handler: joined, and not left or joined again
    after the leave. *)
Definition isActive (p : Participant) : bool :=
  match joinedAt p with
  | None => false
  | Some lastJoinTime =>
      match leaveAt p with
      | None => true
      | Some leftAt => leftAt <? lastJoinTime
      end
  end.

(** The callback of the [map]: a participant whose user is not stored is
    populated with [null], and the callback reads a property of it. *)
Definition participantView (db : DB) (p : Participant) : option ParticipantView :=
  match users db !! p_user p with
  | None => None
  | Some _ =>
      Some (mkParticipantView (p_user p) (joinedAt p) (isActive p)
              (default 0 (p_duration p)))
  end.

Record ParticipantsAnswer := mkParticipantsAnswer {
  pa_participants : list ParticipantView;
  totalCount : nat;
  activeCount : nat
}.

(** The second [exports.getStreamParticipants] of the file, the one that
    stays exported. *)
Definition getStreamParticipants (req : Req) (db : DB) : Res + ParticipantsAnswer :=
  match sessions db !! params_id req with
  | None => inl (reply 404 "Session not found")
  | Some session =>
    let isTrainerOrAdmin :=
      bool_decide (user_role req = role_trainer)
      || bool_decide (user_role req = role_admin)
      || String.eqb (s_trainer session) (user_id req) in
    if negb isTrainerOrAdmin
    then inl (reply 403 "Not authorized to view participant details")
    else
      match mapM (participantView db) (List.filter attended (participants session)) with
      | None => inl (next_err "TypeError")
      | Some views =>
          inr (mkParticipantsAnswer views (length views)
                 (length (List.filter pv_active views)))
      end
  end.

(** ** models/Session.js: chat messages and reactions *)

Record Message := mkMessage {
  m_user : string;
  m_message : string;
  m_timestamp : Z
}.

Record Reaction := mkReaction {
  x_user : string;
  x_type : string;
  x_timestamp : Z
}.

(** A session document with its [messages] and [reactions] arrays. *)
Record SessionDoc := mkSessionDoc {
  doc_session : Session;
  doc_messages : list Message;
  doc_reactions : list Reaction
}.

Definition countMessage (p : Participant) : Participant :=
  mkParticipant (p_user p) (joinedAt p) (leaveAt p) (p_duration p)
    (p_messages p + 1) (p_reactions p).

Definition countReaction (p : Participant) : Participant :=
  mkParticipant (p_user p) (joinedAt p) (leaveAt p) (p_duration p)
    (p_messages p) (p_reactions p + 1).

(** The counter update shared by [addMessage] and [addReaction]. *)
Definition countFor (userId : string) (f : Participant → Participant) (s : Session)
    : Session :=
  match findIndex (isUser userId) (participants s) with
  | Some participantIndex => set_participants (alter f participantIndex (participants s)) s
  | None => s
  end.

Definition addMessage (userId message : string) (now : Z) (d : SessionDoc) : SessionDoc :=
  mkSessionDoc (countFor userId countMessage (doc_session d))
    (doc_messages d ++ [mkMessage userId message now]) (doc_reactions d).

Definition addReaction (userId type : string) (now : Z) (d : SessionDoc) : SessionDoc :=
  mkSessionDoc (countFor userId countReaction (doc_session d))
    (doc_messages d) (doc_reactions d ++ [mkReaction userId type now]).

(** The [enum] of the reaction types. *)
Definition validReaction (type : string) : bool :=
  String.eqb type "thumbsUp" || String.eqb type "heart" || String.eqb type "star"
  || String.eqb type "clap" || String.eqb type "fire".

Definition saveDoc (now : Z) (d : SessionDoc) : SessionDoc :=
  mkSessionDoc (set_s_updatedAt now (doc_session d)) (doc_messages d) (doc_reactions d).

(** [sendReaction], on the document [Session.findById] returns. *)
Definition sendReaction (type : option string) (req : Req) (found : option SessionDoc)
    : Res * option SessionDoc :=
  if negb (truthyS type) || negb (validReaction (default EmptyString type))
  then (reply 400 "Valid reaction type is required", found)
  else
    match found with
    | None => (reply 404 "Session not found", found)
    | Some d =>
        if negb (bool_decide (status (doc_session d) = live))
        then (reply 400 "Session is not currently live", found)
        else
          let d := addReaction (user_id req) (default EmptyString type) (now req) d in
          (mkRes 201 EmptyString NoData, Some (saveDoc (now req) d))
    end.

Section Chat.

(** [String.prototype.trim] *)
Variable trim : string → string.

(** [sendMessage], on the document [Session.findById] returns; the answer
    carries the text in its [message] field. *)
Definition sendMessage (message : option string) (req : Req) (found : option SessionDoc)
    : Res * option SessionDoc :=
  if negb (truthyS message) || String.eqb (trim (default EmptyString message)) EmptyString
  then (reply 400 "Message content is required", found)
  else
    match found with
    | None => (reply 404 "Session not found", found)
    | Some d =>
        if negb (bool_decide (status (doc_session d) = live))
        then (reply 400 "Session is not currently live", found)
        else
          let d := addMessage (user_id req) (default EmptyString message) (now req) d in
          (mkRes 201 (default EmptyString message) NoData, Some (saveDoc (now req) d))
    end.

End Chat.

(** ** controllers/sessionController.js: the rating histogram of the analytics *)

(** [ratingDistribution], the object with the keys 1 to 5, filled by
    [Math.floor(rating.rating)]. *)
Definition ratingDistribution (rs : list Rating) : gmap Z Z :=
  foldl
    (λ distribution r,
       let ratingValue := Qfloor (r_rating r) in
       if (1 <=? ratingValue) && (ratingValue <=? 5)
       then <[ratingValue := default 0 (distribution !! ratingValue) + 1]> distribution
       else distribution)
    (list_to_map [(1, 0); (2, 0); (3, 0); (4, 0); (5, 0)]) rs.

(** ** Middleware and routes of the further handlers *)

(** [isAdmin] of middleware/roleCheck.js. *)
Definition adminOnly (h : Handler) : Handler := λ req db,
  if bool_decide (user_role req = role_admin)
  then h req db
  else (reply 403 "Admin access required", db).

(** DELETE api/sessions/:id, DELETE api/users/:id, DELETE api/packages/:id *)
Definition DELETE_session : Handler := authenticate (isTrainer deleteSession).


Definition DELETE_package : Handler := authenticate (adminOnly deletePackage).









(** ** Observations of the further statements *)

(** A number from 1 to 5. *)
Definition inRange (q : Q) : Prop := (1 <= q)%Q ∧ (q <= 5)%Q.

(** The ratings stored on a session are numbers from 1 to 5. *)
Definition ratings_valid (s : Session) : Prop :=
  Forall (λ r, inRange (r_rating r)) (ratings s).

(** The whole part of a rating, and the number of ratings with a given
    whole part. *)
Definition stars (r : Rating) : Z := Qfloor (r_rating r).

Definition countRating (v : Z) (rs : list Rating) : Z :=
  Z.of_nat (length (List.filter (λ r, stars r =? v) rs)).

(** A rating that is a whole number of stars from 1 to 5. *)
Definition wholeStars (r : Rating) : Prop :=
  r_rating r = inject_Z (stars r) ∧ 1 ≤ stars r ≤ 5.

(** No user has two records on the roster. *)
Definition roster_unique (s : Session) : Prop :=
  NoDup (p_user <$> participants s).

(** The tests of [bookSession] all pass. *)
Definition bookable (req : Req) (session : Session) (user : User) : Prop :=
  now req ≤ scheduledAt session
  ∧ status session ≠ cancelled
  ∧ hasBooked (params_id req) user = false
  ∧ ¬ (0 < maxParticipants session
       ∧ maxParticipants session ≤ Z.of_nat (length (participants session)))
  ∧ tokenCost session ≤ tokens user.

(** The requester is the trainer of the session or an administrator. *)
Definition mayManage (req : Req) (session : Session) : Prop :=
  s_trainer session = user_id req ∨ user_role req = role_admin.

(** The body carries a rating from 1 to 5. *)
Definition validRating (o : option Q) : Prop := ∃ v, o = Some v ∧ inRange v.

(** One bucket of the histogram, and the sum of the five buckets. *)
Definition bucket (d : gmap Z Z) (v : Z) : Z := default 0 (d !! v).

Definition bucketsTotal (d : gmap Z Z) : Z :=
  bucket d 1 + bucket d 2 + bucket d 3 + bucket d 4 + bucket d 5.

(** The number and the sum of the ratings on all sessions of a trainer. *)
Definition ratingCount (trainerId : string) (db : DB) : Z :=
  sumZ (λ s, Z.of_nat (length (ratings s))) (sessionsOf trainerId db).

Definition ratingSum (trainerId : string) (db : DB) : Z :=
  sumZ (λ s, sumZ stars (ratings s)) (sessionsOf trainerId db).

(** Every stored rating is a number from 1 to 5. *)
Definition all_ratings_valid (db : DB) : Prop :=
  map_Forall (λ _ s, ratings_valid s) (sessions db).

(** The promotion test of [purchasePackage] passes. *)
Definition notExpired (now : Z) (pkg : Package) : Prop :=
  isPromotion pkg = false ∨ validUntil pkg = None
  ∨ ∃ t, validUntil pkg = Some t ∧ now ≤ t.

(** ** Sample package *)

Definition paymentBody (m : string) : Body :=
  mkBody None None None None None None None None None (Some m).

(** Ten tokens for 999. *)
Definition samplePackage : Package := mkPackage 10 999 true false None.

Definition sampleShop (u : User) : DB :=
  mkDB ∅ {["user1" := u]} {["pack1" := samplePackage]} [].

(** The requester has the trainer or the administrator role and is the
    trainer of the session. *)
Definition hostOf (req : Req) (session : Session) : Prop :=
  (user_role req = role_trainer ∨ user_role req = role_admin)
  ∧ s_trainer session = user_id req.

(** The streaming details [startStream] leaves. *)
Definition startedDetails (now : Z) (sessionId : string) (d : StreamingDetails)
    : StreamingDetails :=
  mkStreamingDetails (Some (channelOf sessionId)) None (sid d) (Some now) (endedAt d).

(** Every stored reaction has one of the five types of the schema. *)
Definition reactions_valid (d : SessionDoc) : Prop :=
  Forall (λ x, validReaction (x_type x) = true) (doc_reactions d).

(** The sender has a record on the roster. *)
Definition onRoster (userId : string) (s : Session) : bool :=
  existsb (isUser userId) (participants s).

(** A live session that carries the ids of a cloud recording, the test of
    the recording branch of [endStream]. *)
Definition recording (s : Session) : Prop :=
  status s = live
  ∧ truthyS (resourceId (streamingDetails s)) = true
  ∧ truthyS (sid (streamingDetails s)) = true.

(** What a request does to a stored session: it keeps the session stored,
    and either keeps its streaming details, a live session staying live;
    or starts it, which clears the recording resource; or ends it, which
    needs a session without recording and keeps the resource. *)
Definition details_step (h : Handler) : Prop :=
  ∀ req db id s, sessions db !! id = Some s →
    ∃ s', sessions (h req db).2 !! id = Some s'
      ∧ ((streamingDetails s' = streamingDetails s
          ∧ (status s = live → status s' = live))
         ∨ (resourceId (streamingDetails s') = None ∧ status s ≠ live)
         ∨ (¬ recording s
            ∧ resourceId (streamingDetails s') = resourceId (streamingDetails s))).


(** * Properties *)

(** ** Lists of sub-documents *)

Lemma findIndex_lookup {A} (f : A → bool) (l : list A) (i : nat) :
  findIndex f l = Some i → ∃ x, l !! i = Some x ∧ f x = true.
Proof.
  revert i. induction l as [|x l IH]; intros i; simpl; [done|].
  destruct (f x) eqn:Hx.
  - intros [= <-]. by exists x.
  - destruct (findIndex f l) as [j|]; simpl; [|done].
    intros [= <-]. apply (IH j eq_refl).
Qed.

Lemma findIndex_None {A} (f : A → bool) (l : list A) :
  findIndex f l = None ↔ existsb f l = false.
Proof.
  induction l as [|x l IH]; simpl; [done|].
  destruct (f x); simpl; [done|].
  destruct (findIndex f l); simpl; [|done].
  split; intros H; [done|]. apply IH in H. done.
Qed.

Lemma findIndex_app_fresh {A} (f : A → bool) (l : list A) (x : A) :
  findIndex f l = None → f x = true →
  findIndex f (l ++ [x]) = Some (length l).
Proof.
  induction l as [|y l IH]; simpl; intros Hn Hx.
  - by rewrite Hx.
  - destruct (f y); [done|].
    destruct (findIndex f l); [done|]. by rewrite IH.
Qed.

(** Updating the found element by a function that keeps the key keeps the
    index. *)
Lemma findIndex_alter {A} (f : A → bool) (g : A → A) (l : list A) (i : nat) :
  (∀ x, f (g x) = f x) →
  findIndex f (alter g i l) = findIndex f l.
Proof.
  intros Hg. revert i. induction l as [|x l IH]; intros [|i]; try done.
  - cbn. by rewrite Hg.
  - cbn. fold (alter g i l). by rewrite IH.
Qed.

Lemma isUser_rejoin u now p : isUser u (rejoin now p) = isUser u p.
Proof. done. Qed.

Lemma isUser_leave u now p : isUser u (leave now p) = isUser u p.
Proof. unfold leave. by destruct (joinedAt p). Qed.

Lemma participantOf_join (u : string) (now : Z) (s : Session) :
  participantOf u (recordParticipantJoin u now s)
  = Some (match participantOf u s with
          | Some p => rejoin now p
          | None => mkParticipant u (Some now) None None 0 0
          end).
Proof.
  unfold participantOf, recordParticipantJoin.
  destruct (findIndex (isUser u) (participants s)) as [i|] eqn:Hi; simpl.
  - rewrite findIndex_alter, Hi by apply isUser_rejoin. simpl.
    destruct (findIndex_lookup _ _ _ Hi) as (p & Hp & _).
    rewrite list_lookup_alter_eq, Hp. done.
  - rewrite findIndex_app_fresh; [|done|].
    + simpl. rewrite lookup_app_r, Nat.sub_diag by lia. done.
    + unfold isUser. simpl. by rewrite String.eqb_refl.
Qed.

Lemma participantOf_leave (u : string) (now : Z) (s : Session) :
  participantOf u (recordParticipantLeave u now s)
  = leave now <$> participantOf u s.
Proof.
  unfold participantOf, recordParticipantLeave.
  destruct (findIndex (isUser u) (participants s)) as [i|] eqn:Hi; simpl.
  - rewrite findIndex_alter, Hi by apply isUser_leave. simpl.
    by rewrite list_lookup_alter_eq.
  - by rewrite Hi.
Qed.

(** A leave leaves the roster as it is when the user's records carry no
    join timestamp. *)
Lemma recordParticipantLeave_not_joined (u : string) (now : Z) (s : Session) :
  (∀ p, p ∈ participants s → p_user p = u → joinedAt p = None) →
  recordParticipantLeave u now s = s.
Proof.
  intros Hnone. unfold recordParticipantLeave.
  destruct (findIndex (isUser u) (participants s)) as [i|] eqn:Hi; [|done].
  destruct (findIndex_lookup _ _ _ Hi) as (p & Hp & Hu).
  assert (Hj : joinedAt p = None).
  { apply Hnone; [by eapply list_elem_of_lookup_2|].
    unfold isUser in Hu. by apply String.eqb_eq in Hu. }
  assert (Hid : alter (leave now) i (participants s) = participants s).
  { apply list_eq. intros j. destruct (decide (i = j)) as [<-|Hne].
    - rewrite list_lookup_alter_eq, Hp. simpl. unfold leave. by rewrite Hj.
    - by rewrite list_lookup_alter_ne. }
  rewrite Hid. by destruct s.
Qed.

(** ** Participant tracking *)

(** C8. A join followed by a leave stamps the leave time and adds the whole
    seconds between the join and the leave to the participant's running
    duration; a second join and leave adds the second interval to the first. *)
Theorem join_leave_accumulates (s : Session) (u : string) (t1 t2 t3 t4 : Z) :
  let d0 := default 0 (participantOf u s ≫= p_duration) in
  let s2 := recordParticipantLeave u t2 (recordParticipantJoin u t1 s) in
  let s4 := recordParticipantLeave u t4 (recordParticipantJoin u t3 s2) in
  (∃ p2, participantOf u s2 = Some p2 ∧ joinedAt p2 = Some t1 ∧ leaveAt p2 = Some t2
         ∧ p_duration p2 = Some (d0 + (t2 - t1) / 1000))
  ∧ (∃ p4, participantOf u s4 = Some p4 ∧ joinedAt p4 = Some t3 ∧ leaveAt p4 = Some t4
           ∧ p_duration p4 = Some (d0 + (t2 - t1) / 1000 + (t4 - t3) / 1000)).
Proof.
  intros d0 s2 s4. subst d0 s4 s2.
  rewrite !participantOf_leave, !participantOf_join, participantOf_leave,
    participantOf_join.
  destruct (participantOf u s) as [p|]; simpl; split; eexists; (split; [done|]);
    cbn; repeat split; f_equal; lia.
Qed.

(** C10. A leave request of a user whose records on the session carry no
    join timestamp is answered "Left stream successfully" whatever the
    status of the session, and the roster, the status and every other
    document stay as they were. *)
Theorem leaveStream_without_join (req : Req) (db : DB) (session : Session) :
  sessions db !! params_id req = Some session →
  (∀ p, p ∈ participants session → p_user p = user_id req → joinedAt p = None) →
  (leaveStream req db).1 = reply 200 "Left stream successfully"
  ∧ sessions (leaveStream req db).2 !! params_id req
    = Some (set_s_updatedAt (now req) session)
  ∧ participants <$> sessions (leaveStream req db).2 !! params_id req
    = Some (participants session)
  ∧ status <$> sessions (leaveStream req db).2 !! params_id req
    = Some (status session)
  ∧ (∀ id, id ≠ params_id req →
       sessions (leaveStream req db).2 !! id = sessions db !! id)
  ∧ users (leaveStream req db).2 = users db.
Proof.
  intros Hs Hnone. unfold leaveStream. rewrite Hs. simpl.
  rewrite (recordParticipantLeave_not_joined _ _ _ Hnone).
  rewrite lookup_insert_eq. simpl. repeat split; try done.
  intros id Hne. by rewrite lookup_insert_ne.
Qed.

Lemma leaveStream_without_join_witness :
  (leaveStream (mkReq "session1" "user1" role_user emptyBody 9000)
     (sampleDB (sampleSession scheduled [bookedOnly "user1"; bookedOnly "user2"])
        (sampleUser 0 []))).1
  = reply 200 "Left stream successfully".
Proof.
  refine (proj1 (leaveStream_without_join
    (mkReq "session1" "user1" role_user emptyBody 9000)
    (sampleDB (sampleSession scheduled [bookedOnly "user1"; bookedOnly "user2"])
       (sampleUser 0 []))
    (sampleSession scheduled [bookedOnly "user1"; bookedOnly "user2"]) _ _)).
  - reflexivity.
  - intros p Hp _. simpl in Hp.
    apply elem_of_cons in Hp as [->|Hp]; [reflexivity|].
    apply elem_of_cons in Hp as [->|Hp]; [reflexivity|].
    by apply elem_of_nil in Hp.
Defined.

(** ** RTC credentials *)

(** C7. The host credential is built for the channel ["session_" + id] with
    an expiry 24 hours after the current second, the viewer credential for
    the same channel with an expiry 3 hours after it; without configuration
    both are the fixed placeholder string. The service is unconfigured
    unless the environment gives both the application id and the
    certificate. *)
Theorem credential_validity_windows
    (build : string → string → string → string → RtcRole → Z → string)
    (svc : AgoraService) (env : gmap string string)
    (now : Z) (sessionId uid : string) :
  createChannel build svc now sessionId uid
  = mkChannelDetails ("session_" +:+ sessionId)
      (if isConfigured svc
       then build (appId svc) (appCertificate svc) ("session_" +:+ sessionId) uid
              PUBLISHER (now / 1000 + 24 * 60 * 60)
       else "placeholder-token-agora-not-configured")
      (appId svc)
  ∧ generateViewerToken build svc now sessionId uid
    = mkChannelDetails ("session_" +:+ sessionId)
        (if isConfigured svc
         then build (appId svc) (appCertificate svc) ("session_" +:+ sessionId) uid
                SUBSCRIBER (now / 1000 + 3 * 60 * 60)
         else "placeholder-token-agora-not-configured")
        (appId svc)
  ∧ isConfigured (newAgoraService env)
    = truthyS (env !! "AGORA_APP_ID") && truthyS (env !! "AGORA_APP_CERTIFICATE")
  ∧ cd_token (createChannel build (newAgoraService ∅) now sessionId uid)
    = "placeholder-token-agora-not-configured"
  ∧ cd_token (generateViewerToken build (newAgoraService ∅) now sessionId uid)
    = "placeholder-token-agora-not-configured".
Proof.
  unfold createChannel, generateViewerToken, generateToken, channelOf.
  repeat split; try done; by destruct (isConfigured svc).
Qed.

(** ** Analytics *)

Lemma completed_le_attended (d : Z) (ps : list Participant) :
  (length (List.filter (completedParticipant d) ps)
   ≤ length (List.filter attended ps))%nat.
Proof.
  induction ps as [|p ps IH]; simpl; [done|].
  unfold completedParticipant, attended in *.
  destruct (isSome (joinedAt p)); simpl; [|done].
  destruct (_ && _); simpl; lia.
Qed.

(** C6. In a 60-minute session, a participant who joined and was tracked for
    60 seconds is reported as completed: the threshold is computed from the
    duration in minutes and compared with seconds. With both in seconds the
    participant is far below 80% and the count is 0. *)
Theorem analytics_completed_mixes_units :
  let p := mkParticipant "user1" (Some 5000) (Some 65000) (Some 60) 0 0 in
  let db := sampleDB (sampleSession completed [p]) (sampleUser 0 []) in
  let req := mkReq "session1" "trainer1" role_trainer emptyBody 99000 in
  s_duration (sampleSession completed [p]) = 60
  ∧ (getSessionAnalytics req db).1 = mkRes 200 EmptyString (AnalyticsData 1 1 1)
  ∧ length (List.filter (completed_spec 60) [p]) = 0%nat.
Proof. vm_compute. done. Qed.

(** ** Joining a stream *)

(** C5. The handler that ends up exported as [joinStream] is the second
    definition of the file, which has no booking test: on a live session a
    user without any booking is answered 200 and gets a participant record.
    The first definition answers the same request 403. *)
Theorem joinStream_admits_unbooked
    (build : string → string → string → string → RtcRole → Z → string)
    (svc : AgoraService) :
  let db := sampleDB (sampleSession live []) (sampleUser 0 []) in
  let req := mkReq "session1" "user1" role_user emptyBody 7000 in
  streamController build svc !! "joinStream" = Some (joinStream build svc)
  ∧ hasBooked "session1" (sampleUser 0 []) = false
  ∧ (route build svc POST_stream_join req db).1
    = mkRes 200 "Joined stream successfully" EmptyStreamData
  ∧ participants <$> sessions (route build svc POST_stream_join req db).2 !! "session1"
    = Some [mkParticipant "user1" (Some 7000) None None 0 0]
  ∧ (joinStream_1 build svc req db).1 = reply 403 "You must book this session to join"
  ∧ (joinStream_1 build svc req db).2 = db.
Proof. intros db req. repeat split; vm_compute; reflexivity. Qed.

(** ** Booking *)

(** C2. For a stored session and user, a booking is answered 400 exactly
    when the session is in the past, is cancelled, is already booked by the
    user, is full, or costs more than the user's balance; a rejected booking
    changes nothing in the database. The tests run in this order, so "Session
    is full" and "Insufficient tokens" are the messages when no earlier test
    fails. *)
Theorem bookSession_rejections (req : Req) (db : DB) (session : Session) (user : User) :
  sessions db !! params_id req = Some session →
  users db !! user_id req = Some user →
  let past := scheduledAt session < now req in
  let isCancelled := status session = cancelled in
  let already := hasBooked (params_id req) user = true in
  let full :=
    0 < maxParticipants session
    ∧ maxParticipants session ≤ Z.of_nat (length (participants session)) in
  let insufficient := tokens user < tokenCost session in
  let out := bookSession req db in
  (code out.1 = 400 ↔ past ∨ isCancelled ∨ already ∨ full ∨ insufficient)
  ∧ (code out.1 = 400 →
     out.2 = db
     ∧ tokens <$> users out.2 !! user_id req = Some (tokens user)
     ∧ bookedSessions <$> users out.2 !! user_id req = Some (bookedSessions user)
     ∧ participants <$> sessions out.2 !! params_id req = Some (participants session))
  ∧ (¬ past → ¬ isCancelled → ¬ already → full →
     out.1 = reply 400 "Session is full")
  ∧ (¬ past → ¬ isCancelled → ¬ already → ¬ full → insufficient →
     out.1 = reply 400 "Insufficient tokens")
  ∧ (code out.1 ≠ 400 → code out.1 = 200).
Proof.
  intros Hs Hu past isCancelled already full insufficient out.
  subst past isCancelled already full insufficient out.
  unfold bookSession. rewrite Hs.
  destruct (Z.ltb_spec (scheduledAt session) (now req)) as [Hpast|Hpast].
  { simpl. rewrite Hs, Hu. simpl. intuition (try done; lia). }
  case_bool_decide as Hc.
  { simpl. rewrite Hs, Hu. simpl. intuition (try done; lia). }
  rewrite Hu.
  destruct (hasBooked (params_id req) user) eqn:Hb.
  { simpl. rewrite Hs, Hu. simpl. intuition (try done; lia). }
  destruct (Z.ltb_spec 0 (maxParticipants session)) as [Hm|Hm];
    destruct (Z.leb_spec (maxParticipants session)
                (Z.of_nat (length (participants session)))) as [Hf|Hf];
    destruct (Z.ltb_spec (tokens user) (tokenCost session)) as [Ht|Ht];
    simpl; rewrite ?Hs, ?Hu; simpl; intuition (try done; try lia).
Qed.

Lemma bookSession_rejections_witness :
  (bookSession (mkReq "session1" "user1" role_user emptyBody 1000)
     (sampleDB (sampleSession scheduled []) (sampleUser 1 []))).1
  = reply 400 "Insufficient tokens".
Proof.
  refine (proj1 (proj2 (proj2 (proj2 (bookSession_rejections
    (mkReq "session1" "user1" role_user emptyBody 1000)
    (sampleDB (sampleSession scheduled []) (sampleUser 1 []))
    (sampleSession scheduled []) (sampleUser 1 []) _ _)))) _ _ _ _ _).
  - reflexivity.
  - reflexivity.
  - simpl. lia.
  - simpl. discriminate.
  - simpl. discriminate.
  - simpl. lia.
  - simpl. lia.
Defined.

(** ** Cancellation and refunds *)

Lemma foldl_saveUser_lookup (now : Z) (g : User → User)
    (l : list (string * User)) (db : DB) (k : string) :
  NoDup l.*1 →
  users (foldl (λ db kv, saveUser now kv.1 (g kv.2) db) db l) !! k
  = match (list_to_map l : gmap string User) !! k with
    | Some u => Some (set_u_updatedAt now (g u))
    | None => users db !! k
    end.
Proof.
  revert db. induction l as [|[k0 u0] l IH]; intros db Hnd; simpl; [done|].
  apply NoDup_cons in Hnd as [Hk0 Hnd].
  rewrite IH by done. cbn [fst snd saveUser set_users users list_to_map foldr].
  apply (not_elem_of_list_to_map_1 (M := gmap string)) in Hk0.
  destruct (decide (k0 = k)) as [<-|Hne].
  - simpl in Hk0. rewrite Hk0, !lookup_insert_eq. done.
  - rewrite !lookup_insert_ne by done. done.
Qed.

Lemma foldl_saveUser_frame (now : Z) (g : User → User)
    (l : list (string * User)) (db : DB) :
  let db' := foldl (λ db kv, saveUser now kv.1 (g kv.2) db) db l in
  sessions db' = sessions db ∧ packages db' = packages db
  ∧ transactions db' = transactions db.
Proof.
  revert db. induction l as [|kv l IH]; intros db; simpl; [done|].
  destruct (IH (saveUser now kv.1 (g kv.2) db)) as (-> & -> & ->). done.
Qed.

Lemma refundAll_lookup (now : Z) (sid : string) (cost : Z) (db : DB) (k : string) :
  users (refundAll now sid cost db) !! k = refunded now sid cost <$> users db !! k.
Proof.
  unfold refundAll, bookers.
  rewrite foldl_saveUser_lookup by apply NoDup_fst_map_to_list.
  rewrite list_to_map_to_list, map_lookup_filter. unfold refunded.
  destruct (users db !! k) as [u|]; simpl; [|done].
  destruct (hasBooked sid u); done.
Qed.

Lemma refundAll_users (now : Z) (sid : string) (cost : Z) (db : DB) :
  users (refundAll now sid cost db) = refunded now sid cost <$> users db.
Proof. apply map_eq. intros k. by rewrite refundAll_lookup, lookup_fmap. Qed.

Lemma hasBooked_refund (sid : string) (cost : Z) (u : User) :
  hasBooked sid (refund sid cost u) = false.
Proof.
  unfold hasBooked, refund. simpl.
  induction (bookedSessions u) as [|b bs IH]; simpl; [done|].
  destruct (String.eqb (b_session b) sid) eqn:Hb; simpl; [done|].
  by rewrite Hb.
Qed.

Lemma totalTokens_insert (m : gmap string User) (i : string) (x : User) :
  m !! i = None →
  map_fold (λ _ u total, tokens u + total) 0 (<[i:=x]> m)
  = tokens x + map_fold (λ _ u total, tokens u + total) 0 m.
Proof.
  intros Hi.
  rewrite (map_fold_insert_L (λ _ u total, tokens u + total)); [done| |done].
  intros; lia.
Qed.

(** The loop credits [cost] once per user that holds a booking. *)
Lemma totalTokens_refunded (now : Z) (sid : string) (cost : Z) (m : gmap string User) :
  map_fold (λ _ u total, tokens u + total) 0 (refunded now sid cost <$> m)
  = map_fold (λ _ u total, tokens u + total) 0 m
    + Z.of_nat (size (filter (λ kv, hasBooked sid kv.2 = true) m)) * cost.
Proof.
  induction m as [|i x m Hi IH] using map_ind.
  - rewrite fmap_empty, map_filter_empty, map_size_empty, map_fold_empty. lia.
  - rewrite fmap_insert.
    rewrite !totalTokens_insert; [|done|by rewrite lookup_fmap, Hi].
    rewrite IH, map_filter_insert. unfold refunded at 1.
    destruct (hasBooked sid x) eqn:Hx; simpl.
    + rewrite decide_True by done.
      rewrite map_size_insert_None; [lia|].
      rewrite map_lookup_filter, Hi. done.
    + rewrite decide_False by (simpl; congruence).
      rewrite delete_id by done. lia.
Qed.

Lemma updateSessionStatus_cancel (req : Req) (db : DB) (session : Session) :
  body_status (body req) = Some "cancelled" →
  sessions db !! params_id req = Some session →
  status session = scheduled ∨ status session = cancelled →
  s_trainer session = user_id req ∨ user_role req = role_admin →
  updateSessionStatus req db
  = (mkRes 200 "Session cancelled successfully"
       (SessionData (set_s_updatedAt (now req) (set_status cancelled session))),
     refundAll (now req) (params_id req) (tokenCost session)
       (saveSession (now req) (params_id req) (set_status cancelled session) db)).
Proof.
  intros Hb Hs Hst Hauth. unfold updateSessionStatus. rewrite Hb, Hs. simpl.
  assert (Hok : negb (String.eqb (s_trainer session) (user_id req))
                && negb (isAdmin (user_role req)) = false).
  { destruct Hauth as [->| ->]; [by rewrite String.eqb_refl|].
    apply andb_false_r. }
  rewrite Hok.
  assert (Hlc : liveOrCompleted (status session) = false)
    by (by destruct Hst as [-> | ->]).
  rewrite Hlc. done.
Qed.

(** The refund loop of the status endpoint: cancelling a scheduled session
    through [updateSessionStatus] credits the session's token cost once to
    every user that holds a booking of it and removes that booking from
    their list, keeping their other bookings; users without such a booking
    are not touched, so with N holders the tokens held by all users grow by
    N times the cost. *)
Theorem cancel_refunds_every_booking (req : Req) (db : DB) (session : Session) :
  body_status (body req) = Some "cancelled" →
  sessions db !! params_id req = Some session →
  status session = scheduled →
  s_trainer session = user_id req ∨ user_role req = role_admin →
  let sid := params_id req in
  let out := updateSessionStatus req db in
  let N := size (filter (λ kv, hasBooked sid kv.2 = true) (users db)) in
  code out.1 = 200
  ∧ status <$> sessions out.2 !! sid = Some cancelled
  ∧ (∀ id u, users db !! id = Some u → hasBooked sid u = true →
       ∃ u', users out.2 !! id = Some u'
             ∧ tokens u' = tokens u + tokenCost session
             ∧ bookedSessions u'
               = List.filter (λ b, negb (String.eqb (b_session b) sid)) (bookedSessions u)
             ∧ hasBooked sid u' = false)
  ∧ (∀ id u, users db !! id = Some u → hasBooked sid u = false →
       users out.2 !! id = Some u)
  ∧ (∀ id, users db !! id = None → users out.2 !! id = None)
  ∧ length (bookers sid db) = N
  ∧ totalTokens out.2 = totalTokens db + Z.of_nat N * tokenCost session.
Proof.
  intros Hb Hs Hst Hauth sid out N. subst sid out N.
  rewrite (updateSessionStatus_cancel req db session Hb Hs (or_introl Hst) Hauth).
  cbn [fst snd code].
  split; [done|]. split.
  { destruct (foldl_saveUser_frame (now req)
               (refund (params_id req) (tokenCost session))
               (bookers (params_id req)
                  (saveSession (now req) (params_id req) (set_status cancelled session) db))
               (saveSession (now req) (params_id req) (set_status cancelled session) db))
      as (Hf & _).
    unfold refundAll. rewrite Hf. simpl. by rewrite lookup_insert_eq. }
  split.
  { intros id u Hu Hbk. rewrite refundAll_lookup. simpl. rewrite Hu. simpl.
    unfold refunded. rewrite Hbk. eexists. split; [done|].
    repeat split. apply hasBooked_refund. }
  split.
  { intros id u Hu Hbk. rewrite refundAll_lookup. simpl. rewrite Hu. simpl.
    unfold refunded. by rewrite Hbk. }
  split.
  { intros id Hu. rewrite refundAll_lookup. simpl. by rewrite Hu. }
  split.
  { unfold bookers. by rewrite length_map_to_list. }
  unfold totalTokens. rewrite refundAll_users. simpl.
  apply totalTokens_refunded.
Qed.

Lemma cancel_refunds_every_booking_witness :
  tokens <$> users (updateSessionStatus
                      (mkReq "session1" "trainer1" role_trainer (statusBody "cancelled") 100)
                      (sampleDB (sampleSession scheduled [bookedOnly "user1"])
                         (sampleUser 3 [mkBooking "session1" 50; mkBooking "session2" 60]))).2
             !! "user1"
  = Some 5.
Proof.
  destruct (cancel_refunds_every_booking
    (mkReq "session1" "trainer1" role_trainer (statusBody "cancelled") 100)
    (sampleDB (sampleSession scheduled [bookedOnly "user1"])
       (sampleUser 3 [mkBooking "session1" 50; mkBooking "session2" 60]))
    (sampleSession scheduled [bookedOnly "user1"])
    eq_refl eq_refl eq_refl (or_introl eq_refl)) as (_ & _ & H & _).
  destruct (H "user1" (sampleUser 3 [mkBooking "session1" 50; mkBooking "session2" 60])
              eq_refl eq_refl) as (u' & Hu' & Ht & _).
  rewrite Hu'. simpl. f_equal. exact Ht.
Defined.

(** ** Cancelling through the update endpoint *)

(** C3. The update endpoint stores the status cancelled on a scheduled
    session and runs no refund loop: the trainer's request is answered 200,
    the session is cancelled, and the user who booked it keeps the booking
    and gets no token back. The same request to the status endpoint credits
    the cost of 2 and removes the booking. *)
Theorem cancel_by_update_refunds_nobody
    (build : string → string → string → string → RtcRole → Z → string)
    (svc : AgoraService) :
  let booked := sampleUser 3 [mkBooking "session1" 50] in
  let db := sampleDB (sampleSession scheduled [bookedOnly "user1"]) booked in
  let req := mkReq "session1" "trainer1" role_trainer (statusBody "cancelled") 100 in
  let out := route build svc PUT_session req db in
  let out' := route build svc PUT_session_status req db in
  tokenCost (sampleSession scheduled [bookedOnly "user1"]) = 2
  ∧ hasBooked "session1" booked = true
  ∧ code out.1 = 200
  ∧ status <$> sessions out.2 !! "session1" = Some cancelled
  ∧ users out.2 !! "user1" = Some booked
  ∧ code out'.1 = 200
  ∧ status <$> sessions out'.2 !! "session1" = Some cancelled
  ∧ tokens <$> users out'.2 !! "user1" = Some 5
  ∧ bookedSessions <$> users out'.2 !! "user1" = Some [].
Proof. intros booked db req out out'. repeat split; vm_compute; reflexivity. Qed.

(** ** The status life cycle *)

Lemma statuses_saveSession (now : Z) (k : string) (s : Session) (db : DB) :
  statuses (saveSession now k s db) = <[k := status s]> (statuses db).
Proof. unfold statuses, saveSession. simpl. by rewrite fmap_insert. Qed.

Lemma statuses_saveSession_same (now : Z) (k : string) (s s0 : Session) (db : DB) :
  sessions db !! k = Some s0 → status s = status s0 →
  statuses (saveSession now k s db) = statuses db.
Proof.
  intros Hk Hs. rewrite statuses_saveSession. apply insert_id.
  unfold statuses. by rewrite lookup_fmap, Hk, Hs.
Qed.

Lemma statuses_saveUser (now : Z) (k : string) (u : User) (db : DB) :
  statuses (saveUser now k u db) = statuses db.
Proof. done. Qed.

Lemma statuses_saveTransaction (t : Transaction) (db : DB) :
  statuses (saveTransaction t db) = statuses db.
Proof. done. Qed.

Lemma statuses_updateTrainerRating (now : Z) (k : string) (db : DB) :
  statuses (updateTrainerRating now k db) = statuses db.
Proof. unfold updateTrainerRating. repeat case_match; done. Qed.

Lemma statuses_refundAll (now : Z) (sid : string) (cost : Z) (db : DB) :
  statuses (refundAll now sid cost db) = statuses db.
Proof.
  unfold statuses, refundAll.
  by destruct (foldl_saveUser_frame now (refund sid cost) (bookers sid db) db) as (-> & _).
Qed.

Lemma statuses_updateSessionStreamStatus (now : Z) (k : string) (st : Status)
    (ch : option string) (db : DB) (s0 : Session) :
  sessions db !! k = Some s0 →
  statuses (updateSessionStreamStatus now k st ch db) = <[k := st]> (statuses db).
Proof.
  intros Hk. unfold updateSessionStreamStatus, statuses. rewrite Hk. simpl.
  by rewrite fmap_insert.
Qed.

Lemma statuses_lookup (db : DB) (k : string) (s : Session) :
  sessions db !! k = Some s → statuses db !! k = Some (status s).
Proof. intros H. unfold statuses. by rewrite lookup_fmap, H. Qed.

Ltac status_frame :=
  repeat first
    [ rewrite statuses_saveUser | rewrite statuses_saveTransaction
    | rewrite statuses_updateTrainerRating | rewrite statuses_refundAll ];
  try done;
  try (erewrite statuses_saveSession_same; [done|eassumption|done]).

Lemma parse_status_not_live_completed (st : string) (st' : Status) :
  String.eqb st "live" = false → String.eqb st "completed" = false →
  parse_status st = Some st' → st' = scheduled ∨ st' = cancelled.
Proof.
  intros Hl Hc. unfold parse_status. rewrite Hl, Hc.
  repeat case_match; naive_solver.
Qed.

Lemma not_liveOrCompleted (st : Status) :
  liveOrCompleted st = false → st = scheduled ∨ st = cancelled.
Proof. destruct st; naive_solver. Qed.

(** From scheduled or cancelled to scheduled or cancelled: no move, a
    cancellation or a rescheduling. *)
Lemma status_step_assign (now : Z) (k : string) (s0 s : Session) (db : DB) :
  sessions db !! k = Some s0 →
  status s0 = scheduled ∨ status s0 = cancelled →
  status s = scheduled ∨ status s = cancelled →
  statuses (saveSession now k s db) = statuses db
  ∨ ∃ st st', statuses db !! k = Some st ∧ transition st st'
              ∧ statuses (saveSession now k s db) = <[k := st']> (statuses db).
Proof.
  intros Hk H0 H1.
  destruct (decide (status s = status s0)) as [He|Hne].
  - left. by eapply statuses_saveSession_same.
  - right. exists (status s0), (status s).
    rewrite (statuses_lookup _ _ _ Hk), statuses_saveSession.
    split; [done|]. split; [|done].
    destruct H0 as [E0|E0], H1 as [E1|E1]; rewrite E0, E1 in *;
      first [congruence | constructor].
Qed.

Lemma updateSession_status_step : status_step updateSession.
Proof.
  intros req db. unfold updateSession.
  destruct (sessions db !! params_id req) as [s0|] eqn:Hs; [|by left].
  destruct (_ && _); [by left|].
  destruct (liveOrCompleted (status s0)) eqn:Hlc; [by left|].
  apply not_liveOrCompleted in Hlc.
  destruct (body_status (body req)) as [st|]; cycle 1.
  { left. simpl. by eapply statuses_saveSession_same. }
  destruct (truthyS (Some st)); simpl; cycle 1.
  { left. by eapply statuses_saveSession_same. }
  destruct (String.eqb st "live") eqn:Hl; simpl.
  { left. by eapply statuses_saveSession_same. }
  destruct (String.eqb st "completed") eqn:Hc; simpl.
  { left. by eapply statuses_saveSession_same. }
  destruct (parse_status st) as [st'|] eqn:Hp; [|by left].
  simpl. eapply status_step_assign; [done|done|].
  simpl. by eapply parse_status_not_live_completed.
Qed.

Lemma updateSessionStatus_status_step : status_step updateSessionStatus.
Proof.
  intros req db. unfold updateSessionStatus.
  destruct (body_status (body req) ≫= _) as [st|] eqn:Hb; [|by left].
  assert (Hst : st = scheduled ∨ st = cancelled).
  { destruct (body_status (body req)) as [raw|]; [|done]. simpl in Hb.
    repeat case_match; naive_solver. }
  destruct (sessions db !! params_id req) as [s0|] eqn:Hs; [|by left].
  destruct (_ && _); [by left|].
  destruct (liveOrCompleted (status s0)) eqn:Hlc; [by left|].
  apply not_liveOrCompleted in Hlc. simpl.
  assert (Hframe : ∀ db', statuses
            (if bool_decide (st = cancelled)
             then refundAll (now req) (params_id req)
                    (tokenCost (set_status st s0)) db'
             else db') = statuses db').
  { intros db'. case_bool_decide; [apply statuses_refundAll|done]. }
  rewrite Hframe.
  by eapply status_step_assign.
Qed.

Lemma bookSession_status_step : status_step bookSession.
Proof.
  intros req db. left. unfold bookSession.
  repeat case_match; simpl; status_frame.
Qed.

Lemma rateSession_status_step : status_step rateSession.
Proof.
  intros req db. left. unfold rateSession.
  repeat case_match; simpl; status_frame;
    unfold calculateAverageRating; repeat case_match; simpl; status_frame.
Qed.

Lemma getSessionAnalytics_status_step : status_step getSessionAnalytics.
Proof. intros req db. left. unfold getSessionAnalytics. repeat case_match; done. Qed.

Lemma updateTokens_status_step : status_step updateTokens.
Proof. intros req db. left. unfold updateTokens. repeat case_match; done. Qed.

Lemma purchasePackage_status_step : status_step purchasePackage.
Proof. intros req db. left. unfold purchasePackage. repeat case_match; done. Qed.

Lemma status_recordParticipantJoin (u : string) (now : Z) (s : Session) :
  status (recordParticipantJoin u now s) = status s.
Proof. unfold recordParticipantJoin. by case_match. Qed.

Lemma status_recordParticipantLeave (u : string) (now : Z) (s : Session) :
  status (recordParticipantLeave u now s) = status s.
Proof. unfold recordParticipantLeave. by case_match. Qed.

Section ControllerProperties.

Variable build : string → string → string → string → RtcRole → Z → string.
Variable svc : AgoraService.

Lemma startStream_status_step : status_step (startStream build svc).
Proof.
  intros req db. unfold startStream.
  destruct (sessions db !! params_id req) as [s0|] eqn:Hs; [|by left].
  destruct (negb (isSome _)); [by left|].
  destruct (negb _); [by left|].
  case_bool_decide as Hl; [by left|].
  destruct (_ || _) eqn:Hcc; [by left|].
  right. exists scheduled, live. simpl.
  rewrite (statuses_lookup _ _ _ Hs).
  erewrite statuses_updateSessionStreamStatus by done.
  split; [|split; [constructor|done]].
  destruct (status s0); try done; simpl in Hcc; done.
Qed.

Lemma endStream_status_step : status_step endStream.
Proof.
  intros req db. unfold endStream.
  destruct (sessions db !! params_id req) as [s0|] eqn:Hs; [|by left].
  destruct (negb (String.eqb _ _)); [by left|].
  case_bool_decide as Hl; simpl; [|by left].
  destruct (_ && _); [by left|].
  right. exists live, completed. simpl.
  rewrite (statuses_lookup _ _ _ Hs), Hl.
  erewrite statuses_updateSessionStreamStatus by done.
  split; [done|]. split; [constructor|done].
Qed.

Lemma joinStream_1_status_step : status_step (joinStream_1 build svc).
Proof.
  intros req db. left. unfold joinStream_1.
  repeat case_match; simpl; status_frame.
Qed.

Lemma leaveStream_1_status_step : status_step leaveStream_1.
Proof. intros req db. by left. Qed.

Lemma joinStream_status_step : status_step (joinStream build svc).
Proof.
  intros req db. left. unfold joinStream.
  destruct (sessions db !! params_id req) as [s0|] eqn:Hs; [|done].
  destruct (negb _); [done|]. simpl.
  eapply statuses_saveSession_same; [done|apply status_recordParticipantJoin].
Qed.

Lemma leaveStream_status_step : status_step leaveStream.
Proof.
  intros req db. left. unfold leaveStream.
  destruct (sessions db !! params_id req) as [s0|] eqn:Hs; [|done]. simpl.
  eapply statuses_saveSession_same; [done|apply status_recordParticipantLeave].
Qed.

Lemma authenticate_status_step (h : Handler) :
  status_step h → status_step (authenticate h).
Proof.
  intros Hh req db. unfold authenticate.
  destruct (users db !! user_id req) as [u|]; [|by left].
  apply (Hh (mkReq (params_id req) (user_id req) (role u) (body req) (now req)) db).
Qed.

Lemma isTrainer_status_step (h : Handler) :
  status_step h → status_step (isTrainer h).
Proof. intros Hh req db. unfold isTrainer. case_match; [apply Hh|by left]. Qed.

Lemma isOwnerOrAdmin_status_step (h : Handler) :
  status_step h → status_step (isOwnerOrAdmin h).
Proof. intros Hh req db. unfold isOwnerOrAdmin. case_match; [apply Hh|by left]. Qed.

(** The handlers the routes of the stream controller reach: for the names
    assigned twice, the second assignment. *)
Lemma exported_handlers :
  exported build svc "startStream" = startStream build svc
  ∧ exported build svc "endStream" = endStream
  ∧ exported build svc "joinStream" = joinStream build svc
  ∧ exported build svc "leaveStream" = leaveStream.
Proof. done. Qed.

Lemma route_status_step (e : Endpoint) : status_step (route build svc e).
Proof.
  destruct exported_handlers as (Hs & He & Hj & Hl).
  destruct e; unfold route; rewrite ?Hs, ?He, ?Hj, ?Hl;
    repeat first [apply authenticate_status_step | apply isTrainer_status_step
                 | apply isOwnerOrAdmin_status_step];
    auto using updateSession_status_step, updateSessionStatus_status_step,
      bookSession_status_step, rateSession_status_step,
      getSessionAnalytics_status_step, startStream_status_step,
      endStream_status_step, joinStream_status_step, leaveStream_status_step,
      updateTokens_status_step, purchasePackage_status_step.
Qed.

End ControllerProperties.

(** ** Rejected requests *)

Ltac clean_reject :=
  intros req db; repeat case_match; simpl; intros Hcode; done.

Lemma updateSession_rejects : rejects_cleanly updateSession.
Proof. unfold updateSession. clean_reject. Qed.

Lemma updateSessionStatus_rejects : rejects_cleanly updateSessionStatus.
Proof. unfold updateSessionStatus. clean_reject. Qed.

Lemma bookSession_rejects : rejects_cleanly bookSession.
Proof. unfold bookSession. clean_reject. Qed.

Lemma rateSession_rejects : rejects_cleanly rateSession.
Proof. unfold rateSession. clean_reject. Qed.

Lemma getSessionAnalytics_rejects : rejects_cleanly getSessionAnalytics.
Proof. unfold getSessionAnalytics. clean_reject. Qed.

Lemma updateTokens_rejects : rejects_cleanly updateTokens.
Proof. unfold updateTokens. clean_reject. Qed.

Lemma purchasePackage_rejects : rejects_cleanly purchasePackage.
Proof. unfold purchasePackage. clean_reject. Qed.

Lemma leaveStream_rejects : rejects_cleanly leaveStream.
Proof. unfold leaveStream. clean_reject. Qed.

Lemma endStream_rejects : rejects_cleanly endStream.
Proof. unfold endStream. clean_reject. Qed.

Section RouteProperties.

Variable build : string → string → string → string → RtcRole → Z → string.
Variable svc : AgoraService.

Lemma startStream_rejects : rejects_cleanly (startStream build svc).
Proof. unfold startStream. clean_reject. Qed.

Lemma joinStream_rejects : rejects_cleanly (joinStream build svc).
Proof. unfold joinStream. clean_reject. Qed.

Lemma authenticate_rejects (h : Handler) :
  rejects_cleanly h → rejects_cleanly (authenticate h).
Proof.
  intros Hh req db. unfold authenticate.
  destruct (users db !! user_id req) as [u|]; [|done]. apply Hh.
Qed.

Lemma isTrainer_rejects (h : Handler) :
  rejects_cleanly h → rejects_cleanly (isTrainer h).
Proof. intros Hh req db. unfold isTrainer. case_match; [apply Hh|done]. Qed.

Lemma isOwnerOrAdmin_rejects (h : Handler) :
  rejects_cleanly h → rejects_cleanly (isOwnerOrAdmin h).
Proof. intros Hh req db. unfold isOwnerOrAdmin. case_match; [apply Hh|done]. Qed.

Lemma route_rejects (e : Endpoint) : rejects_cleanly (route build svc e).
Proof.
  destruct (exported_handlers build svc) as (Hs & He & Hj & Hl).
  destruct e; unfold route; rewrite ?Hs, ?He, ?Hj, ?Hl;
    repeat first [apply authenticate_rejects | apply isTrainer_rejects
                 | apply isOwnerOrAdmin_rejects];
    auto using updateSession_rejects, updateSessionStatus_rejects,
      bookSession_rejects, rateSession_rejects, getSessionAnalytics_rejects,
      startStream_rejects, endStream_rejects, joinStream_rejects,
      leaveStream_rejects, updateTokens_rejects, purchasePackage_rejects.
Qed.

Lemma route_status (e : Endpoint) (req : Req) (db : DB) (id : string) (st : Status) :
  statuses db !! id = Some st →
  ∃ st', statuses (route build svc e req db).2 !! id = Some st'
         ∧ (st' = st ∨ transition st st').
Proof.
  intros Hid.
  destruct (route_status_step build svc e req db) as [-> | (s0 & s1 & H0 & Ht & ->)].
  - exists st. by split; [|left].
  - destruct (decide (params_id req = id)) as [<-|Hne].
    + exists s1. rewrite lookup_insert_eq. split; [done|]. right. congruence.
    + exists st. rewrite lookup_insert_ne by done. by split; [|left].
Qed.

Lemma serve_status (rs : list (Endpoint * Req)) (db : DB) (id : string) (st : Status) :
  statuses db !! id = Some st →
  ∃ st', statuses (serve build svc db rs) !! id = Some st' ∧ rtc transition st st'.
Proof.
  revert db st. induction rs as [|[e req] rs IH]; intros db st Hid; simpl.
  - by exists st.
  - destruct (route_status e req db id st Hid) as (st1 & H1 & Hstep).
    destruct (IH _ _ H1) as (st' & H' & Hrtc).
    exists st'. split; [done|].
    destruct Hstep as [-> | Ht]; [done|]. by eapply rtc_l.
Qed.

Lemma completed_terminal (st' : Status) : rtc transition completed st' → st' = completed.
Proof. intros H. inversion H as [|? ? ? Ht]; [done|inversion Ht]. Qed.

(** *** The moves, route by route *)

Lemma countFor_status (u : string) (g : Participant → Participant) (s : Session) :
  status (countFor u g s) = status s.
Proof. unfold countFor. by destruct (findIndex (isUser u) (participants s)). Qed.





































End RouteProperties.



(** ** Token balances *)

Lemma balances_lookup (db : DB) (k : string) (u : User) :
  balances_ok db → users db !! k = Some u → 0 ≤ tokens u.
Proof. intros Hb Hk. by apply (map_Forall_lookup_1 _ _ _ _ Hb Hk). Qed.

Lemma balances_saveUser (now : Z) (k : string) (u : User) (db : DB) :
  0 ≤ tokens u → balances_ok db → balances_ok (saveUser now k u db).
Proof. intros Hu Hb. unfold balances_ok, saveUser. simpl. by apply map_Forall_insert_2. Qed.

Lemma balances_saveSession (now : Z) (k : string) (s : Session) (db : DB) :
  balances_ok db → balances_ok (saveSession now k s db).
Proof. done. Qed.

Lemma balances_saveTransaction (t : Transaction) (db : DB) :
  balances_ok db → balances_ok (saveTransaction t db).
Proof. done. Qed.

Lemma balances_updateSessionStreamStatus (now : Z) (k : string) (st : Status)
    (ch : option string) (db : DB) :
  balances_ok db → balances_ok (updateSessionStreamStatus now k st ch db).
Proof. unfold updateSessionStreamStatus. by case_match. Qed.

Lemma balances_updateTrainerRating (now : Z) (k : string) (db : DB) :
  balances_ok db → balances_ok (updateTrainerRating now k db).
Proof.
  intros Hb. unfold updateTrainerRating.
  destruct (users db !! k) as [t|] eqn:Hk; [|done].
  case_match; [|done]. apply balances_saveUser; [|done].
  simpl. by eapply balances_lookup.
Qed.

Lemma balances_refundAll (now : Z) (sid : string) (cost : Z) (db : DB) :
  0 ≤ cost → balances_ok db → balances_ok (refundAll now sid cost db).
Proof.
  intros Hc Hb. unfold balances_ok. rewrite refundAll_users.
  apply map_Forall_fmap. eapply map_Forall_impl; [exact Hb|].
  intros k u Hu. unfold refunded. simpl in *. case_match; simpl; lia.
Qed.

Ltac balances :=
  repeat first
    [ apply balances_updateTrainerRating | apply balances_saveSession
    | apply balances_saveTransaction | apply balances_updateSessionStreamStatus
    | apply balances_saveUser ];
  try done.

Lemma bookSession_balances : balances_step always bookSession.
Proof.
  intros req db Hb _. unfold bookSession.
  repeat case_match; simpl; balances.
  simpl. lia.
Qed.

Lemma updateTokens_balances : balances_step always updateTokens.
Proof.
  intros req db Hb _. unfold updateTokens.
  destruct (negb _ || _) eqn:Hv; [done|].
  apply orb_false_elim in Hv as [_ Hv%Z.ltb_ge].
  destruct (users db !! params_id req) as [u|] eqn:Hu; [|done].
  pose proof (balances_lookup _ _ _ Hb Hu).
  repeat case_match; simpl; balances; simpl; lia.
Qed.

Lemma purchasePackage_balances : balances_step amount_ok purchasePackage.
Proof.
  intros req db Hb Hp. unfold purchasePackage.
  destruct (negb _); [done|].
  destruct (packages db !! params_id req) as [pkg|] eqn:Hpkg; [|done].
  specialize (Hp pkg Hpkg).
  destruct (negb (active pkg)); [done|]. destruct (_ && _); [done|].
  destruct (users db !! user_id req) as [u|] eqn:Hu; [|done].
  pose proof (balances_lookup _ _ _ Hb Hu).
  case_match; simpl; balances. simpl. lia.
Qed.

Lemma updateSessionStatus_balances : balances_step cost_ok updateSessionStatus.
Proof.
  intros req db Hb Hc. unfold updateSessionStatus.
  destruct (_ ≫= _) as [st|]; [|done].
  destruct (sessions db !! params_id req) as [s|] eqn:Hs; [|done].
  specialize (Hc s Hs).
  repeat case_match; simpl; try done.
  apply balances_refundAll; done.
Qed.

Lemma updateSession_balances : balances_step always updateSession.
Proof. intros req db Hb _. unfold updateSession. repeat case_match; done. Qed.

Lemma rateSession_balances : balances_step always rateSession.
Proof.
  intros req db Hb _. unfold rateSession.
  repeat case_match; simpl; balances; simpl; by eapply balances_lookup.
Qed.

Lemma getSessionAnalytics_balances : balances_step always getSessionAnalytics.
Proof. intros req db Hb _. unfold getSessionAnalytics. repeat case_match; done. Qed.

Lemma endStream_balances : balances_step always endStream.
Proof. intros req db Hb _. unfold endStream. repeat case_match; simpl; balances. Qed.

Lemma leaveStream_balances : balances_step always leaveStream.
Proof. intros req db Hb _. unfold leaveStream. repeat case_match; done. Qed.

Section BalanceProperties.

Variable build : string → string → string → string → RtcRole → Z → string.
Variable svc : AgoraService.

Lemma startStream_balances : balances_step always (startStream build svc).
Proof. intros req db Hb _. unfold startStream. repeat case_match; simpl; balances. Qed.

Lemma joinStream_balances : balances_step always (joinStream build svc).
Proof. intros req db Hb _. unfold joinStream. repeat case_match; done. Qed.

Lemma authenticate_balances (pre : string → DB → Prop) (h : Handler) :
  balances_step pre h → balances_step pre (authenticate h).
Proof.
  intros Hh req db Hb Hpre. unfold authenticate.
  destruct (users db !! user_id req) as [u|]; [|done].
  by apply (Hh (mkReq (params_id req) (user_id req) (role u) (body req) (now req)) db).
Qed.

Lemma isTrainer_balances (pre : string → DB → Prop) (h : Handler) :
  balances_step pre h → balances_step pre (isTrainer h).
Proof. intros Hh req db Hb Hpre. unfold isTrainer. case_match; [by apply Hh|done]. Qed.

Lemma isOwnerOrAdmin_balances (pre : string → DB → Prop) (h : Handler) :
  balances_step pre h → balances_step pre (isOwnerOrAdmin h).
Proof. intros Hh req db Hb Hpre. unfold isOwnerOrAdmin. case_match; [by apply Hh|done]. Qed.

(** What each endpoint needs of the database to keep the balances
    non-negative. *)
Lemma route_balances (e : Endpoint) :
  balances_step
    (λ id db, (e = PUT_session_status → cost_ok id db)
              ∧ (e = POST_package_purchase → amount_ok id db))
    (route build svc e).
Proof.
  destruct (exported_handlers build svc) as (Hs & He & Hj & Hl).
  intros req db Hb [Hcost Hamount].
  assert (Hstep : ∀ pre h, balances_step pre h → pre (params_id req) db →
                    balances_ok (authenticate h req db).2).
  { intros pre h Hh Hpre. by apply (authenticate_balances pre h Hh). }
  destruct e; unfold route; rewrite ?Hs, ?He, ?Hj, ?Hl.
  - apply (Hstep always); [|done].
    apply isTrainer_balances, updateSession_balances.
  - apply (Hstep cost_ok); [|by apply Hcost].
    apply isTrainer_balances, updateSessionStatus_balances.
  - apply (Hstep always); [|done]. apply bookSession_balances.
  - apply (Hstep always); [|done]. apply rateSession_balances.
  - apply (Hstep always); [|done].
    apply isTrainer_balances, getSessionAnalytics_balances.
  - apply (Hstep always); [|done].
    apply isTrainer_balances, startStream_balances.
  - apply (Hstep always); [|done].
    apply isTrainer_balances, endStream_balances.
  - apply (Hstep always); [|done]. apply joinStream_balances.
  - apply (Hstep always); [|done]. apply leaveStream_balances.
  - apply (Hstep always); [|done].
    apply isOwnerOrAdmin_balances, updateTokens_balances.
  - apply (Hstep amount_ok); [|by apply Hamount].
    apply purchasePackage_balances.
Qed.

(** C9 (as amended). From non-negative balances, a booking and a token
    update always leave every balance non-negative; so does a purchase when
    the package's token amount is non-negative, and a status change with its
    refunds when the session's token cost is non-negative; the same holds
    for every endpoint behind its middleware, and a request that is not
    answered 200 leaves the database, hence every balance, as it was. *)
Theorem balances_stay_non_negative (e : Endpoint) (req : Req) (db : DB) :
  balances_ok db →
  balances_ok (bookSession req db).2
  ∧ balances_ok (updateTokens req db).2
  ∧ (amount_ok (params_id req) db → balances_ok (purchasePackage req db).2)
  ∧ (cost_ok (params_id req) db → balances_ok (updateSessionStatus req db).2)
  ∧ ((e = PUT_session_status → cost_ok (params_id req) db) →
     (e = POST_package_purchase → amount_ok (params_id req) db) →
     balances_ok (route build svc e req db).2)
  ∧ (code (bookSession req db).1 ≠ 200 → (bookSession req db).2 = db)
  ∧ (code (updateTokens req db).1 ≠ 200 → (updateTokens req db).2 = db)
  ∧ (code (purchasePackage req db).1 ≠ 200 → (purchasePackage req db).2 = db)
  ∧ (code (updateSessionStatus req db).1 ≠ 200 → (updateSessionStatus req db).2 = db)
  ∧ (code (route build svc e req db).1 ≠ 200 → (route build svc e req db).2 = db).
Proof.
  intros Hb.
  split; [by apply bookSession_balances|].
  split; [by apply updateTokens_balances|].
  split; [intros; by apply purchasePackage_balances|].
  split; [intros; by apply updateSessionStatus_balances|].
  split; [intros; by apply route_balances|].
  split; [apply bookSession_rejects|].
  split; [apply updateTokens_rejects|].
  split; [apply purchasePackage_rejects|].
  split; [apply updateSessionStatus_rejects|].
  apply route_rejects.
Qed.

End BalanceProperties.

Lemma sample_balances_ok (s : Session) (t : Z) (bs : list Booking) :
  0 ≤ t → balances_ok (sampleDB s (sampleUser t bs)).
Proof.
  intros Ht. unfold balances_ok, sampleDB. simpl.
  apply map_Forall_insert_2; [done|]. by apply map_Forall_singleton.
Qed.

Lemma balances_stay_non_negative_witness :
  balances_ok
    (updateSessionStatus
       (mkReq "session1" "trainer1" role_trainer (statusBody "cancelled") 100)
       (sampleDB (sampleSession scheduled [bookedOnly "user1"])
          (sampleUser 0 [mkBooking "session1" 50]))).2.
Proof.
  refine (proj1 (proj2 (proj2 (proj2 (balances_stay_non_negative
    sampleBuild (newAgoraService ∅) PUT_session_status
    (mkReq "session1" "trainer1" role_trainer (statusBody "cancelled") 100)
    (sampleDB (sampleSession scheduled [bookedOnly "user1"])
       (sampleUser 0 [mkBooking "session1" 50])) _)))) _).
  - apply sample_balances_ok. lia.
  - intros s Hs. simpl in Hs. rewrite lookup_singleton_eq in Hs.
    injection Hs as <-. simpl. lia.
Defined.

(** C9, counterexample. A user with two tokens books a session that costs
    two; the trainer changes the cost to -5 and cancels the session: every
    request is answered 200 and the refund leaves the user with -5 tokens. *)
Lemma refund_of_negative_cost_overdraws :
  let db := sampleDB (sampleSession scheduled []) (sampleUser 2 []) in
  let book := (POST_session_book, mkReq "session1" "user1" role_user emptyBody 1000) in
  let reprice :=
    (PUT_session, mkReq "session1" "trainer1" role_trainer (costBody (-5)) 2000) in
  let cancel :=
    (PUT_session_status,
     mkReq "session1" "trainer1" role_trainer (statusBody "cancelled") 3000) in
  let srv := serve sampleBuild (newAgoraService ∅) in
  let rt := route sampleBuild (newAgoraService ∅) in
  tokens <$> users db !! "user1" = Some 2
  ∧ tokens <$> users db !! "trainer1" = Some 0
  ∧ code (rt book.1 book.2 db).1 = 200
  ∧ tokens <$> users (srv db [book]) !! "user1" = Some 0
  ∧ code (rt reprice.1 reprice.2 (srv db [book])).1 = 200
  ∧ code (rt cancel.1 cancel.2 (srv db [book; reprice])).1 = 200
  ∧ tokens <$> users (srv db [book; reprice; cancel]) !! "user1" = Some (-5)
  ∧ ¬ balances_ok (srv db [book; reprice; cancel]).
Proof.
  intros db book reprice cancel srv rt.
  repeat split; try (vm_compute; reflexivity).
  intros Hb.
  assert (Hu : tokens <$> users (srv db [book; reprice; cancel]) !! "user1" = Some (-5))
    by (vm_compute; reflexivity).
  destruct (users (srv db [book; reprice; cancel]) !! "user1") as [u|] eqn:Hk; [|done].
  pose proof (balances_lookup _ _ _ Hb Hk). simpl in Hu. injection Hu as Hu. lia.
Qed.

(** ** Ratings *)

(** *** Double precision: what the rounding keeps *)

Lemma round_even_near (n d : Z) :
  0 < d → Z.abs (2 * (round_even n d * d - n)) ≤ d.
Proof.
  intros Hd. unfold round_even.
  pose proof (Z.div_mod n d ltac:(lia)) as Hdm.
  pose proof (Z.mod_pos_bound n d Hd) as Hmod.
  destruct (2 * (n mod d) <? d) eqn:H1; [lia|].
  destruct (d <? 2 * (n mod d)) eqn:H2; [lia|].
  destruct (Z.even (n / d)); lia.
Qed.

Lemma round_even_exact (n : Z) : round_even n 1 = n.
Proof.
  unfold round_even. rewrite Z.mod_1_r, Z.div_1_r. done.
Qed.

Lemma round_even_nonneg (n d : Z) : 0 ≤ n → 0 < d → 0 ≤ round_even n d.
Proof.
  intros Hn Hd. unfold round_even.
  pose proof (Z.div_pos n d Hn Hd).
  repeat case_match; lia.
Qed.

Lemma fl_pos_whole (z : Z) : 0 < z < 2 ^ 53 → fl_pos z 1 = inject_Z z.
Proof.
  intros Hz. unfold fl_pos. change (Z.log2 1) with 0. rewrite Z.sub_0_r.
  pose proof (Z.log2_spec z ltac:(lia)) as [Hlo Hhi].
  pose proof (Z.log2_nonneg z) as Hk.
  assert (Hk52 : Z.log2 z ≤ 52).
  { apply Z.lt_succ_r. apply Z.log2_lt_pow2; lia. }
  assert (Hbin : ((scaled z 1 (Z.log2 z)).2 <=? (scaled z 1 (Z.log2 z)).1) = true).
  { unfold scaled. rewrite (proj2 (Z.leb_le 0 (Z.log2 z))) by done. cbn [fst snd].
    apply Z.leb_le. lia. }
  rewrite Hbin. unfold scaled.
  destruct (0 <=? Z.log2 z - 52) eqn:He.
  - assert (Z.log2 z - 52 = 0) as -> by lia. cbn [fst snd].
    change (1 * 2 ^ 0) with 1. rewrite round_even_exact.
    change (2 ^ 0) with 1. rewrite Z.mul_1_r. apply inject_Z_Qred.
  - cbn [fst snd]. rewrite round_even_exact.
    rewrite <- (inject_Z_Qred z). apply Qred_complete.
    unfold Qeq, inject_Z. cbn [Qnum Qden].
    rewrite Z2Pos.id by (apply Z.pow_pos_nonneg; lia). lia.
Qed.

Lemma fl_whole (z : Z) : 0 ≤ z < 2 ^ 53 → fl (inject_Z z) = inject_Z z.
Proof.
  intros Hz. unfold fl. cbn [Qnum Qden inject_Z].
  destruct z as [|p|p]; [done|apply fl_pos_whole; lia|lia].
Qed.

Lemma fadd_whole (a b : Z) :
  0 ≤ a + b < 2 ^ 53 → fadd (inject_Z a) (inject_Z b) = inject_Z (a + b).
Proof.
  intros Hab. rewrite <- (fl_whole (a + b) Hab).
  unfold fadd, fl, Qplus, inject_Z. cbn [Qnum Qden].
  by rewrite !Z.mul_1_r.
Qed.

Lemma fdiv_whole (S n : Z) :
  0 < S → 0 < n → fdiv (inject_Z S) (inject_Z n) = fl_pos S n.
Proof.
  intros HS Hn. unfold fdiv, fl, Qdiv, Qmult, Qinv, inject_Z. cbn [Qnum Qden].
  destruct n as [|p|p]; [lia| |lia]. cbn [Qnum Qden].
  rewrite Z.mul_1_r. destruct S as [|q|q]; [lia| |lia]. done.
Qed.

(** The quotient of two whole numbers, rounded to a double and then to one
    decimal, is a tenth nearest to the exact quotient. *)
Lemma toFixed1_fl_pos_near (S n : Z) :
  0 < S → 0 < n → S < 8 * n → n < 2 ^ 45 →
  Z.abs (2 * n * toFixed1 (fl_pos S n) - 20 * S) ≤ n.
Proof.
  intros HS Hn HSn Hn45. unfold fl_pos.
  set (k := Z.log2 S - Z.log2 n).
  assert (Hk : k ≤ 3).
  { assert (Z.log2 S ≤ Z.log2 (n * 2 ^ 3)) by (apply Z.log2_le_mono; lia).
    rewrite Z.log2_mul_pow2 in H by lia. lia. }
  set (e := (if (scaled S n k).2 <=? (scaled S n k).1 then k else k - 1) - 52).
  assert (He : e ≤ -49) by (subst e; case_match; lia).
  unfold scaled. rewrite (proj2 (Z.leb_gt 0 e)) by lia. cbn [fst snd].
  set (E := 2 ^ (- e)).
  assert (HE : 2 ^ 49 ≤ E) by (apply Z.pow_le_mono_r; lia).
  set (m := round_even (S * E) n).
  pose proof (round_even_near (S * E) n Hn) as HA. fold m in HA.
  assert (Hm : 0 ≤ m) by (apply round_even_nonneg; lia).
  assert (Hq : (Qred (m # Z.to_pos E) == m # Z.to_pos E)%Q) by apply Qred_correct.
  assert (Hsign : (Qnum (Qred (m # Z.to_pos E)) <? 0) = false).
  { apply Z.ltb_ge. unfold Qeq in Hq. cbn [Qnum Qden] in Hq.
    rewrite Z2Pos.id in Hq by lia.
    pose proof (Pos2Z.is_pos (Qden (Qred (m # Z.to_pos E)))). nia. }
  unfold toFixed1. rewrite Hsign.
  assert (Ht : Qfloor (10 * Qred (m # Z.to_pos E) + (1 # 2))%Q = (20 * m + E) / (2 * E)).
  { rewrite (Qfloor_comp _ (10 * (m # Z.to_pos E) + (1 # 2))%Q) by (by rewrite Hq).
    unfold Qfloor, Qplus, Qmult. cbn [Qnum Qden].
    rewrite !Pos2Z.inj_mul, Z2Pos.id by lia.
    f_equal; lia. }
  rewrite Ht. set (t := (20 * m + E) / (2 * E)).
  pose proof (Z.div_mod (20 * m + E) (2 * E) ltac:(lia)) as Hdm.
  pose proof (Z.mod_pos_bound (20 * m + E) (2 * E) ltac:(lia)) as Hmod.
  fold t in Hdm.
  assert (HB : Z.abs (2 * t * E - 20 * m) ≤ E) by lia.
  assert (HX : Z.abs (2 * n * t - 20 * S) * E ≤ n * E + 10 * n) by nia.
  assert (10 * n < E) by lia.
  nia.
Qed.

Lemma toFixed1_near_unique (S n t : Z) :
  0 < n → Z.abs (2 * n * t - 20 * S) ≤ n →
  (20 * S + n) mod (2 * n) ≠ 0 →
  t = (20 * S + n) / (2 * n).
Proof.
  intros Hn Ht Htie.
  pose proof (Z.div_mod (20 * S + n) (2 * n) ltac:(lia)) as Hdm.
  pose proof (Z.mod_pos_bound (20 * S + n) (2 * n) ltac:(lia)) as Hmod.
  nia.
Qed.

Lemma sumZ_foldl {A} (f : A → Z) (l : list A) (a : Z) :
  foldl (λ total x, total + f x) a l = a + sumZ f l.
Proof.
  unfold sumZ. revert a. induction l as [|x l IH]; intros a; simpl; [lia|].
  rewrite (IH (a + f x)), (IH (0 + f x)). lia.
Qed.

Lemma sumZ_cons {A} (f : A → Z) (x : A) (l : list A) :
  sumZ f (x :: l) = f x + sumZ f l.
Proof. unfold sumZ at 1. simpl. by rewrite sumZ_foldl. Qed.

Lemma sumZ_app {A} (f : A → Z) (l k : list A) :
  sumZ f (l ++ k) = sumZ f l + sumZ f k.
Proof.
  induction l as [|x l IH]; simpl; [unfold sumZ at 2; simpl; lia|].
  rewrite !sumZ_cons, IH. lia.
Qed.

Lemma sumZ_nonneg {A} (f : A → Z) (l : list A) :
  (∀ x, 0 ≤ f x) → 0 ≤ sumZ f l.
Proof.
  intros Hf. induction l as [|x l IH]; [done|].
  rewrite sumZ_cons. specialize (Hf x). lia.
Qed.

Lemma sumZ_member {A} (f : A → Z) (l : list A) (x : A) :
  (∀ y, 0 ≤ f y) → x ∈ l → f x ≤ sumZ f l.
Proof.
  intros Hf Hx. induction l as [|y l IH]; [by apply elem_of_nil in Hx|].
  rewrite sumZ_cons. apply elem_of_cons in Hx as [->|Hx].
  - pose proof (sumZ_nonneg f l Hf). lia.
  - specialize (IH Hx). specialize (Hf y). lia.
Qed.

Lemma inRange_tests (r : Q) :
  inRange r → Qeq_bool r 0 = false ∧ Qltb r 1 = false ∧ Qltb 5 r = false.
Proof.
  intros [H1 H5]. split; [|split].
  - destruct (Qeq_bool r 0) eqn:He; [|done]. apply Qeq_bool_iff in He.
    rewrite He in H1. unfold Qle in H1. simpl in H1. lia.
  - unfold Qltb. apply negb_false_iff, Qle_bool_iff. done.
  - unfold Qltb. apply negb_false_iff, Qle_bool_iff. done.
Qed.

Lemma tests_inRange (r : Q) : Qltb r 1 || Qltb 5 r = false → inRange r.
Proof.
  intros [H1 H5]%orb_false_iff. unfold Qltb in *.
  apply negb_false_iff, Qle_bool_iff in H1, H5. by split.
Qed.

Lemma stars_bounds (rs : list Rating) :
  Forall wholeStars rs →
  Z.of_nat (length rs) ≤ sumZ stars rs ≤ 5 * Z.of_nat (length rs).
Proof.
  induction 1 as [|r rs [_ Hr] _ IH]; [done|].
  rewrite sumZ_cons. simpl length. lia.
Qed.

(** The sum of whole ratings is exact as long as it is below [2 ^ 53]. *)
Lemma sumQ_whole_from (rs : list Rating) (acc : Z) :
  Forall wholeStars rs → 0 ≤ acc → acc + 5 * Z.of_nat (length rs) < 2 ^ 53 →
  foldl (λ total x, fadd total (r_rating x)) (inject_Z acc) rs
  = inject_Z (acc + sumZ stars rs).
Proof.
  intros Hrs. revert acc. induction Hrs as [|r rs [Hq Hr] _ IH]; intros acc Hacc Hlt.
  - simpl. f_equal. unfold sumZ. simpl. lia.
  - simpl foldl. rewrite Hq, fadd_whole by (simpl length in Hlt; lia).
    rewrite IH by (simpl length in Hlt; lia). rewrite sumZ_cons. f_equal. lia.
Qed.

Lemma sumQ_whole (rs : list Rating) :
  Forall wholeStars rs → Z.of_nat (length rs) < 2 ^ 45 →
  sumQ r_rating rs = inject_Z (sumZ stars rs).
Proof.
  intros Hrs Hlen. unfold sumQ. change 0%Q with (inject_Z 0).
  rewrite sumQ_whole_from by (try done; lia). done.
Qed.

(** The mean of whole numbers from 1 to 5 as the code computes it: a tenth
    nearest to the exact mean, and the exact mean rounded half up unless the
    mean lies halfway between two tenths. *)
Lemma mean_near (S n : Z) :
  0 < n → n ≤ S ≤ 5 * n → n < 2 ^ 45 →
  let t := toFixed1 (fdiv (inject_Z S) (inject_Z n)) in
  Z.abs (2 * n * t - 20 * S) ≤ n
  ∧ ((20 * S + n) mod (2 * n) ≠ 0 → t = (20 * S + n) / (2 * n)).
Proof.
  intros Hn HS Hn45 t. subst t. rewrite fdiv_whole by lia.
  pose proof (toFixed1_fl_pos_near S n ltac:(lia) Hn ltac:(lia) Hn45) as Hnear.
  split; [done|]. intros Htie. by apply toFixed1_near_unique.
Qed.

Lemma existsb_filter_nil {A} (f : A → bool) (l : list A) :
  existsb f l = false ↔ List.filter f l = [].
Proof.
  induction l as [|x l IH]; simpl; [done|].
  destruct (f x); simpl; [split; done|done].
Qed.

Lemma isRater_overwrite (u : string) (r : Q) (fb : option string) (t : Z) (x : Rating) :
  isRater u (overwrite u r fb t x) = isRater u x.
Proof. unfold overwrite. by destruct (isRater u x) eqn:Hx. Qed.

Lemma filter_rater_overwrite (u : string) (r : Q) (fb : option string) (t : Z)
    (rs : list Rating) :
  List.filter (isRater u) (overwrite u r fb t <$> rs)
  = overwrite u r fb t <$> List.filter (isRater u) rs.
Proof.
  induction rs as [|x rs IH]; [done|]. cbn.
  rewrite isRater_overwrite. fold (overwrite u r fb t <$> rs).
  destruct (isRater u x); cbn; by rewrite IH.
Qed.

Lemma filter_others_overwrite (u : string) (r : Q) (fb : option string) (t : Z)
    (rs : list Rating) :
  List.filter (λ x, negb (isRater u x)) (overwrite u r fb t <$> rs)
  = List.filter (λ x, negb (isRater u x)) rs.
Proof.
  induction rs as [|x rs IH]; [done|]. cbn.
  rewrite isRater_overwrite. fold (overwrite u r fb t <$> rs).
  destruct (isRater u x) eqn:Hx; cbn; rewrite IH; [done|].
  unfold overwrite. by rewrite Hx.
Qed.

Lemma sessions_updateTrainerRating (now : Z) (k : string) (db : DB) :
  sessions (updateTrainerRating now k db) = sessions db.
Proof. unfold updateTrainerRating. repeat case_match; done. Qed.

Lemma users_updateTrainerRating_is_Some (now : Z) (k k' : string) (db : DB) :
  is_Some (users db !! k') → is_Some (users (updateTrainerRating now k db) !! k').
Proof.
  intros Hk'. unfold updateTrainerRating. repeat case_match; try done.
  simpl. rewrite lookup_insert_is_Some. destruct (decide (k = k')); auto.
Qed.

(** A valid rating of a participant on a completed session is accepted, and
    the stored session is the loaded one with the rating written and the
    average recomputed. *)
Lemma rateSession_accepts (req : Req) (db : DB) (session : Session) (r : Q) :
  body_rating (body req) = Some r → inRange r →
  sessions db !! params_id req = Some session →
  status session = completed →
  existsb (isUser (user_id req)) (participants session) = true →
  is_Some (users db !! user_id req) →
  let rs' :=
    if existsb (isRater (user_id req)) (ratings session)
    then overwrite (user_id req) r (body_feedback (body req)) (now req) <$> ratings session
    else ratings session
           ++ [mkRating (user_id req) r (body_feedback (body req)) (now req)] in
  code (rateSession req db).1 = 200
  ∧ sessions (rateSession req db).2 !! params_id req
    = Some (set_s_updatedAt (now req) (calculateAverageRating (set_ratings rs' session)))
  ∧ is_Some (users (rateSession req db).2 !! user_id req).
Proof.
  intros Hr Hrange Hs Hst Hp [u Hu] rs'. subst rs'.
  unfold rateSession. rewrite Hr. simpl.
  destruct (inRange_tests r Hrange) as (Hnz & Hlo & Hhi).
  rewrite Hnz, Hlo, Hhi. simpl.
  rewrite Hs, Hst, Hp. simpl.
  destruct (existsb (isRater (user_id req)) (ratings session)); simpl.
  - rewrite sessions_updateTrainerRating. simpl. rewrite lookup_insert_eq.
    split; [done|]. split; [done|].
    apply users_updateTrainerRating_is_Some. simpl. by exists u.
  - rewrite Hu. simpl. rewrite sessions_updateTrainerRating.
    destruct (existsb _ (completedSessions u)); simpl; rewrite lookup_insert_eq;
      (split; [done|]); (split; [done|]);
      apply users_updateTrainerRating_is_Some; simpl; [by exists u|].
    rewrite lookup_insert_eq. by eexists.
Qed.

Lemma calculateAverageRating_fields (s : Session) :
  ratings (calculateAverageRating s) = ratings s
  ∧ status (calculateAverageRating s) = status s
  ∧ participants (calculateAverageRating s) = participants s.
Proof. unfold calculateAverageRating. by case_match. Qed.

Lemma calculateAverageRating_mean (s : Session) :
  ratings s ≠ [] →
  averageRating (calculateAverageRating s)
  = toFixed1 (fdiv (sumQ r_rating (ratings s))
                (inject_Z (Z.of_nat (length (ratings s))))).
Proof.
  intros Hne. unfold calculateAverageRating.
  destruct (ratings s) as [|x rs] eqn:Hrs; [done|]. done.
Qed.

(** One accepted rating call, seen on the ratings of the session. *)
Lemma rate_step (sid uid : string) (db : DB) (r : Q) (fb : option string) (t : Z) :
  ratable sid uid db → inRange r →
  let out := rateSession (rateReq sid uid (r, fb, t)) db in
  ∃ s1 s2 e,
    sessions db !! sid = Some s1 ∧ sessions out.2 !! sid = Some s2
    ∧ code out.1 = 200
    ∧ ratingsOf uid s2 = [e]
    ∧ r_user e = uid ∧ r_rating e = r ∧ r_createdAt e = t
    ∧ r_feedback e = match ratingsOf uid s1 with
                     | e1 :: _ => supplied (r_feedback e1) fb
                     | [] => fb
                     end
    ∧ ratingsOfOthers uid s2 = ratingsOfOthers uid s1
    ∧ averageRating s2
      = toFixed1 (fdiv (sumQ r_rating (ratings s2))
                    (inject_Z (Z.of_nat (length (ratings s2)))))
    ∧ ratable sid uid out.2.
Proof.
  intros (s1 & Hs & Hst & Hp & Hu & Hlen) Hr out. subst out.
  destruct (rateSession_accepts (rateReq sid uid (r, fb, t)) db s1 r
              eq_refl Hr Hs Hst Hp Hu) as (Hcode & Hs2 & Hu2).
  simpl in Hs2, Hu2.
  set (rs' := if existsb (isRater uid) (ratings s1)
              then overwrite uid r fb t <$> ratings s1
              else ratings s1 ++ [mkRating uid r fb t]) in *.
  assert (Hmine : ∃ e, List.filter (isRater uid) rs' = [e]
            ∧ r_user e = uid ∧ r_rating e = r ∧ r_createdAt e = t
            ∧ r_feedback e = match ratingsOf uid s1 with
                             | e1 :: _ => supplied (r_feedback e1) fb
                             | [] => fb
                             end
            ∧ List.filter (λ x, negb (isRater uid x)) rs' = ratingsOfOthers uid s1).
  { subst rs'. unfold ratingsOf, ratingsOfOthers in *.
    destruct (List.filter (isRater uid) (ratings s1)) as [|e1 [|e2 rest]] eqn:Hf.
    - apply existsb_filter_nil in Hf as Hex. rewrite Hex.
      exists (mkRating uid r fb t).
      rewrite !List.filter_app, Hf. simpl.
      unfold isRater. simpl. rewrite String.eqb_refl. simpl.
      repeat split; try done. by rewrite app_nil_r.
    - assert (Hex : existsb (isRater uid) (ratings s1) = true).
      { destruct (existsb (isRater uid) (ratings s1)) eqn:Hex; [done|].
        apply existsb_filter_nil in Hex. congruence. }
      rewrite Hex, filter_rater_overwrite, filter_others_overwrite, Hf.
      assert (He1 : isRater uid e1 = true).
      { eapply (proj1 (List.filter_In (isRater uid) e1 (ratings s1))).
        rewrite Hf. by left. }
      exists (mkRating (r_user e1) r (supplied (r_feedback e1) fb) t).
      cbn. unfold overwrite, supplied. rewrite He1.
      repeat split; try done. unfold isRater in He1. by apply String.eqb_eq.
    - simpl in Hlen. lia. }
  destruct Hmine as (e & Hf & Heu & Her & Het & Hefb & Hothers).
  destruct (calculateAverageRating_fields (set_ratings rs' s1)) as (Hrat & Hstat & Hpart).
  exists s1. eexists. exists e.
  split; [done|]. split; [exact Hs2|]. split; [done|].
  unfold ratingsOf, ratingsOfOthers. simpl. rewrite Hrat. simpl.
  repeat split; try done.
  - rewrite (calculateAverageRating_mean (set_ratings rs' s1)); [done|].
    simpl. intros Hnil. rewrite Hnil in Hf. done.
  - eexists. split; [exact Hs2|]. simpl. rewrite Hstat, Hpart. simpl.
    repeat split; try done. unfold ratingsOf. simpl. rewrite Hrat. simpl.
    by rewrite Hf.
Qed.

Lemma rateAll_ratable (sid uid : string) (calls : list (Q * option string * Z)) (db : DB) :
  ratable sid uid db → Forall (λ c, inRange c.1.1) calls →
  ratable sid uid (rateAll sid uid db calls).
Proof.
  revert db. induction calls as [|[[r fb] t] calls IH]; intros db Hdb Hall; [done|].
  apply Forall_cons in Hall as [Hr Hall]. simpl.
  apply IH; [|done].
  by destruct (rate_step sid uid db r fb t Hdb Hr)
    as (s1 & s2 & e & ? & ? & ? & ? & ? & ? & ? & ? & ? & ? & ?).
Qed.

(** C4 (as amended). After any number of accepted rating calls of a
    participant on a completed session, the session holds exactly one rating
    of that user; its value and timestamp are those of the latest call; its
    feedback is the latest call's feedback when that call supplies a
    non-empty one, and otherwise the text stored before the call (the first
    rating of a user stores the feedback as given). The ratings of other
    users are untouched. The average is what [(sum / n).toFixed(1)] gives
    on the current ratings in double precision, 0 for a session without
    ratings: for fewer than [2 ^ 45] ratings that are whole numbers of
    stars it is a tenth nearest to their exact mean, and the exact mean
    rounded half up unless the mean lies halfway between two tenths, where
    the double quotient decides: seventeen ratings of 1 and three of 2, of
    mean 1.15, average 1.1. *)
Theorem rating_overwrites_in_place (sid uid : string) (db : DB)
    (earlier : list (Q * option string * Z)) (r : Q) (fb : option string) (t : Z) :
  ratable sid uid db →
  Forall (λ c, inRange c.1.1) earlier → inRange r →
  let db1 := rateAll sid uid db earlier in
  let db2 := rateAll sid uid db (earlier ++ [(r, fb, t)]) in
  ∃ s1 s2 e,
    sessions db1 !! sid = Some s1 ∧ sessions db2 !! sid = Some s2
    ∧ ratingsOf uid s2 = [e]
    ∧ r_user e = uid ∧ r_rating e = r ∧ r_createdAt e = t
    ∧ r_feedback e = match ratingsOf uid s1 with
                     | e1 :: _ => supplied (r_feedback e1) fb
                     | [] => fb
                     end
    ∧ ratingsOfOthers uid s2 = ratingsOfOthers uid s1
    ∧ averageRating s2
      = toFixed1 (fdiv (sumQ r_rating (ratings s2))
                    (inject_Z (Z.of_nat (length (ratings s2)))))
    ∧ (Forall wholeStars (ratings s2) → Z.of_nat (length (ratings s2)) < 2 ^ 45 →
       let n := Z.of_nat (length (ratings s2)) in
       let S := sumZ stars (ratings s2) in
       Z.abs (2 * n * averageRating s2 - 20 * S) ≤ n
       ∧ ((20 * S + n) mod (2 * n) ≠ 0 → averageRating s2 = (20 * S + n) / (2 * n)))
    ∧ averageRating (calculateAverageRating (set_ratings [] s2)) = 0
    ∧ averageRating
        (calculateAverageRating
           (set_ratings (replicate 17 (mkRating uid 1 None t)
                           ++ replicate 3 (mkRating uid 2 None t)) s2))
      = 11.
Proof.
  intros Hdb Hall Hr db1 db2.
  assert (Hdb1 : ratable sid uid db1) by by apply rateAll_ratable.
  destruct (rate_step sid uid db1 r fb t Hdb1 Hr)
    as (s1 & s2 & e & Hs1 & Hs2 & _ & Hf & Heu & Her & Het & Hefb & Hoth & Havg & _).
  exists s1, s2, e. subst db2. unfold rateAll in *. rewrite foldl_app. simpl.
  split; [done|]. split; [done|]. split; [done|]. split; [done|]. split; [done|].
  split; [done|]. split; [done|]. split; [done|]. split; [done|].
  split; [|split; [done|by vm_compute]].
  intros Hwhole Hlen. rewrite Havg.
  assert (Hne : ratings s2 ≠ []).
  { intros Hnil. unfold ratingsOf in Hf. by rewrite Hnil in Hf. }
  rewrite (sumQ_whole _ Hwhole Hlen).
  pose proof (stars_bounds _ Hwhole) as Hb.
  apply mean_near; [|done|done].
  destruct (ratings s2); [done|]. simpl. lia.
Qed.

Lemma sample_ratable :
  ratable "session1" "user1"
    (sampleDB (sampleSession completed [bookedOnly "user1"]) (sampleUser 0 [])).
Proof.
  exists (sampleSession completed [bookedOnly "user1"]).
  split; [reflexivity|]. split; [reflexivity|]. split; [reflexivity|].
  split; [by eexists|]. simpl. lia.
Qed.

Lemma rating_overwrites_in_place_witness :
  ∃ s2 e,
    sessions (rateAll "session1" "user1"
                (sampleDB (sampleSession completed [bookedOnly "user1"]) (sampleUser 0 []))
                ([(5%Q, Some "great", 100)] ++ [(3%Q, Some "tough", 200)]))
      !! "session1" = Some s2
    ∧ ratingsOf "user1" s2 = [e] ∧ r_rating e = 3%Q ∧ r_createdAt e = 200.
Proof.
  destruct (rating_overwrites_in_place "session1" "user1"
              (sampleDB (sampleSession completed [bookedOnly "user1"]) (sampleUser 0 []))
              [(5%Q, Some "great", 100)] 3%Q (Some "tough") 200)
    as (s1 & s2 & e & _ & H2 & H3 & _ & H4 & H5 & _).
  - exact sample_ratable.
  - repeat constructor; unfold Qle; simpl; lia.
  - split; unfold Qle; simpl; lia.
  - exists s2, e. repeat split; assumption.
Defined.

(** C4, counterexample. A user rates with the feedback "great" and rates
    again without feedback: both calls are accepted, one entry remains with
    the rating and timestamp of the second call, and its feedback is still
    "great", not the absent feedback of the most recent call. *)
Lemma resubmission_keeps_old_feedback :
  let db := sampleDB (sampleSession completed [bookedOnly "user1"]) (sampleUser 0 []) in
  let first := rateReq "session1" "user1" (5%Q, Some "great", 100) in
  let second := rateReq "session1" "user1" (3%Q, None, 200) in
  let db1 := (rateSession first db).2 in
  let db2 := (rateSession second db1).2 in
  code (rateSession first db).1 = 200
  ∧ code (rateSession second db1).1 = 200
  ∧ body_feedback (body second) = None
  ∧ ratings <$> sessions db2 !! "session1"
    = Some [mkRating "user1" 3 (Some "great") 200]
  ∧ ratings <$> sessions db2 !! "session1"
    ≠ Some [mkRating "user1" 3 (body_feedback (body second)) 200].
Proof.
  intros db first second db1 db2.
  assert (H : ratings <$> sessions db2 !! "session1"
              = Some [mkRating "user1" 3 (Some "great") 200])
    by (vm_compute; reflexivity).
  split; [vm_compute; reflexivity|]. split; [vm_compute; reflexivity|].
  split; [reflexivity|]. split; [exact H|].
  rewrite H. simpl. discriminate.
Qed.

(** ** The exported join and leave handlers *)

Lemma participantOf_stamp (u : string) (t : Z) (s : Session) :
  participantOf u (set_s_updatedAt t s) = participantOf u s.
Proof. done. Qed.

Section StreamProperties.

Variable build : string → string → string → string → RtcRole → Z → string.
Variable svc : AgoraService.

(** The exported [joinStream] looks at the status only: on a live session
    every requester gets a record with the join instant and no leave
    instant, whether they hold a booking or not. *)
Lemma joinStream_live (req : Req) (db : DB) (session : Session) :
  sessions db !! params_id req = Some session →
  status session = live →
  code (joinStream build svc req db).1 = 200
  ∧ ∃ s' p, sessions (joinStream build svc req db).2 !! params_id req = Some s'
            ∧ participantOf (user_id req) s' = Some p
            ∧ joinedAt p = Some (now req) ∧ leaveAt p = None.
Proof.
  intros Hs Hl. unfold joinStream. rewrite Hs, Hl. simpl.
  split; [done|]. rewrite lookup_insert_eq. do 2 eexists.
  split; [done|]. rewrite participantOf_stamp, participantOf_join.
  split; [done|]. by destruct (participantOf (user_id req) session).
Qed.

Lemma joinStream_not_live (req : Req) (db : DB) (session : Session) :
  sessions db !! params_id req = Some session →
  status session ≠ live →
  joinStream build svc req db = (reply 400 "Session is not currently live", db).
Proof.
  intros Hs Hl. unfold joinStream. rewrite Hs.
  by rewrite bool_decide_eq_false_2.
Qed.

(** A join request followed by a leave request of the same user adds the
    whole seconds between the two to the stored duration. *)
Lemma join_then_leave_requests (sid uid : string) (r : Role) (t1 t2 : Z)
    (db : DB) (session : Session) :
  sessions db !! sid = Some session →
  status session = live →
  let d0 := default 0 (participantOf uid session ≫= p_duration) in
  let db1 := (joinStream build svc (mkReq sid uid r emptyBody t1) db).2 in
  let db2 := (leaveStream (mkReq sid uid r emptyBody t2) db1).2 in
  ∃ s2 p, sessions db2 !! sid = Some s2
          ∧ participantOf uid s2 = Some p
          ∧ joinedAt p = Some t1 ∧ leaveAt p = Some t2
          ∧ p_duration p = Some (d0 + (t2 - t1) / 1000).
Proof.
  intros Hs Hl d0 db1 db2. subst d0 db1 db2.
  unfold joinStream, leaveStream. simpl. rewrite Hs, Hl. simpl.
  rewrite !lookup_insert_eq. simpl. rewrite lookup_insert_eq.
  exists (set_s_updatedAt t2
            (recordParticipantLeave uid t2
               (set_s_updatedAt t1 (recordParticipantJoin uid t1 session)))).
  rewrite participantOf_stamp, participantOf_leave, participantOf_stamp,
    participantOf_join.
  destruct (participantOf uid session) as [p|]; simpl; eexists;
    (split; [done|]); (split; [done|]); cbn; repeat split; f_equal; lia.
Qed.

End StreamProperties.


(** * Further properties *)

(** ** Booking, cancelling and booking again *)

Lemma bookSession_accepts (req : Req) (db : DB) (session : Session) (user : User) :
  sessions db !! params_id req = Some session →
  users db !! user_id req = Some user →
  bookable req session user →
  bookSession req db
  = (mkRes 200 "Session booked successfully"
       (TokensData (tokens user - tokenCost session)),
     saveSession (now req) (params_id req)
       (set_participants (participants session ++ [bookedOnly (user_id req)]) session)
       (saveUser (now req) (user_id req)
          (set_bookedSessions
             (bookedSessions user ++ [mkBooking (params_id req) (now req)])
             (set_tokens (tokens user - tokenCost session) user)) db)).
Proof.
  intros Hs Hu (Hnow & Hst & Hb & Hfull & Hcost). unfold bookSession.
  rewrite Hs, Hu, Hb.
  assert (H1 : (scheduledAt session <? now req) = false) by lia.
  rewrite H1, bool_decide_eq_false_2 by done.
  assert (H2 : (0 <? maxParticipants session)
               && (maxParticipants session <=? Z.of_nat (length (participants session)))
               = false).
  { apply andb_false_iff.
    destruct (Z.ltb_spec 0 (maxParticipants session)); [|by left].
    right. apply Z.leb_gt. lia. }
  assert (H3 : (tokens user <? tokenCost session) = false) by lia.
  by rewrite H2, H3.
Qed.

(** X1. An accepted booking debits exactly the token cost, appends one
    booking to the user and one record without join time to the roster, and
    answers with the new balance; no other user, session, package or
    transaction changes. *)
Theorem booking_effects (req : Req) (db : DB) (session : Session) (user : User) :
  sessions db !! params_id req = Some session →
  users db !! user_id req = Some user →
  bookable req session user →
  let out := bookSession req db in
  out.1 = mkRes 200 "Session booked successfully"
            (TokensData (tokens user - tokenCost session))
  ∧ (∃ user', users out.2 !! user_id req = Some user'
       ∧ tokens user' = tokens user - tokenCost session
       ∧ bookedSessions user'
         = bookedSessions user ++ [mkBooking (params_id req) (now req)]
       ∧ completedSessions user' = completedSessions user ∧ role user' = role user)
  ∧ (∃ session', sessions out.2 !! params_id req = Some session'
       ∧ participants session'
         = participants session ++ [mkParticipant (user_id req) None None None 0 0]
       ∧ status session' = status session ∧ ratings session' = ratings session
       ∧ tokenCost session' = tokenCost session)
  ∧ (∀ id, id ≠ user_id req → users out.2 !! id = users db !! id)
  ∧ (∀ id, id ≠ params_id req → sessions out.2 !! id = sessions db !! id)
  ∧ packages out.2 = packages db ∧ transactions out.2 = transactions db.
Proof.
  intros Hs Hu Hok out. subst out.
  rewrite (bookSession_accepts req db session user Hs Hu Hok). simpl.
  split; [done|]. split.
  { eexists. rewrite lookup_insert_eq. split; [done|]. done. }
  split.
  { eexists. rewrite lookup_insert_eq. split; [done|]. done. }
  split; [intros id Hne; by rewrite lookup_insert_ne|].
  split; [intros id Hne; by rewrite lookup_insert_ne|]. done.
Qed.

Lemma sample_bookable :
  bookable (mkReq "session1" "user1" role_user emptyBody 1000)
    (sampleSession scheduled []) (sampleUser 3 []).
Proof. unfold bookable. simpl. repeat split; try done; lia. Qed.

Lemma booking_effects_witness :
  (bookSession (mkReq "session1" "user1" role_user emptyBody 1000)
     (sampleDB (sampleSession scheduled []) (sampleUser 3 []))).1
  = mkRes 200 "Session booked successfully" (TokensData 1).
Proof.
  exact (proj1 (booking_effects
    (mkReq "session1" "user1" role_user emptyBody 1000)
    (sampleDB (sampleSession scheduled []) (sampleUser 3 []))
    (sampleSession scheduled []) (sampleUser 3 []) eq_refl eq_refl sample_bookable)).
Defined.

Lemma hasBooked_app (sid : string) (u : User) (b : Booking) :
  hasBooked sid (set_bookedSessions (bookedSessions u ++ [b]) u)
  = hasBooked sid u || String.eqb (b_session b) sid.
Proof.
  unfold hasBooked. simpl. rewrite existsb_app. simpl. by rewrite orb_false_r.
Qed.

(** X2. While the user's list holds a booking of the session, every
    booking request of that user for that session is answered 400 and
    changes nothing; in particular the request that follows an accepted
    booking: one booking, one debit. *)
Theorem booking_twice_rejected (req req2 : Req) (db : DB) (session : Session) (user : User) :
  sessions db !! params_id req = Some session →
  users db !! user_id req = Some user →
  bookable req session user →
  params_id req2 = params_id req → user_id req2 = user_id req →
  let db1 := (bookSession req db).2 in
  code (bookSession req2 db1).1 = 400
  ∧ (bookSession req2 db1).2 = db1
  ∧ (now req2 ≤ scheduledAt session →
     (bookSession req2 db1).1 = reply 400 "Session already booked")
  ∧ (∀ db' session' user',
       sessions db' !! params_id req2 = Some session' →
       users db' !! user_id req2 = Some user' →
       hasBooked (params_id req2) user' = true →
       code (bookSession req2 db').1 = 400 ∧ (bookSession req2 db').2 = db').
Proof.
  intros Hs Hu Hok Hp2 Hu2 db1. subst db1.
  assert (Hheld : ∀ db' session' user',
            sessions db' !! params_id req2 = Some session' →
            users db' !! user_id req2 = Some user' →
            hasBooked (params_id req2) user' = true →
            code (bookSession req2 db').1 = 400 ∧ (bookSession req2 db').2 = db').
  { intros db' session' user' Hs' Hu' Hb. unfold bookSession. rewrite Hs'.
    destruct (scheduledAt session' <? now req2); [done|].
    destruct (bool_decide (status session' = cancelled)); [done|].
    by rewrite Hu', Hb. }
  enough (Hnext : code (bookSession req2 (bookSession req db).2).1 = 400
                  ∧ (bookSession req2 (bookSession req db).2).2 = (bookSession req db).2
                  ∧ (now req2 ≤ scheduledAt session →
                     (bookSession req2 (bookSession req db).2).1
                     = reply 400 "Session already booked"))
    by (destruct Hnext as (? & ? & ?); auto).
  clear Hheld.
  rewrite (bookSession_accepts req db session user Hs Hu Hok).
  cbn [snd]. unfold bookSession at 1 2 3. rewrite Hp2, Hu2. simpl.
  rewrite !lookup_insert_eq. simpl.
  destruct (scheduledAt session <? now req2) eqn:Hpast; [split; [done|split; [done|lia]]|].
  destruct Hok as (_ & Hst & _).
  rewrite bool_decide_eq_false_2 by done.
  unfold hasBooked. simpl. rewrite existsb_app. simpl.
  rewrite String.eqb_refl, orb_true_r. done.
Qed.

Lemma booking_twice_rejected_witness :
  (bookSession (mkReq "session1" "user1" role_user emptyBody 2000)
     (bookSession (mkReq "session1" "user1" role_user emptyBody 1000)
        (sampleDB (sampleSession scheduled []) (sampleUser 3 []))).2).1
  = reply 400 "Session already booked".
Proof.
  refine (proj1 (proj2 (proj2 (booking_twice_rejected
    (mkReq "session1" "user1" role_user emptyBody 1000)
    (mkReq "session1" "user1" role_user emptyBody 2000)
    (sampleDB (sampleSession scheduled []) (sampleUser 3 []))
    (sampleSession scheduled []) (sampleUser 3 [])
    eq_refl eq_refl sample_bookable eq_refl eq_refl))) _).
  simpl. lia.
Defined.

Lemma filter_not_booked (sid : string) (bs : list Booking) :
  existsb (λ booking, String.eqb (b_session booking) sid) bs = false →
  List.filter (λ b, negb (String.eqb (b_session b) sid)) bs = bs.
Proof.
  induction bs as [|b bs IH]; simpl; [done|].
  destruct (String.eqb (b_session b) sid); simpl; [done|].
  intros H. by rewrite IH.
Qed.

Lemma sessions_refundAll (now : Z) (sid : string) (cost : Z) (db : DB) :
  sessions (refundAll now sid cost db) = sessions db.
Proof.
  unfold refundAll.
  by destruct (foldl_saveUser_frame now (refund sid cost) (bookers sid db) db) as (-> & _).
Qed.

(** The user booked by [bookSession_accepts], after the refund loop. *)
Lemma refunded_after_booking (now t : Z) (sid : string) (cost : Z) (user : User) :
  hasBooked sid user = false →
  let booked := set_u_updatedAt t
                  (set_bookedSessions (bookedSessions user ++ [mkBooking sid t])
                     (set_tokens (tokens user - cost) user)) in
  tokens (refunded now sid cost booked) = tokens user
  ∧ bookedSessions (refunded now sid cost booked) = bookedSessions user
  ∧ completedSessions (refunded now sid cost booked) = completedSessions user.
Proof.
  intros Hb booked. subst booked. unfold refunded, hasBooked. simpl.
  rewrite existsb_app. simpl. rewrite String.eqb_refl, orb_true_r. simpl.
  rewrite List.filter_app. simpl. rewrite String.eqb_refl. simpl.
  rewrite app_nil_r, filter_not_booked by done.
  repeat split. lia.
Qed.

(** X3. Booking a scheduled session and cancelling it through the status
    endpoint is a round trip on the user: the balance and the list of
    bookings are what they were before the booking. The roster is not
    rolled back: the cancelled session keeps the record of the user. *)
Theorem book_then_cancel_restores (req creq : Req) (db : DB)
    (session : Session) (user : User) :
  sessions db !! params_id req = Some session →
  users db !! user_id req = Some user →
  bookable req session user → status session = scheduled →
  params_id creq = params_id req →
  body_status (body creq) = Some "cancelled" →
  mayManage creq session →
  let db1 := (bookSession req db).2 in
  let out := updateSessionStatus creq db1 in
  code out.1 = 200
  ∧ tokens <$> users out.2 !! user_id req = Some (tokens user)
  ∧ bookedSessions <$> users out.2 !! user_id req = Some (bookedSessions user)
  ∧ status <$> sessions out.2 !! params_id req = Some cancelled
  ∧ participants <$> sessions out.2 !! params_id req
    = Some (participants session ++ [mkParticipant (user_id req) None None None 0 0]).
Proof.
  intros Hs Hu Hok Hst Hp Hb Hm db1 out. subst out db1.
  rewrite (bookSession_accepts req db session user Hs Hu Hok). cbn [snd].
  erewrite updateSessionStatus_cancel; [|done| | |].
  2: { rewrite Hp. simpl. apply lookup_insert_eq. }
  2: { simpl. by left. }
  2: { exact Hm. }
  cbn [fst snd code]. split; [done|].
  destruct Hok as (_ & _ & Hnb & _).
  rewrite refundAll_lookup, sessions_refundAll. simpl.
  rewrite lookup_insert_eq. simpl.
  destruct (refunded_after_booking (now creq) (now req) (params_id req)
              (tokenCost session) user Hnb) as (Ht & Hbs & _).
  rewrite Hp. rewrite Ht, Hbs. rewrite lookup_insert_eq. done.
Qed.

Lemma book_then_cancel_restores_witness :
  tokens <$> users
    (updateSessionStatus
       (mkReq "session1" "trainer1" role_trainer (statusBody "cancelled") 2000)
       (bookSession (mkReq "session1" "user1" role_user emptyBody 1000)
          (sampleDB (sampleSession scheduled []) (sampleUser 3 []))).2).2 !! "user1"
  = Some 3.
Proof.
  exact (proj1 (proj2 (book_then_cancel_restores
    (mkReq "session1" "user1" role_user emptyBody 1000)
    (mkReq "session1" "trainer1" role_trainer (statusBody "cancelled") 2000)
    (sampleDB (sampleSession scheduled []) (sampleUser 3 []))
    (sampleSession scheduled []) (sampleUser 3 [])
    eq_refl eq_refl sample_bookable eq_refl eq_refl eq_refl (or_introl eq_refl)))).
Defined.

Lemma mayManage_passes (req : Req) (session : Session) :
  mayManage req session →
  negb (String.eqb (s_trainer session) (user_id req)) && negb (isAdmin (user_role req))
  = false.
Proof.
  intros [->| ->]; [by rewrite String.eqb_refl|apply andb_false_r].
Qed.

Lemma updateSession_fields (req : Req) (db : DB) (session : Session) :
  sessions db !! params_id req = Some session →
  mayManage req session →
  liveOrCompleted (status session) = false →
  body_status (body req) = None →
  let session' :=
    set_schedule
      (assignZ (body_scheduledAt (body req)) (scheduledAt session))
      (assignZ (body_duration (body req)) (s_duration session))
      (assignZ (body_tokenCost (body req)) (tokenCost session))
      (default (maxParticipants session) (body_maxParticipants (body req)))
      session in
  updateSession req db
  = (mkRes 200 EmptyString (SessionData (set_s_updatedAt (now req) session')),
     saveSession (now req) (params_id req) session' db).
Proof.
  intros Hs Hm Hlc Hb session'. subst session'. unfold updateSession.
  by rewrite Hs, (mayManage_passes _ _ Hm), Hlc, Hb.
Qed.

Lemma updateSessionStatus_reschedule (req : Req) (db : DB) (session : Session) :
  body_status (body req) = Some "scheduled" →
  sessions db !! params_id req = Some session →
  liveOrCompleted (status session) = false →
  mayManage req session →
  updateSessionStatus req db
  = (mkRes 200 "Session updated successfully"
       (SessionData (set_s_updatedAt (now req) (set_status scheduled session))),
     saveSession (now req) (params_id req) (set_status scheduled session) db).
Proof.
  intros Hb Hs Hlc Hm. unfold updateSessionStatus. rewrite Hb, Hs. simpl.
  by rewrite (mayManage_passes _ _ Hm), Hlc.
Qed.

(** X4. The refund of a cancellation is the token cost stored at that
    moment, not the cost that was debited: after a booking at cost [c1], a
    change of the cost to [c2] and a cancellation, the balance is the
    original one minus [c1] plus [c2]. A cost of 0 in the update is ignored,
    and the refund is then [c1]. *)
Theorem refund_uses_current_cost (req ureq creq : Req) (db : DB)
    (session : Session) (user : User) (c2 : Z) :
  sessions db !! params_id req = Some session →
  users db !! user_id req = Some user →
  bookable req session user → status session = scheduled →
  params_id ureq = params_id req → mayManage ureq session →
  body ureq = costBody c2 →
  params_id creq = params_id req → mayManage creq session →
  body_status (body creq) = Some "cancelled" →
  let db1 := (bookSession req db).2 in
  let db2 := (updateSession ureq db1).2 in
  let out := updateSessionStatus creq db2 in
  code (updateSession ureq db1).1 = 200 ∧ code out.1 = 200
  ∧ tokens <$> users out.2 !! user_id req
    = Some (tokens user - tokenCost session
            + (if c2 =? 0 then tokenCost session else c2)).
Proof.
  intros Hs Hu Hok Hst Hpu Hmu Hbu Hpc Hmc Hbc db1 db2 out. subst out db2 db1.
  rewrite (bookSession_accepts req db session user Hs Hu Hok). cbn [snd].
  erewrite updateSession_fields; [| | | |].
  2: { rewrite Hpu. simpl. apply lookup_insert_eq. }
  2: { exact Hmu. }
  2: { simpl. by rewrite Hst. }
  2: { by rewrite Hbu. }
  cbn [fst snd code]. split; [done|].
  erewrite updateSessionStatus_cancel; [|done| | |].
  2: { rewrite Hpc, Hpu. simpl. apply lookup_insert_eq. }
  2: { simpl. by left. }
  2: { exact Hmc. }
  cbn [fst snd code]. split; [done|].
  destruct Hok as (_ & _ & Hnb & _).
  rewrite refundAll_lookup. simpl. rewrite lookup_insert_eq. simpl.
  rewrite Hpc, Hbu. simpl.
  unfold refunded, hasBooked. simpl. rewrite existsb_app. simpl.
  rewrite String.eqb_refl, orb_true_r. simpl. f_equal.
  unfold assignZ, truthyZ. simpl. destruct (c2 =? 0); simpl; lia.
Qed.

Lemma refund_uses_current_cost_witness :
  tokens <$> users
    (updateSessionStatus
       (mkReq "session1" "trainer1" role_trainer (statusBody "cancelled") 3000)
       (updateSession (mkReq "session1" "trainer1" role_trainer (costBody 7) 2000)
          (bookSession (mkReq "session1" "user1" role_user emptyBody 1000)
             (sampleDB (sampleSession scheduled []) (sampleUser 3 []))).2).2).2 !! "user1"
  = Some 8.
Proof.
  exact (proj2 (proj2 (refund_uses_current_cost
    (mkReq "session1" "user1" role_user emptyBody 1000)
    (mkReq "session1" "trainer1" role_trainer (costBody 7) 2000)
    (mkReq "session1" "trainer1" role_trainer (statusBody "cancelled") 3000)
    (sampleDB (sampleSession scheduled []) (sampleUser 3 []))
    (sampleSession scheduled []) (sampleUser 3 []) 7
    eq_refl eq_refl sample_bookable eq_refl eq_refl (or_introl eq_refl) eq_refl
    eq_refl (or_introl eq_refl) eq_refl))).
Defined.

(** X5. [bookSession] looks for an earlier booking in the user's list, not
    on the roster: after a booking, a cancellation and a rescheduling, the
    same user can book again, and the roster then holds two records of that
    user. *)
Theorem rebooking_duplicates_roster (req creq sreq req2 : Req) (db : DB)
    (session : Session) (user : User) :
  sessions db !! params_id req = Some session →
  users db !! user_id req = Some user →
  bookable req session user → status session = scheduled →
  params_id creq = params_id req → mayManage creq session →
  body_status (body creq) = Some "cancelled" →
  params_id sreq = params_id req → mayManage sreq session →
  body_status (body sreq) = Some "scheduled" →
  params_id req2 = params_id req → user_id req2 = user_id req →
  now req2 ≤ scheduledAt session →
  ¬ (0 < maxParticipants session
     ∧ maxParticipants session ≤ Z.of_nat (length (participants session)) + 1) →
  let db1 := (bookSession req db).2 in
  let db2 := (updateSessionStatus creq db1).2 in
  let db3 := (updateSessionStatus sreq db2).2 in
  let out := bookSession req2 db3 in
  code out.1 = 200
  ∧ (∃ session', sessions out.2 !! params_id req = Some session'
       ∧ participants session'
         = participants session
           ++ [mkParticipant (user_id req) None None None 0 0;
               mkParticipant (user_id req) None None None 0 0]
       ∧ ¬ roster_unique session')
  ∧ tokens <$> users out.2 !! user_id req = Some (tokens user - tokenCost session).
Proof.
  intros Hs Hu Hok Hst Hpc Hmc Hbc Hps Hms Hbs Hp2 Hu2 Hnow2 Hroom db1 db2 db3 out.
  subst out db3 db2 db1.
  destruct creq as [cid cuid crole cbody cnow], sreq as [sid_ suid srole sbody snow],
    req2 as [id2 uid2 role2 body2 now2].
  simpl in Hpc, Hbc, Hps, Hbs, Hp2, Hu2, Hnow2. subst cid sid_ id2 uid2.
  rewrite (bookSession_accepts req db session user Hs Hu Hok). cbn [snd].
  rewrite (updateSessionStatus_cancel (mkReq (params_id req) cuid crole cbody cnow) _
             (set_s_updatedAt (now req)
                (set_participants (participants session ++ [bookedOnly (user_id req)])
                   session)) Hbc); [|apply lookup_insert_eq|left; exact Hst|exact Hmc].
  cbn [snd].
  erewrite updateSessionStatus_reschedule; [|exact Hbs|..].
  2: { rewrite sessions_refundAll. apply lookup_insert_eq. }
  2: { reflexivity. }
  2: { exact Hms. }
  cbn [snd params_id now].
  destruct (Hok) as (_ & _ & Hnb & _ & Hcost).
  destruct (refunded_after_booking cnow (now req) (params_id req)
              (tokenCost session) user Hnb) as (Ht & Hbk & _).
  erewrite bookSession_accepts; [| | |].
  2: { apply lookup_insert_eq. }
  2: { simpl. rewrite refundAll_lookup. simpl.
       rewrite lookup_insert_eq. reflexivity. }
  2: { unfold bookable. simpl.
       split; [done|]. split; [done|]. split.
       { unfold hasBooked. rewrite Hbk. exact Hnb. }
       split; [|by rewrite Ht].
       rewrite length_app. simpl. intros [H1 H2]. apply Hroom. lia. }
  cbn [fst snd code]. split; [done|]. split.
  - eexists. simpl. rewrite lookup_insert_eq. split; [done|].
    simpl. rewrite <- app_assoc. split; [done|].
    unfold roster_unique. simpl. rewrite fmap_app. simpl.
    intros Hnd. apply NoDup_app in Hnd as (_ & _ & Hnd).
    apply NoDup_cons in Hnd as [Hin _]. apply Hin. by left.
  - simpl. rewrite lookup_insert_eq. simpl. by rewrite Ht.
Qed.

Lemma rebooking_duplicates_roster_witness :
  code (bookSession (mkReq "session1" "user1" role_user emptyBody 4000)
          (updateSessionStatus
             (mkReq "session1" "trainer1" role_trainer (statusBody "scheduled") 3000)
             (updateSessionStatus
                (mkReq "session1" "trainer1" role_trainer (statusBody "cancelled") 2000)
                (bookSession (mkReq "session1" "user1" role_user emptyBody 1000)
                   (sampleDB (sampleSession scheduled []) (sampleUser 3 []))).2).2).2).1
  = 200.
Proof.
  refine (proj1 (rebooking_duplicates_roster
    (mkReq "session1" "user1" role_user emptyBody 1000)
    (mkReq "session1" "trainer1" role_trainer (statusBody "cancelled") 2000)
    (mkReq "session1" "trainer1" role_trainer (statusBody "scheduled") 3000)
    (mkReq "session1" "user1" role_user emptyBody 4000)
    (sampleDB (sampleSession scheduled []) (sampleUser 3 []))
    (sampleSession scheduled []) (sampleUser 3 [])
    eq_refl eq_refl sample_bookable eq_refl eq_refl (or_introl eq_refl) eq_refl
    eq_refl (or_introl eq_refl) eq_refl eq_refl eq_refl _ _)).
  - simpl. lia.
  - simpl. lia.
Defined.

(** ** Ratings: rejections, the user's history, the trainer's aggregate *)

Lemma validRating_tests (o : option Q) :
  validRating o →
  truthyQ o = true ∧ Qltb (default 0%Q o) 1 || Qltb 5 (default 0%Q o) = false.
Proof.
  intros (v & -> & Hv). simpl. by destruct (inRange_tests v Hv) as (-> & -> & ->).
Qed.

Lemma invalidRating_tests (o : option Q) :
  ¬ validRating o →
  negb (truthyQ o) = true
  ∨ (negb (truthyQ o) = false
     ∧ Qltb (default 0%Q o) 1 || Qltb 5 (default 0%Q o) = true).
Proof.
  intros Hn. destruct o as [v|]; [|by left]. simpl.
  destruct (Qeq_bool v 0) eqn:H0; [by left|]. right. split; [done|].
  destruct (Qltb v 1 || Qltb 5 v) eqn:Hr; [done|].
  exfalso. apply Hn. exists v. split; [done|]. by apply tests_inRange.
Qed.

(** X6. A rating of a stored session is refused, with the database
    unchanged, when the body carries no number from 1 to 5 (400, before the
    session is looked at), when the session is not completed (400, "Can
    only rate completed sessions"), and when the user has no record on its
    roster (403), in this order. *)
Theorem rateSession_rejections (req : Req) (db : DB) :
  (¬ validRating (body_rating (body req)) →
   rateSession req db = (reply 400 "Rating must be between 1 and 5", db))
  ∧ (∀ session, validRating (body_rating (body req)) →
       sessions db !! params_id req = Some session →
       status session ≠ completed →
       rateSession req db = (reply 400 "Can only rate completed sessions", db))
  ∧ (∀ session, validRating (body_rating (body req)) →
       sessions db !! params_id req = Some session →
       status session = completed →
       existsb (isUser (user_id req)) (participants session) = false →
       rateSession req db
       = (reply 403 "You must participate in the session to rate it", db)).
Proof.
  split; [|split].
  - intros Hn. unfold rateSession.
    destruct (invalidRating_tests _ Hn) as [-> | [-> ->]]; done.
  - intros session (Ht & Hr)%validRating_tests Hs Hst. unfold rateSession.
    rewrite Ht, Hr, Hs. simpl. by rewrite bool_decide_eq_false_2.
  - intros session (Ht & Hr)%validRating_tests Hs Hst Hp. unfold rateSession.
    rewrite Ht, Hr, Hs, Hst. simpl. by rewrite Hp.
Qed.

Lemma rateSession_rejections_witness :
  rateSession (mkReq "session1" "user1" role_user (ratingBody (9 # 2) None) 100)
    (sampleDB (sampleSession live [bookedOnly "user1"]) (sampleUser 0 []))
  = (reply 400 "Can only rate completed sessions",
     sampleDB (sampleSession live [bookedOnly "user1"]) (sampleUser 0 [])).
Proof.
  refine (proj1 (proj2 (rateSession_rejections
    (mkReq "session1" "user1" role_user (ratingBody (9 # 2) None) 100)
    (sampleDB (sampleSession live [bookedOnly "user1"]) (sampleUser 0 []))))
    (sampleSession live [bookedOnly "user1"]) _ eq_refl _).
  - exists (9 # 2)%Q. split; [reflexivity|]. split; unfold Qle; simpl; lia.
  - simpl. discriminate.
Defined.

Lemma calculateAverageRating_trainer (s : Session) :
  s_trainer (calculateAverageRating s) = s_trainer s.
Proof. unfold calculateAverageRating. by case_match. Qed.

(** What an accepted rating writes. *)
Lemma rateSession_eq (req : Req) (db : DB) (session : Session) (user : User) (r : Q) :
  body_rating (body req) = Some r → inRange r →
  sessions db !! params_id req = Some session →
  status session = completed →
  existsb (isUser (user_id req)) (participants session) = true →
  users db !! user_id req = Some user →
  let fb := body_feedback (body req) in
  let rated := existsb (isRater (user_id req)) (ratings session) in
  let rs' :=
    if rated
    then overwrite (user_id req) r fb (now req) <$> ratings session
    else ratings session ++ [mkRating (user_id req) r fb (now req)] in
  let session' := calculateAverageRating (set_ratings rs' session) in
  let db1 :=
    if rated || existsb (λ s, String.eqb (c_session s) (params_id req))
                  (completedSessions user)
    then db
    else saveUser (now req) (user_id req)
           (set_completedSessions
              (completedSessions user
                 ++ [mkCompletedSession (params_id req) (now req) r fb]) user) db in
  rateSession req db
  = (mkRes 200 "Session rated successfully" (RatingData r (averageRating session')),
     updateTrainerRating (now req) (s_trainer session)
       (saveSession (now req) (params_id req) session' db1)).
Proof.
  intros Hr Hrange Hs Hst Hp Hu fb rated rs' session' db1.
  subst fb rated rs' session' db1. unfold rateSession. rewrite Hr. simpl.
  destruct (inRange_tests r Hrange) as (Hnz & Hlo & Hhi).
  rewrite Hnz, Hlo, Hhi. simpl.
  rewrite Hs, Hst, Hp. simpl.
  destruct (existsb (isRater (user_id req)) (ratings session)); simpl.
  - by rewrite calculateAverageRating_trainer.
  - rewrite Hu. simpl. rewrite calculateAverageRating_trainer. simpl.
    by destruct (existsb _ (completedSessions user)).
Qed.

Lemma completedSessions_updateTrainerRating (now : Z) (k k' : string) (db : DB) :
  completedSessions <$> users (updateTrainerRating now k db) !! k'
  = completedSessions <$> users db !! k'.
Proof.
  unfold updateTrainerRating.
  destruct (users db !! k) as [t|] eqn:Hk; [|done].
  case_match; [|done]. simpl.
  destruct (decide (k = k')) as [<-|Hne].
  - by rewrite lookup_insert_eq, Hk.
  - by rewrite lookup_insert_ne.
Qed.

(** A resubmission leaves every user's list of completed sessions alone. *)
Lemma rateSession_resubmission_history (sid uid k : string) (db : DB)
    (r : Q) (fb : option string) (t : Z) (s : Session) :
  ratable sid uid db → sessions db !! sid = Some s → ratingsOf uid s ≠ [] →
  inRange r →
  completedSessions <$> users (rateSession (rateReq sid uid (r, fb, t)) db).2 !! k
  = completedSessions <$> users db !! k.
Proof.
  intros (s' & Hs' & Hst & Hp & [u Hu] & _) Hs Hrated Hr.
  assert (s' = s) as -> by congruence.
  rewrite (rateSession_eq (rateReq sid uid (r, fb, t)) db s u r eq_refl Hr Hs Hst Hp Hu).
  cbn [snd]. rewrite completedSessions_updateTrainerRating. simpl.
  destruct (existsb (isRater uid) (ratings s)) eqn:Hex; [done|].
  apply existsb_filter_nil in Hex. done.
Qed.

(** X7. The first accepted rating of a user adds one entry to the user's
    completed sessions, with the rating, the feedback and the instant of
    that call; later ratings of the same session never touch the list, so
    the entry keeps the first rating although the session's own rating entry
    follows the latest call. *)
Theorem history_keeps_first_rating (sid uid : string) (db : DB)
    (session : Session) (user : User)
    (r1 : Q) (fb1 : option string) (t1 : Z) (later : list (Q * option string * Z)) :
  ratable sid uid db →
  sessions db !! sid = Some session → users db !! uid = Some user →
  ratingsOf uid session = [] →
  existsb (λ s, String.eqb (c_session s) sid) (completedSessions user) = false →
  inRange r1 → Forall (λ c, inRange c.1.1) later →
  completedSessions <$> users (rateAll sid uid db ((r1, fb1, t1) :: later)) !! uid
  = Some (completedSessions user ++ [mkCompletedSession sid t1 r1 fb1]).
Proof.
  intros Hdb Hs Hu Hnone Hnc Hr1 Hlater. simpl.
  assert (Hfirst : completedSessions
                     <$> users (rateSession (rateReq sid uid (r1, fb1, t1)) db).2 !! uid
                   = Some (completedSessions user ++ [mkCompletedSession sid t1 r1 fb1])).
  { destruct Hdb as (s' & Hs' & Hst & Hp & _ & _).
    assert (s' = session) as -> by congruence.
    rewrite (rateSession_eq (rateReq sid uid (r1, fb1, t1)) db session user r1
               eq_refl Hr1 Hs Hst Hp Hu).
    cbn [snd]. rewrite completedSessions_updateTrainerRating. simpl.
    apply existsb_filter_nil in Hnone. unfold ratingsOf in *. rewrite Hnone, Hnc.
    simpl. by rewrite lookup_insert_eq. }
  destruct (rate_step sid uid db r1 fb1 t1 Hdb Hr1)
    as (s1 & s2 & e & _ & Hs2 & _ & Hf & _ & _ & _ & _ & _ & _ & Hdb2).
  revert Hfirst Hs2 Hf Hdb2.
  generalize (rateSession (rateReq sid uid (r1, fb1, t1)) db).2. clear Hdb Hs Hu.
  intros d Hfirst. revert d Hfirst s2 e.
  induction later as [|[[r fb] t] later IH]; intros d Hfirst s2 e Hs2 Hf Hd; [done|].
  apply Forall_cons in Hlater as [Hr Hlater]. simpl in Hr. simpl.
  destruct (rate_step sid uid d r fb t Hd Hr)
    as (s1' & s2' & e' & Hs1' & Hs2' & _ & Hf' & _ & _ & _ & _ & _ & _ & Hd').
  eapply (IH Hlater); [|exact Hs2'|exact Hf'|exact Hd'].
  rewrite (rateSession_resubmission_history sid uid uid d r fb t s2 Hd Hs2); [done| |done].
  by rewrite Hf.
Qed.

Lemma history_keeps_first_rating_witness :
  completedSessions
    <$> users (rateAll "session1" "user1"
                 (sampleDB (sampleSession completed [bookedOnly "user1"]) (sampleUser 0 []))
                 [(5%Q, Some "great", 100); (2%Q, Some "tough", 200)]) !! "user1"
  = Some [mkCompletedSession "session1" 100 5 (Some "great")].
Proof.
  refine (history_keeps_first_rating "session1" "user1"
    (sampleDB (sampleSession completed [bookedOnly "user1"]) (sampleUser 0 []))
    (sampleSession completed [bookedOnly "user1"]) (sampleUser 0 [])
    5%Q (Some "great") 100 [(2%Q, Some "tough", 200)]
    sample_ratable eq_refl eq_refl eq_refl eq_refl _ _).
  - split; unfold Qle; simpl; lia.
  - repeat constructor; unfold Qle; simpl; lia.
Defined.

Lemma sessionsOf_member (tid sid : string) (db : DB) (s : Session) :
  sessions db !! sid = Some s → s_trainer s = tid → s ∈ sessionsOf tid db.
Proof.
  intros Hs Ht. unfold sessionsOf. apply list_elem_of_fmap. exists (sid, s).
  split; [done|]. apply elem_of_map_to_list. by apply map_lookup_filter_Some.
Qed.

Lemma lengths_nonneg (ss : list Session) :
  0 ≤ sumZ (λ s, Z.of_nat (length (ratings s))) ss.
Proof. apply sumZ_nonneg. intros s. lia. Qed.

(** The sum over the sessions of a trainer is exact for whole ratings. *)
Lemma ratingSumOf_whole_from (ss : list Session) (acc : Z) :
  Forall (λ s, Forall wholeStars (ratings s)) ss →
  0 ≤ acc →
  sumZ (λ s, Z.of_nat (length (ratings s))) ss < 2 ^ 45 →
  acc + 5 * sumZ (λ s, Z.of_nat (length (ratings s))) ss < 2 ^ 53 →
  foldl (λ ratingSum s,
           if (0 <? length (ratings s))%nat
           then fadd ratingSum (sumQ r_rating (ratings s))
           else ratingSum)
    (inject_Z acc) ss
  = inject_Z (acc + sumZ (λ s, sumZ stars (ratings s)) ss).
Proof.
  intros Hss. revert acc.
  induction Hss as [|s ss Hs _ IH]; intros acc Hacc Hlen45 Hlt.
  - simpl. f_equal. unfold sumZ. simpl. lia.
  - rewrite !sumZ_cons in *. pose proof (lengths_nonneg ss) as Hnn.
    pose proof (stars_bounds _ Hs) as Hb. simpl foldl.
    assert (0 ≤ Z.of_nat (length (ratings s))) by lia.
    destruct (0 <? length (ratings s))%nat eqn:Hlen.
    + rewrite (sumQ_whole _ Hs) by lia.
      rewrite fadd_whole by lia. rewrite IH by lia. f_equal. lia.
    + apply Nat.ltb_ge in Hlen.
      assert (ratings s = []) as Hnil by (destruct (ratings s); [done|simpl in Hlen; lia]).
      rewrite Hnil in *. rewrite IH by (simpl in *; lia). done.
Qed.

Lemma ratingSums_bounds (ss : list Session) :
  Forall (λ s, Forall wholeStars (ratings s)) ss →
  sumZ (λ s, Z.of_nat (length (ratings s))) ss
  ≤ sumZ (λ s, sumZ stars (ratings s)) ss
  ≤ 5 * sumZ (λ s, Z.of_nat (length (ratings s))) ss.
Proof.
  induction 1 as [|s ss Hs _ IH]; [done|].
  rewrite !sumZ_cons. pose proof (stars_bounds _ Hs). lia.
Qed.

(** X8. After an accepted rating the stored trainer of the session carries
    the number of all ratings on all of the trainer's sessions, counted in
    the database as it is after the rating was saved; the trainer's balance
    is not touched. When these ratings are fewer than [2 ^ 45] whole numbers
    of stars, the trainer's rating is what [(ratingSum / totalRatings)
    .toFixed(1)] gives in double precision on their exact sum: a tenth
    nearest to their exact mean, and the mean rounded half up unless the
    mean lies halfway between two tenths. *)
Theorem trainer_aggregate_after_rating (req : Req) (db : DB)
    (session : Session) (user trainer : User) (r : Q) :
  body_rating (body req) = Some r → inRange r →
  sessions db !! params_id req = Some session →
  status session = completed →
  existsb (isUser (user_id req)) (participants session) = true →
  users db !! user_id req = Some user →
  users db !! s_trainer session = Some trainer →
  let db' := (rateSession req db).2 in
  let tid := s_trainer session in
  ∃ trainer', users db' !! tid = Some trainer'
    ∧ totalRatings trainer' = ratingCount tid db'
    ∧ 1 ≤ ratingCount tid db'
    ∧ tokens trainer' = tokens trainer
    ∧ bookedSessions trainer' = bookedSessions trainer
    ∧ (Forall (λ s, Forall wholeStars (ratings s)) (sessionsOf tid db') →
       ratingCount tid db' < 2 ^ 45 →
       let n := ratingCount tid db' in
       let S := ratingSum tid db' in
       trainerRating trainer' = toFixed1 (fdiv (inject_Z S) (inject_Z n))
       ∧ Z.abs (2 * n * trainerRating trainer' - 20 * S) ≤ n
       ∧ ((20 * S + n) mod (2 * n) ≠ 0 →
          trainerRating trainer' = (20 * S + n) / (2 * n))).
Proof.
  intros Hr Hrange Hs Hst Hp Hu Ht db' tid. subst db' tid.
  rewrite (rateSession_eq req db session user r Hr Hrange Hs Hst Hp Hu). cbn [snd].
  set (rs' := if existsb (isRater (user_id req)) (ratings session)
              then overwrite (user_id req) r (body_feedback (body req)) (now req)
                     <$> ratings session
              else ratings session
                     ++ [mkRating (user_id req) r (body_feedback (body req)) (now req)]).
  set (db1 := if _ || _ then db else _).
  set (s' := calculateAverageRating (set_ratings rs' session)).
  set (dbs := saveSession (now req) (params_id req) s' db1).
  assert (Hne : rs' ≠ []).
  { subst rs'. destruct (existsb _ (ratings session)) eqn:Hex.
    - destruct (ratings session); [done|]. done.
    - intros Hnil. by apply app_eq_nil in Hnil as [_ ?]. }
  assert (Hrat : ratings s' = rs')
    by (subst s'; by destruct (calculateAverageRating_fields (set_ratings rs' session))
          as (-> & _)).
  assert (Hmem : set_s_updatedAt (now req) s' ∈ sessionsOf (s_trainer session) dbs).
  { apply (sessionsOf_member _ (params_id req)).
    - subst dbs. simpl. apply lookup_insert_eq.
    - simpl. subst s'. by rewrite calculateAverageRating_trainer. }
  assert (Hcount : 1 ≤ ratingCount (s_trainer session) dbs).
  { unfold ratingCount.
    pose proof (sumZ_member (λ s, Z.of_nat (length (ratings s))) _ _
                  (λ y, Nat2Z.is_nonneg _) Hmem) as Hle.
    simpl in Hle. rewrite Hrat in Hle.
    destruct rs'; [done|]. simpl in Hle. lia. }
  assert (Hsame : sessionsOf (s_trainer session)
                    (updateTrainerRating (now req) (s_trainer session) dbs)
                  = sessionsOf (s_trainer session) dbs).
  { unfold sessionsOf. by rewrite sessions_updateTrainerRating. }
  unfold ratingCount, ratingSum in *. rewrite Hsame.
  assert (Htr : ∃ t0, users dbs !! s_trainer session = Some t0
                      ∧ tokens t0 = tokens trainer
                      ∧ bookedSessions t0 = bookedSessions trainer).
  { subst dbs db1. simpl. destruct (_ || _); simpl; [by exists trainer|].
    destruct (decide (user_id req = s_trainer session)) as [He|Hne'].
    - rewrite He, lookup_insert_eq. eexists. split; [done|].
      rewrite He in Hu. simpl. split; congruence.
    - rewrite lookup_insert_ne by done. by exists trainer. }
  destruct Htr as (t0 & Ht0 & Htok & Hbk).
  unfold updateTrainerRating. rewrite Ht0.
  assert (Hpos : (0 <? sumZ (λ s, Z.of_nat (length (ratings s)))
                        (sessionsOf (s_trainer session) dbs)) = true) by lia.
  rewrite Hpos. simpl. rewrite lookup_insert_eq. eexists. split; [done|].
  simpl. split; [done|]. split; [done|]. split; [done|]. split; [done|].
  intros Hwhole Hlen.
  pose proof (ratingSums_bounds _ Hwhole) as Hb.
  unfold ratingSumOf. change 0%Q with (inject_Z 0).
  rewrite (ratingSumOf_whole_from _ 0 Hwhole) by lia.
  rewrite Z.add_0_l. split; [done|]. apply mean_near; lia.
Qed.

Lemma trainer_aggregate_after_rating_witness :
  ∃ trainer',
    users (rateSession (mkReq "session1" "user1" role_user (ratingBody 4 None) 100)
             (sampleDB (sampleSession completed [bookedOnly "user1"]) (sampleUser 0 []))).2
      !! "trainer1" = Some trainer'
    ∧ totalRatings trainer' = 1 ∧ trainerRating trainer' = 40.
Proof.
  assert (Hrange : inRange 4) by (split; unfold Qle; simpl; lia).
  destruct (trainer_aggregate_after_rating
    (mkReq "session1" "user1" role_user (ratingBody 4 None) 100)
    (sampleDB (sampleSession completed [bookedOnly "user1"]) (sampleUser 0 []))
    (sampleSession completed [bookedOnly "user1"]) (sampleUser 0 []) sampleTrainer 4%Q
    eq_refl Hrange eq_refl eq_refl eq_refl
    eq_refl eq_refl) as (t' & Ht' & Hn & _ & _ & _ & Hr).
  exists t'. split; [exact Ht'|]. split.
  - rewrite Hn. vm_compute. reflexivity.
  - destruct Hr as (Hr & _).
    + vm_compute. repeat (constructor; try (intro; discriminate)).
    + vm_compute. reflexivity.
    + rewrite Hr. vm_compute. reflexivity.
Defined.

(** ** The rating histogram *)

Lemma countRating_snoc (v : Z) (rs : list Rating) (r : Rating) :
  countRating v (rs ++ [r]) = countRating v rs + (if stars r =? v then 1 else 0).
Proof.
  unfold countRating. rewrite List.filter_app, length_app. simpl.
  destruct (stars r =? v); simpl; lia.
Qed.

Lemma ratingDistribution_snoc (rs : list Rating) (r : Rating) :
  ratingDistribution (rs ++ [r])
  = (if (1 <=? stars r) && (stars r <=? 5)
     then <[stars r := default 0 (ratingDistribution rs !! stars r) + 1]>
            (ratingDistribution rs)
     else ratingDistribution rs).
Proof. unfold ratingDistribution. by rewrite foldl_app. Qed.

Lemma ratingDistribution_lookup (rs : list Rating) (v : Z) :
  ratingDistribution rs !! v
  = if (1 <=? v) && (v <=? 5) then Some (countRating v rs) else None.
Proof.
  induction rs as [|r rs IH] using rev_ind.
  - unfold ratingDistribution, countRating. simpl.
    repeat (rewrite lookup_insert; case_decide; [subst; done|]).
    rewrite lookup_empty.
    destruct ((1 <=? v) && (v <=? 5)) eqn:Hv; [lia|done].
  - rewrite ratingDistribution_snoc, countRating_snoc.
    destruct ((1 <=? stars r) && (stars r <=? 5)) eqn:Hr.
    + destruct (decide (stars r = v)) as [<-|Hne].
      * rewrite lookup_insert_eq, IH, Hr. simpl. rewrite Z.eqb_refl. done.
      * rewrite lookup_insert_ne, IH by done.
        assert (Hf : (stars r =? v) = false) by lia. rewrite Hf.
        destruct (_ && _); [f_equal; lia|done].
    + rewrite IH. destruct ((1 <=? v) && (v <=? 5)) eqn:Hv; [|done].
      assert (Hf : (stars r =? v) = false) by lia. rewrite Hf. f_equal. lia.
Qed.

Lemma inRange_stars (q : Q) : inRange q → 1 ≤ Qfloor q ≤ 5.
Proof.
  intros [H1 H5]. split.
  - apply Qfloor_resp_le in H1. exact H1.
  - apply Qfloor_resp_le in H5. exact H5.
Qed.

Lemma countRating_total (rs : list Rating) :
  Forall (λ r, inRange (r_rating r)) rs →
  countRating 1 rs + countRating 2 rs + countRating 3 rs + countRating 4 rs
  + countRating 5 rs = Z.of_nat (length rs).
Proof.
  induction 1 as [|r rs Hr _ IH]; [done|].
  apply inRange_stars in Hr. fold (stars r) in Hr.
  unfold countRating in *. simpl.
  destruct (stars r =? 1) eqn:H1, (stars r =? 2) eqn:H2,
    (stars r =? 3) eqn:H3, (stars r =? 4) eqn:H4, (stars r =? 5) eqn:H5;
    simpl; lia.
Qed.

(** X9. The rating histogram of the analytics has exactly the keys 1 to 5,
    and the bucket of [v] counts the ratings whose whole part, the
    [Math.floor] of the rating, is [v]: a rating of 4.5 counts in bucket 4;
    a rating whose whole part is outside 1 to 5 is in no bucket. When all
    ratings are numbers from 1 to 5 the five buckets add up to the number
    of ratings. *)
Theorem rating_histogram (rs : list Rating) :
  (∀ v, ratingDistribution rs !! v
        = if (1 <=? v) && (v <=? 5) then Some (countRating v rs) else None)
  ∧ (∀ u fb t, stars (mkRating u (9 # 2) fb t) = 4)
  ∧ (Forall (λ r, inRange (r_rating r)) rs →
     bucketsTotal (ratingDistribution rs) = Z.of_nat (length rs)).
Proof.
  split; [apply ratingDistribution_lookup|]. split; [done|].
  intros Hvalid. unfold bucketsTotal, bucket.
  rewrite !ratingDistribution_lookup. simpl. by apply countRating_total.
Qed.

Lemma rating_histogram_witness :
  bucketsTotal
    (ratingDistribution [mkRating "user1" 5 None 10; mkRating "user2" (9 # 2) None 20;
                         mkRating "user3" 5 None 30])
  = 3.
Proof.
  refine (proj2 (proj2 (rating_histogram
    [mkRating "user1" 5 None 10; mkRating "user2" (9 # 2) None 20;
     mkRating "user3" 5 None 30])) _).
  repeat constructor; unfold Qle; simpl; lia.
Defined.

(** ** Stored ratings stay within 1 to 5 *)

Lemma ratings_valid_overwrite (u : string) (r : Q) (fb : option string) (t : Z)
    (rs : list Rating) :
  inRange r → Forall (λ x, inRange (r_rating x)) rs →
  Forall (λ x, inRange (r_rating x)) (overwrite u r fb t <$> rs).
Proof.
  intros Hr Hrs. apply Forall_fmap. eapply Forall_impl; [exact Hrs|].
  intros x Hx. unfold overwrite. simpl. by case_match.
Qed.

Lemma all_ratings_valid_save (now : Z) (k : string) (s : Session) (db : DB) :
  ratings_valid s → all_ratings_valid db → all_ratings_valid (saveSession now k s db).
Proof.
  intros Hs Hdb. unfold all_ratings_valid, saveSession. simpl.
  by apply map_Forall_insert_2.
Qed.

Lemma all_ratings_valid_updateTrainerRating (now : Z) (k : string) (db : DB) :
  all_ratings_valid db → all_ratings_valid (updateTrainerRating now k db).
Proof. unfold all_ratings_valid. by rewrite sessions_updateTrainerRating. Qed.

(** X10. [rateSession] keeps every stored rating within 1 to 5, whatever the
    request: a value outside the range is refused before anything is
    written, and an accepted value is written into one entry or appended. *)
Theorem rateSession_keeps_ratings_valid (req : Req) (db : DB) :
  all_ratings_valid db → all_ratings_valid (rateSession req db).2.
Proof.
  intros Hdb. unfold rateSession.
  destruct (negb (truthyQ (body_rating (body req)))); [done|].
  destruct (Qltb (default 0%Q (body_rating (body req))) 1
            || Qltb 5 (default 0%Q (body_rating (body req)))) eqn:Hr; [done|].
  apply tests_inRange in Hr as Hrange.
  destruct (sessions db !! params_id req) as [session|] eqn:Hs; [|done].
  pose proof (map_Forall_lookup_1 _ _ _ _ Hdb Hs) as Hvalid. simpl in Hvalid.
  destruct (negb (bool_decide (status session = completed))); [done|].
  destruct (negb (existsb _ (participants session))); [done|].
  assert (Hcalc : ∀ s, ratings_valid s → ratings_valid (calculateAverageRating s)).
  { intros s Hv. unfold ratings_valid.
    by destruct (calculateAverageRating_fields s) as (-> & _). }
  destruct (existsb (isRater (user_id req)) (ratings session)); simpl.
  - apply all_ratings_valid_updateTrainerRating, all_ratings_valid_save; [|done].
    apply Hcalc. unfold ratings_valid. simpl. by apply ratings_valid_overwrite.
  - destruct (users db !! user_id req) as [user|]; [|done].
    apply all_ratings_valid_updateTrainerRating, all_ratings_valid_save.
    + apply Hcalc. unfold ratings_valid. simpl. apply Forall_app. split; [done|].
      apply Forall_singleton. exact Hrange.
    + by destruct (existsb _ (completedSessions user)).
Qed.

Lemma rateSession_keeps_ratings_valid_witness :
  all_ratings_valid
    (rateSession (mkReq "session1" "user1" role_user (ratingBody 4 None) 100)
       (sampleDB (sampleSession completed [bookedOnly "user1"]) (sampleUser 0 []))).2.
Proof.
  apply rateSession_keeps_ratings_valid.
  unfold all_ratings_valid, sampleDB. simpl.
  apply map_Forall_singleton. constructor.
Defined.

(** ** Tokens and packages *)

Section TokenRoutes.

Variable build : string → string → string → string → RtcRole → Z → string.
Variable svc : AgoraService.

(** X11. Behind its middleware the token endpoint lets every stored user
    write their own balance, no purchase needed: with no operation in the
    body and a whole number from 1 to [2 ^ 53] as the amount, the balance
    becomes the amount. A user who is not an administrator is refused (403)
    on any other user's id. *)
Theorem own_balance_is_writable (req : Req) (db : DB) (u : User) (a : Z) :
  users db !! user_id req = Some u →
  body_tokens (body req) = Some a → 0 < a → a ≤ 2 ^ 53 →
  let out := route build svc PUT_user_tokens req db in
  (params_id req = user_id req → body_operation (body req) = None →
   out.1 = mkRes 200 "Tokens updated successfully" (TokensData a)
   ∧ tokens <$> users out.2 !! user_id req = Some a)
  ∧ (params_id req ≠ user_id req → role u ≠ role_admin →
     out = (reply 403 "Access denied", db)).
Proof.
  intros Hu Ha Hpos _ out. subst out. unfold route, authenticate, isOwnerOrAdmin.
  rewrite Hu. cbn [user_role user_id params_id].
  split.
  - intros Hp Hop. rewrite Hp, String.eqb_refl, orb_true_r.
    unfold updateTokens. cbn [body params_id now]. rewrite Ha, Hop, Hu. simpl.
    assert (H0 : (a =? 0) = false) by lia. assert (H1 : (a <? 0) = false) by lia.
    rewrite H0, H1. simpl. by rewrite lookup_insert_eq.
  - intros Hp Hr. rewrite bool_decide_eq_false_2 by done.
    assert (He : String.eqb (user_id req) (params_id req) = false)
      by (apply String.eqb_neq; congruence).
    by rewrite He.
Qed.

End TokenRoutes.

Lemma own_balance_is_writable_witness :
  tokens <$> users
    (route sampleBuild (newAgoraService ∅) PUT_user_tokens
       (mkReq "user1" "user1" role_user
          (mkBody None None None None None None None (Some 1000) None None) 50)
       (sampleDB (sampleSession scheduled []) (sampleUser 0 []))).2 !! "user1"
  = Some 1000.
Proof.
  refine (proj2 (proj1 (own_balance_is_writable sampleBuild (newAgoraService ∅)
    (mkReq "user1" "user1" role_user
       (mkBody None None None None None None None (Some 1000) None None) 50)
    (sampleDB (sampleSession scheduled []) (sampleUser 0 []))
    (sampleUser 0 []) 1000 eq_refl eq_refl _ _) eq_refl eq_refl)); lia.
Defined.

Lemma notExpired_test (now : Z) (pkg : Package) :
  notExpired now pkg →
  isPromotion pkg && match validUntil pkg with Some t => t <? now | None => false end
  = false.
Proof.
  intros [-> | [-> | (t & -> & Ht)]]; [done|apply andb_false_r|].
  apply andb_false_iff. right. lia.
Qed.

(** X12. An accepted purchase credits exactly the package's token amount,
    records exactly one transaction, already completed, with the package's
    amounts and the payment method of the body, and changes no package, no
    session and no other user. *)
Theorem purchase_effects (req : Req) (db : DB) (pkg : Package) (user : User) (m : string) :
  body_paymentMethod (body req) = Some m → validPaymentMethod m = true →
  packages db !! params_id req = Some pkg →
  active pkg = true → notExpired (now req) pkg →
  users db !! user_id req = Some user →
  let out := purchasePackage req db in
  out.1 = mkRes 200 "Purchase successful" (TokensData (tokens user + tokenAmount pkg))
  ∧ (∃ user', users out.2 !! user_id req = Some user'
       ∧ tokens user' = tokens user + tokenAmount pkg
       ∧ bookedSessions user' = bookedSessions user)
  ∧ transactions out.2
    = transactions db
      ++ [mkTransaction (user_id req) (params_id req) (tokenAmount pkg) (price pkg)
            m "completed"]
  ∧ packages out.2 = packages db ∧ sessions out.2 = sessions db
  ∧ (∀ id, id ≠ user_id req → users out.2 !! id = users db !! id).
Proof.
  intros Hm Hv Hp Ha He Hu out. subst out. unfold purchasePackage.
  rewrite Hm. simpl.
  assert (Hne : String.eqb m EmptyString = false).
  { destruct m; [done|done]. }
  rewrite Hne, Hp, Ha. simpl. rewrite (notExpired_test _ _ He), Hu, Hv. simpl.
  rewrite lookup_insert_eq. repeat split; try done.
  - by eexists.
  - intros id Hid. by rewrite lookup_insert_ne.
Qed.

Lemma purchase_effects_witness :
  (purchasePackage (mkReq "pack1" "user1" role_user (paymentBody "paypal") 100)
     (sampleShop (sampleUser 2 []))).1
  = mkRes 200 "Purchase successful" (TokensData 12).
Proof.
  refine (proj1 (purchase_effects
    (mkReq "pack1" "user1" role_user (paymentBody "paypal") 100)
    (sampleShop (sampleUser 2 [])) samplePackage (sampleUser 2 []) "paypal"
    eq_refl eq_refl eq_refl eq_refl _ eq_refl)).
  by left.
Defined.

(** X13. A purchase is refused with nothing written, neither a credit nor a
    transaction: 400 for a package that is not active, 400 for a promotion
    whose end lies before the request, and 500 from the validation of the
    transaction when the payment method is not one of the four known ones,
    although the balance had already been raised in memory. *)
Theorem purchase_rejections (req : Req) (db : DB) (pkg : Package) (m : string) :
  body_paymentMethod (body req) = Some m → m ≠ EmptyString →
  packages db !! params_id req = Some pkg →
  (active pkg = false →
   purchasePackage req db
   = (reply 400 "This package is not available for purchase", db))
  ∧ (∀ t, active pkg = true → isPromotion pkg = true → validUntil pkg = Some t →
       t < now req →
       purchasePackage req db = (reply 400 "This promotion has expired", db))
  ∧ (∀ user, active pkg = true → notExpired (now req) pkg →
       users db !! user_id req = Some user → validPaymentMethod m = false →
       purchasePackage req db = (next_err "ValidationError", db)).
Proof.
  intros Hm Hne Hp. unfold purchasePackage. rewrite Hm. simpl.
  assert (He : String.eqb m EmptyString = false) by by apply String.eqb_neq.
  rewrite He, Hp. simpl.
  split; [|split].
  - by intros ->.
  - intros t -> -> -> Ht. simpl. assert (Hlt : (t <? now req) = true) by lia.
    by rewrite Hlt.
  - intros user -> Hx Hu Hv. simpl. by rewrite (notExpired_test _ _ Hx), Hu, Hv.
Qed.

Lemma purchase_rejections_witness :
  purchasePackage (mkReq "pack1" "user1" role_user (paymentBody "cash") 100)
    (sampleShop (sampleUser 2 []))
  = (next_err "ValidationError", sampleShop (sampleUser 2 [])).
Proof.
  refine (proj2 (proj2 (purchase_rejections
    (mkReq "pack1" "user1" role_user (paymentBody "cash") 100)
    (sampleShop (sampleUser 2 [])) samplePackage "cash" eq_refl _ eq_refl))
    (sampleUser 2 []) eq_refl _ eq_refl eq_refl).
  - discriminate.
  - by left.
Defined.

(** X14. Deleting a package only switches it off: it stays stored with its
    amounts and is inactive. In every state in which a package is inactive,
    a purchase of it is refused with 400 and credits nothing, and the
    package is hidden (404) from everyone but an administrator. Behind the
    middleware only an administrator can delete. *)
Theorem deleted_package_stays_stored (req : Req) (db : DB) (pkg : Package) :
  packages db !! params_id req = Some pkg →
  let out := deletePackage req db in
  let pkg' := mkPackage (tokenAmount pkg) (price pkg) false (isPromotion pkg)
                (validUntil pkg) in
  out.1 = reply 200 "Package deactivated successfully"
  ∧ packages out.2 !! params_id req = Some pkg'
  ∧ users out.2 = users db ∧ transactions out.2 = transactions db
  ∧ (∀ db' p preq m,
       packages db' !! params_id preq = Some p → active p = false →
       body_paymentMethod (body preq) = Some m → m ≠ EmptyString →
       purchasePackage preq db'
       = (reply 400 "This package is not available for purchase", db'))
  ∧ (∀ db' p id,
       packages db' !! id = Some p → active p = false →
       getPackageById None id db' = inl (reply 404 "Package not found")
       ∧ getPackageById (Some role_user) id db' = inl (reply 404 "Package not found")
       ∧ getPackageById (Some role_trainer) id db' = inl (reply 404 "Package not found")
       ∧ getPackageById (Some role_admin) id db' = inr p)
  ∧ (∀ u, users db !! user_id req = Some u → role u ≠ role_admin →
          DELETE_package req db = (reply 403 "Admin access required", db)).
Proof.
  intros Hp out pkg'. subst out pkg'. unfold deletePackage. rewrite Hp.
  cbn [fst snd packages users transactions].
  split; [done|]. split; [apply lookup_insert_eq|]. split; [done|]. split; [done|].
  split.
  { intros db' p preq m Hp' Ha Hm Hne. unfold purchasePackage. rewrite Hm. simpl.
    rewrite (proj2 (String.eqb_neq _ _) Hne). simpl. by rewrite Hp', Ha. }
  split.
  { intros db' p id Hp' Ha. unfold getPackageById. rewrite Hp', Ha. done. }
  intros u Hu Hr. unfold DELETE_package, authenticate, adminOnly. rewrite Hu.
  simpl. by rewrite bool_decide_eq_false_2.
Qed.

Lemma deleted_package_stays_stored_witness :
  purchasePackage (mkReq "pack1" "user1" role_user (paymentBody "paypal") 200)
    (deletePackage (mkReq "pack1" "admin1" role_admin emptyBody 100)
       (sampleShop (sampleUser 2 []))).2
  = (reply 400 "This package is not available for purchase",
     (deletePackage (mkReq "pack1" "admin1" role_admin emptyBody 100)
        (sampleShop (sampleUser 2 []))).2).
Proof.
  refine (proj1 (proj2 (proj2 (proj2 (proj2 (deleted_package_stays_stored
    (mkReq "pack1" "admin1" role_admin emptyBody 100)
    (sampleShop (sampleUser 2 [])) samplePackage eq_refl)))))
    (deletePackage (mkReq "pack1" "admin1" role_admin emptyBody 100)
       (sampleShop (sampleUser 2 []))).2
    (mkPackage 10 999 false false None)
    (mkReq "pack1" "user1" role_user (paymentBody "paypal") 200) "paypal"
    eq_refl eq_refl eq_refl _).
  discriminate.
Defined.

(** ** Deleting sessions and users *)

(** X15. A scheduled or cancelled session can be deleted by its trainer or
    an administrator, a live or completed one cannot (400). The deletion
    removes that session only: no user is touched, so the users who booked
    it keep their booking and get no tokens back. *)
Theorem deleteSession_refunds_nobody (req : Req) (db : DB) (session : Session) :
  sessions db !! params_id req = Some session →
  mayManage req session →
  let out := deleteSession req db in
  (liveOrCompleted (status session) = true →
   out = (reply 400 ("Cannot delete a " +:+ status_name (status session) +:+ " session"),
          db))
  ∧ (liveOrCompleted (status session) = false →
     out.1 = reply 200 "Session deleted successfully"
     ∧ sessions out.2 !! params_id req = None
     ∧ (∀ id, id ≠ params_id req → sessions out.2 !! id = sessions db !! id)
     ∧ users out.2 = users db
     ∧ (∀ uid u, users db !! uid = Some u → hasBooked (params_id req) u = true →
          ∃ u', users out.2 !! uid = Some u' ∧ tokens u' = tokens u
                ∧ hasBooked (params_id req) u' = true)).
Proof.
  intros Hs Hm out. subst out. unfold deleteSession.
  rewrite Hs, (mayManage_passes _ _ Hm).
  split; intros Hlc; rewrite Hlc; [done|]. simpl.
  split; [done|]. split; [apply lookup_delete_eq|].
  split; [intros id Hne; by apply lookup_delete_ne|].
  split; [done|]. intros uid u Hu Hb. by exists u.
Qed.

Lemma deleteSession_refunds_nobody_witness :
  tokens <$> users
    (deleteSession (mkReq "session1" "trainer1" role_trainer emptyBody 100)
       (sampleDB (sampleSession scheduled [bookedOnly "user1"])
          (sampleUser 0 [mkBooking "session1" 50]))).2 !! "user1"
  = Some 0.
Proof.
  destruct (deleteSession_refunds_nobody
    (mkReq "session1" "trainer1" role_trainer emptyBody 100)
    (sampleDB (sampleSession scheduled [bookedOnly "user1"])
       (sampleUser 0 [mkBooking "session1" 50]))
    (sampleSession scheduled [bookedOnly "user1"]) eq_refl (or_introl eq_refl))
    as (_ & H).
  destruct (H eq_refl) as (_ & _ & _ & _ & Hu).
  destruct (Hu "user1" (sampleUser 0 [mkBooking "session1" 50]) eq_refl eq_refl)
    as (u' & Hu' & Ht & _).
  rewrite Hu'. simpl. by rewrite Ht.
Defined.

Lemma mapM_bookingView_resolves (db : DB) (bs : list Booking) :
  is_Some (mapM (bookingView db) bs)
  ↔ Forall (λ b, ∃ s, sessions db !! b_session b = Some s
                      ∧ is_Some (users db !! s_trainer s)) bs.
Proof.
  rewrite mapM_is_Some. apply Forall_proper; [|done]. intros b.
  unfold bookingView. simpl.
  destruct (sessions db !! b_session b) as [s|] eqn:Hs; simpl.
  - destruct (users db !! s_trainer s) eqn:Ht; simpl.
    + split; [|by eexists]. intros _. exists s. split; [done|]. by rewrite Ht.
    + split; [by intros [? ?]|]. intros (s' & [= <-] & [? Hx]). congruence.
  - split; [by intros [? ?]|]. by intros (s' & ? & _).
Qed.

(** X16. The list of a user's booked sessions is answered exactly when the
    session of every booking and the trainer of that session are still
    stored; it then has one entry per booking, in order, with the booking's
    instant and the session's current schedule and status. One booking of a
    deleted session makes the whole request fail with 500. *)
Theorem getUserSessions_needs_every_session (req : Req) (db : DB) (user : User) :
  users db !! params_id req = Some user →
  let resolves b :=
    ∃ s, sessions db !! b_session b = Some s ∧ is_Some (users db !! s_trainer s) in
  (Forall resolves (bookedSessions user) →
   ∃ views, getUserSessions req db = inr views
     ∧ length views = length (bookedSessions user)
     ∧ ∀ i b, bookedSessions user !! i = Some b →
         ∃ s, sessions db !! b_session b = Some s
              ∧ views !! i = Some (mkBookedSessionView (b_session b) (scheduledAt s)
                                     (s_duration s) (status s) (bookedAt b)))
  ∧ (¬ Forall resolves (bookedSessions user) →
     getUserSessions req db = inl (next_err "TypeError")).
Proof.
  intros Hu resolves. unfold getUserSessions. rewrite Hu.
  split.
  - intros Hall. apply mapM_bookingView_resolves in Hall as [views Hv].
    rewrite Hv. exists views. split; [done|].
    apply mapM_Some in Hv. split; [symmetry; by eapply Forall2_length|].
    intros i b Hb.
    destruct (Forall2_lookup_l _ _ _ _ _ Hv Hb) as (v & Hvi & Hbv).
    unfold bookingView in Hbv.
    destruct (sessions db !! b_session b) as [s|]; [|done].
    destruct (users db !! s_trainer s); [|done].
    injection Hbv as <-. by exists s.
  - intros Hnot. destruct (mapM (bookingView db) (bookedSessions user)) eqn:Hv; [|done].
    exfalso. apply Hnot. apply mapM_bookingView_resolves. by rewrite Hv.
Qed.

Lemma getUserSessions_needs_every_session_witness :
  getUserSessions (mkReq "user1" "user1" role_user emptyBody 200)
    (deleteSession (mkReq "session1" "trainer1" role_trainer emptyBody 100)
       (sampleDB (sampleSession scheduled [bookedOnly "user1"])
          (sampleUser 0 [mkBooking "session1" 50]))).2
  = inl (next_err "TypeError").
Proof.
  refine (proj2 (getUserSessions_needs_every_session
    (mkReq "user1" "user1" role_user emptyBody 200)
    (deleteSession (mkReq "session1" "trainer1" role_trainer emptyBody 100)
       (sampleDB (sampleSession scheduled [bookedOnly "user1"])
          (sampleUser 0 [mkBooking "session1" 50]))).2
    (sampleUser 0 [mkBooking "session1" 50]) eq_refl) _).
  intros Hall. apply Forall_cons in Hall as [(s & Hs & _) _].
  vm_compute in Hs. discriminate.
Defined.

Section AccessProperties.

Variable build : string → string → string → string → RtcRole → Z → string.
Variable svc : AgoraService.


(** X18. A requester whose stored role is [user] cannot change the status of
    any session through the modelled routes: the update, status, start, end
    and delete endpoints answer 403 "Trainer access required" whatever the
    body, and the remaining endpoints never write a status. *)
Theorem plain_user_cannot_change_status (e : Endpoint) (req : Req) (db : DB) (u : User) :
  users db !! user_id req = Some u → role u = role_user →
  statuses (route build svc e req db).2 = statuses db
  ∧ (e ∈ [PUT_session; PUT_session_status; POST_stream_start; POST_stream_end;
          GET_session_analytics] →
     route build svc e req db = (reply 403 "Trainer access required", db))
  ∧ DELETE_session req db = (reply 403 "Trainer access required", db).
Proof.
  intros Hu Hr.
  assert (Hgate : ∀ h, authenticate (isTrainer h) req db
                       = (reply 403 "Trainer access required", db)).
  { intros h. unfold authenticate, isTrainer. rewrite Hu. simpl. by rewrite Hr. }
  destruct (exported_handlers build svc) as (Hs & He & Hj & Hl).
  split; [|split; [|apply Hgate]].
  - destruct e; unfold route; rewrite ?Hs, ?He, ?Hj, ?Hl, ?Hgate; try done;
      unfold authenticate; rewrite Hu.
    + unfold bookSession. repeat case_match; simpl; status_frame.
    + unfold rateSession.
      repeat case_match; simpl; status_frame;
        unfold calculateAverageRating; repeat case_match; simpl; status_frame.
    + unfold joinStream. cbn [params_id user_id now].
      destruct (sessions db !! params_id req) as [s0|] eqn:Hs0; [|done].
      destruct (negb _); [done|]. simpl.
      eapply statuses_saveSession_same; [done|apply status_recordParticipantJoin].
    + unfold leaveStream. cbn [params_id user_id now].
      destruct (sessions db !! params_id req) as [s0|] eqn:Hs0; [|done]. simpl.
      eapply statuses_saveSession_same; [done|apply status_recordParticipantLeave].
    + unfold isOwnerOrAdmin, updateTokens. repeat case_match; done.
    + unfold purchasePackage. repeat case_match; done.
  - intros He'. repeat (apply elem_of_cons in He' as [->|He']; [apply Hgate|]).
    by apply elem_of_nil in He'.
Qed.

End AccessProperties.


Lemma plain_user_cannot_change_status_witness :
  route sampleBuild (newAgoraService ∅) PUT_session_status
    (mkReq "session1" "user1" role_trainer (statusBody "cancelled") 100)
    (sampleDB (sampleSession scheduled []) (sampleUser 5 []))
  = (reply 403 "Trainer access required",
     sampleDB (sampleSession scheduled []) (sampleUser 5 [])).
Proof.
  refine (proj1 (proj2 (plain_user_cannot_change_status
    sampleBuild (newAgoraService ∅) PUT_session_status
    (mkReq "session1" "user1" role_trainer (statusBody "cancelled") 100)
    (sampleDB (sampleSession scheduled []) (sampleUser 5 []))
    (sampleUser 5 []) eq_refl eq_refl)) _).
  apply elem_of_cons. right. apply elem_of_cons. by left.
Defined.

(** ** Starting and ending a stream *)

Section StreamLifeCycle.

Variable build : string → string → string → string → RtcRole → Z → string.
Variable svc : AgoraService.

Lemma trainer_role_passes (r : Role) :
  r ≠ role_user →
  bool_decide (r = role_trainer) || bool_decide (r = role_admin) = true.
Proof. by destruct r. Qed.

Lemma startStream_owner (req : Req) (db : DB) (session : Session) :
  sessions db !! params_id req = Some session →
  is_Some (users db !! user_id req) →
  s_trainer session = user_id req → status session = scheduled →
  startStream build svc req db
  = (mkRes 200 "Stream started successfully"
       (StreamData (appId svc) (channelOf (params_id req))
          (cd_token (createChannel build svc (now req) (params_id req) (user_id req)))
          (Some (user_id req))),
     set_sessions
       (<[params_id req :=
            set_streamingDetails
              (startedDetails (now req) (params_id req) (streamingDetails session))
              (set_status live session)]> (sessions db)) db).
Proof.
  intros Hs [t Hu] Ht Hst. unfold startStream, updateSessionStreamStatus.
  rewrite Hs, Ht, Hu, String.eqb_refl, Hst. done.
Qed.

(** X19. When the trainer of a scheduled session that carries no recording
    resource starts the stream, the session goes live with the channel
    ["session_" + id], the start instant and no recording resource; the
    roster, the ratings, the cost and [updatedAt] keep their values, no user
    changes, and the answer carries the host credential of [createChannel].
    Any other requester, also an administrator, is answered 403 when the
    session's trainer is stored, and 500 (the [TypeError] of the populated
    [null]) when the trainer's account is gone; nothing changes then. *)
Theorem startStream_effects (req : Req) (db : DB) (session : Session) (u : User) :
  users db !! user_id req = Some u → role u ≠ role_user →
  sessions db !! params_id req = Some session →
  status session = scheduled →
  resourceId (streamingDetails session) = None →
  let out := route build svc POST_stream_start req db in
  (s_trainer session = user_id req →
   out.1 = mkRes 200 "Stream started successfully"
             (StreamData (appId svc) ("session_" +:+ params_id req)
                (cd_token (createChannel build svc (now req) (params_id req)
                             (user_id req)))
                (Some (user_id req)))
   ∧ (∃ session', sessions out.2 !! params_id req = Some session'
        ∧ status session' = live
        ∧ channelName (streamingDetails session') = Some ("session_" +:+ params_id req)
        ∧ startedAt (streamingDetails session') = Some (now req)
        ∧ resourceId (streamingDetails session') = None
        ∧ participants session' = participants session
        ∧ ratings session' = ratings session
        ∧ tokenCost session' = tokenCost session
        ∧ s_updatedAt session' = s_updatedAt session)
   ∧ users out.2 = users db
   ∧ (∀ id, id ≠ params_id req → sessions out.2 !! id = sessions db !! id))
  ∧ (s_trainer session ≠ user_id req →
     is_Some (users db !! s_trainer session) →
     out = (reply 403 "Only the assigned trainer can start this stream", db))
  ∧ (users db !! s_trainer session = None →
     out = (next_err "TypeError", db)).
Proof.
  intros Hu Hr Hs Hst _ out. subst out.
  destruct (exported_handlers build svc) as (He & _).
  unfold route. rewrite He. unfold authenticate, isTrainer. rewrite Hu.
  cbn [user_role]. rewrite (trainer_role_passes _ Hr).
  split; [|split].
  - intros Ht. rewrite (startStream_owner _ db session); [|done|by eexists|done..].
    simpl. split; [done|]. split.
    + rewrite lookup_insert_eq. eexists. split; [done|]. done.
    + split; [done|]. intros id Hne. by rewrite lookup_insert_ne.
  - intros Ht [t Htr]. unfold startStream. cbn [params_id user_id]. rewrite Hs, Htr.
    assert (Hne : String.eqb (s_trainer session) (user_id req) = false)
      by by apply String.eqb_neq.
    by rewrite Hne.
  - intros Htr. unfold startStream. cbn [params_id user_id]. by rewrite Hs, Htr.
Qed.

(** X20. Start and end compose: after the stored trainer started a scheduled
    session without recording resource at [t1] and ended it at [t2], the session is completed and keeps
    the channel, the start instant [t1] and the end instant [t2]; a join
    request after that is answered 400 and adds no record. *)
Theorem start_then_end (req ereq jreq : Req) (db : DB) (session : Session) (u : User) :
  users db !! user_id req = Some u →
  sessions db !! params_id req = Some session →
  s_trainer session = user_id req → status session = scheduled →
  resourceId (streamingDetails session) = None →
  params_id ereq = params_id req → user_id ereq = user_id req →
  params_id jreq = params_id req →
  let db1 := (startStream build svc req db).2 in
  let out := endStream ereq db1 in
  out.1 = reply 200 "Stream ended successfully"
  ∧ (∃ session', sessions out.2 !! params_id req = Some session'
       ∧ status session' = completed
       ∧ channelName (streamingDetails session') = Some ("session_" +:+ params_id req)
       ∧ startedAt (streamingDetails session') = Some (now req)
       ∧ endedAt (streamingDetails session') = Some (now ereq)
       ∧ participants session' = participants session)
  ∧ joinStream build svc jreq out.2
    = (reply 400 "Session is not currently live", out.2).
Proof.
  intros Hu Hs Ht Hst _ Hpe Hue Hpj db1 out. subst out db1.
  rewrite (startStream_owner req db session Hs (ex_intro _ u Hu) Ht Hst). cbn [snd].
  unfold endStream, updateSessionStreamStatus. rewrite Hpe, Hue. simpl.
  rewrite !lookup_insert_eq. simpl. rewrite Ht, String.eqb_refl. simpl.
  split; [done|]. split.
  - rewrite lookup_insert_eq. eexists. split; [done|]. done.
  - unfold joinStream. rewrite Hpj. simpl. by rewrite lookup_insert_eq.
Qed.

End StreamLifeCycle.

Lemma startStream_effects_witness :
  (route sampleBuild (newAgoraService ∅) POST_stream_start
     (mkReq "session1" "trainer1" role_trainer emptyBody 4000)
     (sampleDB (sampleSession scheduled []) (sampleUser 0 []))).1
  = mkRes 200 "Stream started successfully"
      (StreamData "test-app-id" "session_session1"
         "placeholder-token-agora-not-configured" (Some "trainer1")).
Proof.
  exact (proj1 (proj1 (startStream_effects sampleBuild (newAgoraService ∅)
    (mkReq "session1" "trainer1" role_trainer emptyBody 4000)
    (sampleDB (sampleSession scheduled []) (sampleUser 0 []))
    (sampleSession scheduled []) sampleTrainer eq_refl
    ltac:(discriminate) eq_refl eq_refl eq_refl) eq_refl)).
Defined.

Lemma start_then_end_witness :
  (endStream (mkReq "session1" "trainer1" role_trainer emptyBody 9000)
     (startStream sampleBuild (newAgoraService ∅)
        (mkReq "session1" "trainer1" role_trainer emptyBody 4000)
        (sampleDB (sampleSession scheduled []) (sampleUser 0 []))).2).1
  = reply 200 "Stream ended successfully".
Proof.
  exact (proj1 (start_then_end sampleBuild (newAgoraService ∅)
    (mkReq "session1" "trainer1" role_trainer emptyBody 4000)
    (mkReq "session1" "trainer1" role_trainer emptyBody 9000)
    (mkReq "session1" "user1" role_user emptyBody 9500)
    (sampleDB (sampleSession scheduled []) (sampleUser 0 []))
    (sampleSession scheduled []) sampleTrainer
    eq_refl eq_refl eq_refl eq_refl eq_refl eq_refl eq_refl eq_refl)).
Defined.

(** ** Reading the stream: [getStreamingDetails] *)

Section StreamReading.

Variable build : string → string → string → string → RtcRole → Z → string.
Variable svc : AgoraService.

Lemma hostOf_test (req : Req) (session : Session) :
  (bool_decide (user_role req = role_trainer) || bool_decide (user_role req = role_admin))
  && String.eqb (s_trainer session) (user_id req) = true
  ↔ hostOf req session.
Proof.
  unfold hostOf. rewrite andb_true_iff, orb_true_iff, !bool_decide_eq_true.
  by rewrite String.eqb_eq.
Qed.

(** X21. [getStreamingDetails] hands out an RTC credential only for a live
    session, and only to its host or to a requester whose stored user holds
    a booking of the session; the credential is for the requester's own id.
    The publisher credential of [createChannel] goes to the host alone;
    everybody else gets the subscriber credential of
    [generateViewerToken]. *)
Theorem streaming_details_gate (req : Req) (db : DB) (session : Session)
    (isHost : bool) (d : ChannelDetails) (st : option Z) (uid : string) :
  sessions db !! params_id req = Some session →
  getStreamingDetails build svc req db = SD_live isHost d st uid →
  status session = live
  ∧ uid = user_id req
  ∧ st = startedAt (streamingDetails session)
  ∧ is_Some (users db !! s_trainer session)
  ∧ (hostOf req session
     ∨ ∃ user, users db !! user_id req = Some user
               ∧ hasBooked (params_id req) user = true)
  ∧ (if isHost
     then hostOf req session
          ∧ d = createChannel build svc (now req) (params_id req) (user_id req)
     else d = generateViewerToken build svc (now req) (params_id req) (user_id req)).
Proof.
  intros Hs. unfold getStreamingDetails. rewrite Hs.
  destruct (users db !! s_trainer session) as [t|] eqn:Htr; [|done].
  pose proof (hostOf_test req session) as Hhost.
  set (h := (bool_decide (user_role req = role_trainer)
             || bool_decide (user_role req = role_admin))) in *.
  set (o := String.eqb (s_trainer session) (user_id req)) in *.
  assert (Hgate : negb h || negb o = negb (h && o)) by by destruct h, o.
  rewrite Hgate.
  destruct (h && o) eqn:Hho; simpl.
  - (* the host *)
    assert (hostOf req session) as Hh by by apply Hhost.
    destruct (status session) eqn:Hst; simpl;
      try destruct (withinBuffer _ _); try destruct (truthyS _); simpl; try done;
      intros [= <- <- <- <-]; repeat split; eauto; apply Hh.
  - destruct (users db !! user_id req) as [user|] eqn:Hu; [|done].
    destruct (hasBooked (params_id req) user) eqn:Hb; simpl; [|done].
    destruct (status session) eqn:Hst; simpl; try done.
    intros [= <- <- <- <-]. repeat split; eauto.
Qed.

(** X22. The 15 minutes window is a message of [getStreamingDetails], not a
    rule of [startStream]: for the host of a scheduled session the former
    answers [canStart] when the scheduled instant is at most 15 minutes
    ahead (however long it is past) and 400 otherwise, and [startStream]
    accepts the start at the same instant in both cases. *)
Theorem start_window_not_enforced (req : Req) (db : DB) (session : Session) (u : User) :
  sessions db !! params_id req = Some session →
  users db !! s_trainer session = Some u →
  hostOf req session →
  status session = scheduled →
  getStreamingDetails build svc req db
  = (if bool_decide (scheduledAt session - now req ≤ 15 * 60000)
     then SD_canStart (scheduledAt session)
     else SD_reply (reply 400 "Stream can be started 15 minutes before scheduled time"))
  ∧ code (startStream build svc req db).1 = 200
  ∧ status <$> sessions (startStream build svc req db).2 !! params_id req = Some live.
Proof.
  intros Hs Hu Hh Hst. split.
  - unfold getStreamingDetails. rewrite Hs, Hu.
    apply hostOf_test in Hh. apply andb_true_iff in Hh as [Hr Ho].
    rewrite Hr, Ho, Hst. simpl. unfold withinBuffer.
    destruct (Z.leb_spec (scheduledAt session - now req) (15 * (1000 * 60))); simpl.
    + by rewrite bool_decide_eq_true_2 by lia.
    + by rewrite bool_decide_eq_false_2 by lia.
  - destruct Hh as [_ Ht].
    rewrite (startStream_owner build svc req db session Hs); [|by rewrite <- Ht; eexists|done..].
    simpl.
    split; [done|]. by rewrite lookup_insert_eq.
Qed.

End StreamReading.

Lemma streaming_details_gate_witness :
  status (sampleSession live []) = live
  ∧ ∃ user,
      users (sampleDB (sampleSession live []) (sampleUser 0 [mkBooking "session1" 100]))
        !! "user1" = Some user
      ∧ hasBooked "session1" user = true.
Proof.
  destruct (streaming_details_gate sampleBuild (newAgoraService ∅)
    (mkReq "session1" "user1" role_user emptyBody 7000)
    (sampleDB (sampleSession live []) (sampleUser 0 [mkBooking "session1" 100]))
    (sampleSession live []) false _ _ _ eq_refl eq_refl)
    as (Hl & _ & _ & _ & [[[Hr|Hr] _]|Hb] & _); try discriminate Hr.
  split; [exact Hl|exact Hb].
Defined.

Lemma start_window_not_enforced_witness :
  getStreamingDetails sampleBuild (newAgoraService ∅)
    (mkReq "session1" "trainer1" role_trainer emptyBody 1000)
    (sampleDB (sampleSession scheduled []) (sampleUser 0 []))
  = SD_canStart 5000.
Proof.
  exact (proj1 (start_window_not_enforced sampleBuild (newAgoraService ∅)
    (mkReq "session1" "trainer1" role_trainer emptyBody 1000)
    (sampleDB (sampleSession scheduled []) (sampleUser 0 []))
    (sampleSession scheduled []) sampleTrainer eq_refl eq_refl
    (conj (or_introl eq_refl) eq_refl) eq_refl)).
Defined.

(** ** The roster of a stream: [getStreamParticipants], joins and leaves *)

Lemma mapM_participantView (db : DB) (ps : list Participant)
    (views : list ParticipantView) :
  mapM (participantView db) ps = Some views →
  pv_id <$> views = p_user <$> ps ∧ pv_active <$> views = isActive <$> ps.
Proof.
  intros Hv. apply mapM_Some in Hv.
  induction Hv as [|p v ps views Hpv _ [IH1 IH2]]; [done|].
  unfold participantView in Hpv.
  destruct (users db !! p_user p); [|done]. injection Hpv as <-.
  rewrite !fmap_cons, IH1, IH2. done.
Qed.

Lemma mapM_participantView_stored (db : DB) (ps : list Participant) :
  is_Some (mapM (participantView db) ps)
  ↔ Forall (λ p, is_Some (users db !! p_user p)) ps.
Proof.
  rewrite mapM_is_Some. apply Forall_proper; [|done]. intros p.
  unfold participantView. simpl.
  destruct (users db !! p_user p); simpl; [done|].
  split; by intros [? ?].
Qed.

Lemma filter_length_fmap {A B} (f : A → bool) (g : B → bool) (l : list A) (k : list B) :
  f <$> l = g <$> k → length (List.filter f l) = length (List.filter g k).
Proof.
  revert k. induction l as [|x l IH]; intros [|y k]; try done.
  rewrite !fmap_cons. intros [= Hxy Hlk]. simpl. rewrite Hxy.
  destruct (g y); simpl; by rewrite (IH k Hlk).
Qed.

Lemma isActive_attended (p : Participant) : isActive p = true → attended p = true.
Proof. unfold isActive, attended. by destruct (joinedAt p). Qed.

Lemma filter_isActive_attended (ps : list Participant) :
  List.filter isActive (List.filter attended ps) = List.filter isActive ps.
Proof.
  induction ps as [|p ps IH]; [done|]. simpl.
  destruct (attended p) eqn:Ha; simpl.
  - by rewrite IH.
  - rewrite IH. destruct (isActive p) eqn:Hp; [|done].
    apply isActive_attended in Hp. congruence.
Qed.

Lemma filter_length_le {A} (f : A → bool) (l : list A) :
  (length (List.filter f l) ≤ length l)%nat.
Proof.
  induction l as [|x l IH]; simpl; [done|]. destruct (f x); simpl; lia.
Qed.

Lemma Forall_filter_stored (db : DB) (ps : list Participant) :
  Forall (λ p, is_Some (users db !! p_user p)) (List.filter attended ps)
  ↔ Forall (λ p, attended p = true → is_Some (users db !! p_user p)) ps.
Proof.
  induction ps as [|p ps IH]; simpl; [done|].
  destruct (attended p) eqn:Ha.
  - rewrite !Forall_cons, IH. split; intros [H1 H2]; split; auto.
  - rewrite Forall_cons, IH. split; [intros H; split; [congruence|done]|by intros [_ H]].
Qed.

(** X23. [getStreamParticipants] answers with the roster exactly when the
    requester has the trainer or the administrator role (for any session,
    not only an own one) or is the session's trainer, and the user of every
    record with a join instant is still stored. The answer lists those
    records in roster order; [totalCount] is their number, [activeCount]
    the number of records that joined and did not leave since, which is at
    most [totalCount]. *)
Theorem participants_answer (req : Req) (db : DB) (session : Session) :
  sessions db !! params_id req = Some session →
  ((∃ a, getStreamParticipants req db = inr a)
   ↔ (user_role req ≠ role_user ∨ s_trainer session = user_id req)
     ∧ Forall (λ p, attended p = true → is_Some (users db !! p_user p))
         (participants session))
  ∧ ∀ a, getStreamParticipants req db = inr a →
      pv_id <$> pa_participants a = p_user <$> List.filter attended (participants session)
      ∧ totalCount a = length (List.filter attended (participants session))
      ∧ activeCount a = length (List.filter isActive (participants session))
      ∧ (activeCount a ≤ totalCount a)%nat.
Proof.
  intros Hs. unfold getStreamParticipants. rewrite Hs.
  set (auth := bool_decide (user_role req = role_trainer)
               || bool_decide (user_role req = role_admin)
               || String.eqb (s_trainer session) (user_id req)).
  assert (Hauth : auth = true
                  ↔ user_role req ≠ role_user ∨ s_trainer session = user_id req).
  { unfold auth. rewrite !orb_true_iff, !bool_decide_eq_true, String.eqb_eq.
    destruct (user_role req); intuition congruence. }
  rewrite <- Forall_filter_stored, <- mapM_participantView_stored.
  destruct auth; simpl.
  - destruct (mapM (participantView db) (List.filter attended (participants session)))
      as [views|] eqn:Hv.
    + split.
      * split; [|by eexists]. intros _. split; [by apply Hauth|by eexists].
      * intros a [= <-]. simpl.
        destruct (mapM_participantView _ _ _ Hv) as [Hid Hact].
        assert (length views = length (List.filter attended (participants session)))
          as Hlen by by rewrite <- (length_fmap pv_id), Hid, length_fmap.
        split; [done|]. split; [done|].
        rewrite (filter_length_fmap _ _ _ _ Hact), filter_isActive_attended.
        split; [done|].
        rewrite Hlen, <- filter_isActive_attended. apply filter_length_le.
    + split; [|done]. split; [by intros [? ?]|]. by intros [_ [? ?]].
  - split; [|done]. split; [by intros [? ?]|].
    intros [Ha _]. apply Hauth in Ha. done.
Qed.

Lemma participants_answer_witness :
  ∃ a, getStreamParticipants (mkReq "session1" "trainer2" role_trainer emptyBody 9000)
         (sampleDB
            (sampleSession live
               [bookedOnly "user2";
                mkParticipant "user1" (Some 6000) (Some 7000) (Some 1) 0 0;
                mkParticipant "trainer1" (Some 6000) None None 0 0])
            (sampleUser 0 [])) = inr a
       ∧ totalCount a = 2%nat ∧ activeCount a = 1%nat.
Proof.
  destruct (participants_answer
    (mkReq "session1" "trainer2" role_trainer emptyBody 9000)
    (sampleDB
       (sampleSession live
          [bookedOnly "user2";
           mkParticipant "user1" (Some 6000) (Some 7000) (Some 1) 0 0;
           mkParticipant "trainer1" (Some 6000) None None 0 0])
       (sampleUser 0 []))
    _ eq_refl) as [_ Hans].
  eexists. split; [reflexivity|].
  destruct (Hans _ eq_refl) as (_ & Ht & Ha & _). split; [exact Ht|exact Ha].
Defined.

Section RosterProperties.

Variable build : string → string → string → string → RtcRole → Z → string.
Variable svc : AgoraService.

(** X24. The [active] flag of the roster follows the last join and leave of
    a user: after an accepted join the user's record is active; after a
    leave that follows it the record is inactive from that very instant
    on. The two minutes threshold the handler computes plays no role. *)
Theorem active_from_join_to_leave (sid uid : string) (r : Role) (t1 t2 : Z)
    (db : DB) (session : Session) :
  sessions db !! sid = Some session →
  status session = live →
  t1 ≤ t2 →
  let db1 := (joinStream build svc (mkReq sid uid r emptyBody t1) db).2 in
  let db2 := (leaveStream (mkReq sid uid r emptyBody t2) db1).2 in
  (∃ s1 p, sessions db1 !! sid = Some s1 ∧ participantOf uid s1 = Some p
           ∧ isActive p = true)
  ∧ (∃ s2 p, sessions db2 !! sid = Some s2 ∧ participantOf uid s2 = Some p
             ∧ isActive p = false).
Proof.
  intros Hs Hl Ht db1 db2. split.
  - destruct (joinStream_live build svc (mkReq sid uid r emptyBody t1) db session Hs Hl)
      as (_ & s1 & p & Hs1 & Hp & Hj & Hle).
    exists s1, p. split; [done|]. split; [done|].
    unfold isActive. by rewrite Hj, Hle.
  - destruct (join_then_leave_requests build svc sid uid r t1 t2 db session Hs Hl)
      as (s2 & p & Hs2 & Hp & Hj & Hle & _).
    exists s2, p. split; [done|]. split; [done|].
    unfold isActive. rewrite Hj, Hle. apply Z.ltb_ge. lia.
Qed.

(** X26. A second leave without a join in between counts the time since the
    same join again: after a join at [t1] and leaves at [t2] and [t3], the
    tracked duration has grown by the whole seconds from [t1] to [t2] plus
    the whole seconds from [t1] to [t3]. *)
Theorem leave_twice_counts_twice (sid uid : string) (r : Role) (t1 t2 t3 : Z)
    (db : DB) (session : Session) :
  sessions db !! sid = Some session →
  status session = live →
  let d0 := default 0 (participantOf uid session ≫= p_duration) in
  let db1 := (joinStream build svc (mkReq sid uid r emptyBody t1) db).2 in
  let db2 := (leaveStream (mkReq sid uid r emptyBody t2) db1).2 in
  let db3 := (leaveStream (mkReq sid uid r emptyBody t3) db2).2 in
  ∃ s3 p, sessions db3 !! sid = Some s3
          ∧ participantOf uid s3 = Some p
          ∧ joinedAt p = Some t1 ∧ leaveAt p = Some t3
          ∧ p_duration p = Some (d0 + (t2 - t1) / 1000 + (t3 - t1) / 1000).
Proof.
  intros Hs Hl d0 db1 db2 db3.
  destruct (join_then_leave_requests build svc sid uid r t1 t2 db session Hs Hl)
    as (s2 & p & Hs2 & Hp & Hj & Hle & Hd).
  fold db1 db2 in Hs2. subst db3. unfold leaveStream at 1. simpl.
  rewrite Hs2. simpl. rewrite lookup_insert_eq.
  eexists _, _. split; [done|].
  rewrite participantOf_stamp, participantOf_leave, Hp. simpl.
  split; [done|]. unfold leave. rewrite Hj. simpl.
  split; [done|]. split; [done|]. by rewrite Hd.
Qed.

End RosterProperties.

Lemma active_from_join_to_leave_witness :
  ∃ s2 p,
    sessions
      (leaveStream (mkReq "session1" "user1" role_user emptyBody 9000)
         (joinStream sampleBuild (newAgoraService ∅)
            (mkReq "session1" "user1" role_user emptyBody 7000)
            (sampleDB (sampleSession live []) (sampleUser 0 []))).2).2
      !! "session1" = Some s2
    ∧ participantOf "user1" s2 = Some p ∧ isActive p = false.
Proof.
  refine (proj2 (active_from_join_to_leave sampleBuild (newAgoraService ∅)
    "session1" "user1" role_user 7000 9000
    (sampleDB (sampleSession live []) (sampleUser 0 []))
    (sampleSession live []) eq_refl eq_refl _)).
  lia.
Defined.

Lemma leave_twice_counts_twice_witness :
  ∃ s3 p,
    sessions
      (leaveStream (mkReq "session1" "user1" role_user emptyBody 12000)
         (leaveStream (mkReq "session1" "user1" role_user emptyBody 9000)
            (joinStream sampleBuild (newAgoraService ∅)
               (mkReq "session1" "user1" role_user emptyBody 7000)
               (sampleDB (sampleSession live []) (sampleUser 0 []))).2).2).2
      !! "session1" = Some s3
    ∧ participantOf "user1" s3 = Some p
    ∧ joinedAt p = Some 7000 ∧ leaveAt p = Some 12000
    ∧ p_duration p = Some (0 + (9000 - 7000) / 1000 + (12000 - 7000) / 1000).
Proof.
  exact (leave_twice_counts_twice sampleBuild (newAgoraService ∅)
    "session1" "user1" role_user 7000 9000 12000
    (sampleDB (sampleSession live []) (sampleUser 0 []))
    (sampleSession live []) eq_refl eq_refl).
Defined.

Lemma fmap_user_alter (g : Participant → Participant) (i : nat) (ps : list Participant) :
  (∀ p, p_user (g p) = p_user p) →
  p_user <$> alter g i ps = p_user <$> ps.
Proof.
  intros Hg. revert i. induction ps as [|p ps IH]; intros [|i]; try done.
  - cbn. by rewrite Hg.
  - cbn. fold (alter g i ps). by rewrite IH.
Qed.

Lemma p_user_leave (t : Z) (p : Participant) : p_user (leave t p) = p_user p.
Proof. unfold leave. by destruct (joinedAt p). Qed.

(** X25. Joins and leaves never duplicate a user on the roster: a leave
    keeps the users of the roster as they are, a join keeps them when the
    user already has a record (from a booking or an earlier join) and adds
    the user at the end otherwise; a roster without duplicates stays
    without duplicates. *)
Theorem join_leave_keep_roster_unique (u : string) (t : Z) (s : Session) :
  roster_unique s →
  roster_unique (recordParticipantJoin u t s)
  ∧ roster_unique (recordParticipantLeave u t s)
  ∧ p_user <$> participants (recordParticipantLeave u t s) = p_user <$> participants s
  ∧ p_user <$> participants (recordParticipantJoin u t s)
    = (p_user <$> participants s)
        ++ (if existsb (isUser u) (participants s) then [] else [u]).
Proof.
  intros Hu.
  assert (Hleave : p_user <$> participants (recordParticipantLeave u t s)
                   = p_user <$> participants s).
  { unfold recordParticipantLeave.
    destruct (findIndex (isUser u) (participants s)); [|done]. simpl.
    apply fmap_user_alter, p_user_leave. }
  assert (Hjoin : p_user <$> participants (recordParticipantJoin u t s)
                  = (p_user <$> participants s)
                      ++ (if existsb (isUser u) (participants s) then [] else [u])).
  { unfold recordParticipantJoin.
    destruct (findIndex (isUser u) (participants s)) as [i|] eqn:Hi; simpl.
    - destruct (existsb (isUser u) (participants s)) eqn:He.
      + rewrite app_nil_r. by apply fmap_user_alter.
      + apply findIndex_None in He. congruence.
    - rewrite (proj1 (findIndex_None _ _) Hi). by rewrite fmap_app. }
  unfold roster_unique in *. rewrite Hleave, Hjoin.
  split; [|done].
  destruct (existsb (isUser u) (participants s)) eqn:He.
  - by rewrite app_nil_r.
  - apply NoDup_app. split; [done|]. split; [|apply NoDup_singleton].
    intros x Hx ->%list_elem_of_singleton.
    apply list_elem_of_fmap in Hx as (p & Hp & Hin).
    assert (existsb (isUser u) (participants s) = true) as He'; [|congruence].
    apply existsb_exists. exists p. split; [by apply list_elem_of_In|].
    unfold isUser. rewrite <- Hp. apply String.eqb_refl.
Qed.

Lemma join_leave_keep_roster_unique_witness :
  roster_unique
    (recordParticipantJoin "user1" 7000 (sampleSession live [bookedOnly "user1"])).
Proof.
  refine (proj1 (join_leave_keep_roster_unique "user1" 7000
    (sampleSession live [bookedOnly "user1"]) _)).
  unfold roster_unique. simpl. apply NoDup_singleton.
Defined.

(** ** Chat messages and reactions *)

Lemma sumZ_alter {A} (f : A → Z) (g : A → A) (l : list A) (i : nat) (x : A) :
  l !! i = Some x →
  sumZ f (alter g i l) = sumZ f l + (f (g x) - f x).
Proof.
  revert i. induction l as [|y l IH]; intros [|i] Hi; try done.
  - injection Hi as ->. cbn [alter list_alter]. rewrite !sumZ_cons. lia.
  - cbn [alter list_alter]. fold (alter g i l). rewrite !sumZ_cons, (IH i Hi). lia.
Qed.

(** The counter update touches the first record of the sender and nothing
    else; a sender without a record changes nothing. *)
Lemma countFor_sum (u : string) (g : Participant → Participant)
    (f : Participant → Z) (c : Z) (s : Session) :
  (∀ p, f (g p) = f p + c) →
  sumZ f (participants (countFor u g s))
  = sumZ f (participants s) + (if onRoster u s then c else 0).
Proof.
  intros Hg. unfold countFor, onRoster.
  destruct (findIndex (isUser u) (participants s)) as [i|] eqn:Hi.
  - destruct (findIndex_lookup _ _ _ Hi) as (p & Hp & _).
    destruct (existsb (isUser u) (participants s)) eqn:He.
    + simpl. rewrite (sumZ_alter f g _ i p Hp), Hg. lia.
    + apply findIndex_None in He. congruence.
  - rewrite (proj1 (findIndex_None _ _) Hi). lia.
Qed.

Lemma countFor_frame (u : string) (g : Participant → Participant)
    (f : Participant → Z) (s : Session) :
  (∀ p, f (g p) = f p) →
  sumZ f (participants (countFor u g s)) = sumZ f (participants s).
Proof.
  intros Hg. rewrite (countFor_sum u g f 0); [destruct (onRoster u s); lia|].
  intros p. rewrite Hg. lia.
Qed.

Lemma countFor_users (u : string) (g : Participant → Participant) (s : Session) :
  (∀ p, p_user (g p) = p_user p) →
  p_user <$> participants (countFor u g s) = p_user <$> participants s.
Proof.
  intros Hg. unfold countFor.
  destruct (findIndex (isUser u) (participants s)); [|done].
  by apply fmap_user_alter.
Qed.

Section ChatProperties.

Variable trim : string → string.

(** X27. A message that is not blank, sent to a live session by any
    requester, is answered 201 and appended to the session's messages as it
    was sent (not trimmed), under the requester's id and the instant of the
    request. The message counters of the roster grow by one in total when
    the sender has a record on the roster and stay as they are otherwise;
    reactions, reaction counters and the users of the roster do not change.
    For a session that is not live the answer is 400 and nothing changes. *)
Theorem sendMessage_effects (m : string) (req : Req) (d : SessionDoc) :
  m ≠ EmptyString → trim m ≠ EmptyString →
  let out := sendMessage trim (Some m) req (Some d) in
  (status (doc_session d) = live →
   ∃ d', out = (mkRes 201 m NoData, Some d')
     ∧ doc_messages d' = doc_messages d ++ [mkMessage (user_id req) m (now req)]
     ∧ doc_reactions d' = doc_reactions d
     ∧ status (doc_session d') = live
     ∧ p_user <$> participants (doc_session d') = p_user <$> participants (doc_session d)
     ∧ sumZ p_messages (participants (doc_session d'))
       = sumZ p_messages (participants (doc_session d))
         + (if onRoster (user_id req) (doc_session d) then 1 else 0)
     ∧ sumZ p_reactions (participants (doc_session d'))
       = sumZ p_reactions (participants (doc_session d)))
  ∧ (status (doc_session d) ≠ live →
     out = (reply 400 "Session is not currently live", Some d)).
Proof.
  intros Hm Ht out. subst out. unfold sendMessage. simpl.
  rewrite (proj2 (String.eqb_neq _ _) Hm), (proj2 (String.eqb_neq _ _) Ht). simpl.
  split.
  - intros Hl. rewrite Hl. simpl. eexists. split; [done|]. simpl.
    split; [done|]. split; [done|].
    split; [by rewrite countFor_status|].
    split; [by apply countFor_users|].
    split; [by apply countFor_sum|by apply countFor_frame].
  - intros Hl. by rewrite bool_decide_eq_false_2.
Qed.

End ChatProperties.

Lemma sendMessage_effects_witness :
  (sendMessage (λ s, s) (Some "hello")
     (mkReq "session1" "user1" role_user emptyBody 7000)
     (Some (mkSessionDoc (sampleSession scheduled []) [] []))).1
  = reply 400 "Session is not currently live".
Proof.
  refine (f_equal fst (proj2 (sendMessage_effects (λ s, s) "hello"
    (mkReq "session1" "user1" role_user emptyBody 7000)
    (mkSessionDoc (sampleSession scheduled []) [] []) _ _) _)); discriminate.
Defined.

Lemma validReaction_truthy (t : string) :
  validReaction t = true → negb (String.eqb t EmptyString) = true.
Proof. by destruct t. Qed.

(** X28. [sendReaction] stores a reaction exactly when the type is one of
    thumbsUp, heart, star, clap and fire and the session is live; it then
    answers 201, appends the reaction under the requester's id and counts
    it on the requester's roster record, if there is one. Every other
    request leaves the document as it is, so the stored reactions always
    have one of the five types. *)
Theorem sendReaction_gate (type : option string) (req : Req) (d : SessionDoc) :
  reactions_valid d →
  let out := sendReaction type req (Some d) in
  (code out.1 = 201
   ↔ (∃ t, type = Some t ∧ validReaction t = true) ∧ status (doc_session d) = live)
  ∧ ∃ d', out.2 = Some d'
      ∧ reactions_valid d'
      ∧ (code out.1 ≠ 201 → d' = d)
      ∧ (code out.1 = 201 →
         ∃ t, type = Some t
           ∧ doc_reactions d' = doc_reactions d ++ [mkReaction (user_id req) t (now req)]
           ∧ doc_messages d' = doc_messages d
           ∧ sumZ p_reactions (participants (doc_session d'))
             = sumZ p_reactions (participants (doc_session d))
               + (if onRoster (user_id req) (doc_session d) then 1 else 0)
           ∧ sumZ p_messages (participants (doc_session d'))
             = sumZ p_messages (participants (doc_session d))).
Proof.
  intros Hv out. subst out. unfold sendReaction.
  destruct type as [t|]; simpl.
  - destruct (validReaction t) eqn:Ht.
    + rewrite (validReaction_truthy t Ht). simpl.
      destruct (status (doc_session d)) eqn:Hst; simpl.
      2: { split; [split; [intros _; split; [by exists t|done]|done]|].
           eexists. split; [done|]. split.
           - unfold reactions_valid. simpl. apply Forall_app. split; [done|].
             by apply Forall_singleton.
           - split; [done|]. intros _. exists t. simpl.
             split; [done|]. split; [done|]. split; [done|].
             split; [by apply countFor_sum|by apply countFor_frame]. }
      all: split; [split; [done|by intros [_ ?]]|];
        exists d; split; [done|]; split; [done|]; split; done.
    + rewrite andb_false_r || rewrite orb_true_r. simpl.
      split.
      * split; [done|]. intros [(t' & [= <-] & Ht') _]. congruence.
      * exists d. split; [done|]. split; [done|]. split; done.
  - split.
    + split; [done|]. by intros [(t' & ? & _) _].
    + exists d. split; [done|]. split; [done|]. split; done.
Qed.

Lemma sendReaction_gate_witness :
  code (sendReaction (Some "heart")
          (mkReq "session1" "user1" role_user emptyBody 7000)
          (Some (mkSessionDoc (sampleSession live [bookedOnly "user1"]) [] []))).1
  = 201.
Proof.
  refine (proj2 (proj1 (sendReaction_gate (Some "heart")
    (mkReq "session1" "user1" role_user emptyBody 7000)
    (mkSessionDoc (sampleSession live [bookedOnly "user1"]) [] []) _)) _).
  - apply Forall_nil_2.
  - split; [by exists "heart"|done].
Defined.

(** ** Recording ids and the end of a stream *)

Lemma details_step_same (h : Handler) :
  (∀ req db, sessions (h req db).2 = sessions db) → details_step h.
Proof.
  intros Hh req db id s Hs. exists s. rewrite Hh. split; [done|]. by left.
Qed.

(** A save of the addressed session that keeps its streaming details and
    keeps a live session live. *)
Lemma details_insert (db : DB) (m : gmap string Session) (k : string)
    (s0 s1 : Session) (id : string) (s : Session) :
  sessions db !! k = Some s0 →
  m = <[k := s1]> (sessions db) →
  streamingDetails s1 = streamingDetails s0 →
  (status s0 = live → status s1 = live) →
  sessions db !! id = Some s →
  ∃ s', m !! id = Some s'
    ∧ ((streamingDetails s' = streamingDetails s
        ∧ (status s = live → status s' = live))
       ∨ (resourceId (streamingDetails s') = None ∧ status s ≠ live)
       ∨ (¬ recording s
          ∧ resourceId (streamingDetails s') = resourceId (streamingDetails s))).
Proof.
  intros Hk -> Hd Hl Hs. destruct (decide (id = k)) as [->|Hne].
  - rewrite lookup_insert_eq. exists s1. split; [done|]. left.
    rewrite Hk in Hs. injection Hs as <-. done.
  - rewrite lookup_insert_ne by done. exists s. split; [done|]. by left.
Qed.

Lemma streamingDetails_calculateAverageRating (s : Session) :
  streamingDetails (calculateAverageRating s) = streamingDetails s
  ∧ status (calculateAverageRating s) = status s.
Proof. unfold calculateAverageRating. by case_match. Qed.

Lemma streamingDetails_recordParticipantJoin (u : string) (t : Z) (s : Session) :
  streamingDetails (recordParticipantJoin u t s) = streamingDetails s.
Proof. unfold recordParticipantJoin. by case_match. Qed.

Lemma streamingDetails_recordParticipantLeave (u : string) (t : Z) (s : Session) :
  streamingDetails (recordParticipantLeave u t s) = streamingDetails s.
Proof. unfold recordParticipantLeave. by case_match. Qed.

Lemma updateSession_details_step : details_step updateSession.
Proof.
  intros req db id s Hs. unfold updateSession.
  destruct (sessions db !! params_id req) as [s0|] eqn:Hk; [|by exists s; split; [|left]].
  destruct (_ && _); [by exists s; split; [|left]|].
  destruct (liveOrCompleted (status s0)) eqn:Hlc; [by exists s; split; [|left]|].
  assert (Hnl : status s0 ≠ live) by (intros Hl; by rewrite Hl in Hlc).
  destruct (body_status (body req)) as [st|]; cycle 1.
  { simpl. by eapply details_insert. }
  destruct (_ && _ && _); cycle 1.
  { simpl. by eapply details_insert. }
  destruct (parse_status st) as [st'|]; [|by exists s; split; [|left]].
  simpl. by eapply details_insert.
Qed.

Lemma updateSessionStatus_details_step : details_step updateSessionStatus.
Proof.
  intros req db id s Hs. unfold updateSessionStatus.
  destruct (body_status (body req) ≫= _) as [st|]; [|by exists s; split; [|left]].
  destruct (sessions db !! params_id req) as [s0|] eqn:Hk; [|by exists s; split; [|left]].
  destruct (_ && _); [by exists s; split; [|left]|].
  destruct (liveOrCompleted (status s0)) eqn:Hlc; [by exists s; split; [|left]|].
  assert (Hnl : status s0 ≠ live) by (intros Hl; by rewrite Hl in Hlc).
  simpl. eapply details_insert; [exact Hk| | | |done].
  - destruct (bool_decide (st = cancelled)); [rewrite sessions_refundAll|]; reflexivity.
  - reflexivity.
  - done.
Qed.

Lemma bookSession_details_step : details_step bookSession.
Proof.
  intros req db id s Hs. unfold bookSession.
  destruct (sessions db !! params_id req) as [s0|] eqn:Hk; [|by exists s; split; [|left]].
  repeat case_match; simpl; try (by exists s; split; [|left]).
  by eapply details_insert.
Qed.

Lemma rateSession_details_step : details_step rateSession.
Proof.
  intros req db id s Hs. unfold rateSession.
  destruct (negb (truthyQ _)); [by exists s; split; [|left]|].
  destruct (_ || _); [by exists s; split; [|left]|].
  destruct (sessions db !! params_id req) as [s0|] eqn:Hk; [|by exists s; split; [|left]].
  destruct (negb (bool_decide _)); [by exists s; split; [|left]|].
  destruct (negb (existsb _ _)); [by exists s; split; [|left]|].
  destruct (existsb _ (ratings s0)); simpl.
  - rewrite sessions_updateTrainerRating. simpl.
    eapply details_insert; [exact Hk|reflexivity| | |done].
    + unfold set_s_updatedAt. cbn [streamingDetails].
      by rewrite (proj1 (streamingDetails_calculateAverageRating _)).
    + unfold set_s_updatedAt. cbn [status].
      by rewrite (proj2 (streamingDetails_calculateAverageRating _)).
  - destruct (users db !! user_id req); [|by exists s; split; [|left]].
    simpl. rewrite sessions_updateTrainerRating. simpl.
    eapply details_insert; [exact Hk| | | |done].
    + by case_match.
    + unfold set_s_updatedAt. cbn [streamingDetails].
      by rewrite (proj1 (streamingDetails_calculateAverageRating _)).
    + unfold set_s_updatedAt. cbn [status].
      by rewrite (proj2 (streamingDetails_calculateAverageRating _)).
Qed.

Lemma getSessionAnalytics_details_step : details_step getSessionAnalytics.
Proof.
  apply details_step_same. intros req db. unfold getSessionAnalytics.
  repeat case_match; done.
Qed.

Lemma updateTokens_details_step : details_step updateTokens.
Proof.
  apply details_step_same. intros req db. unfold updateTokens.
  repeat case_match; done.
Qed.

Lemma purchasePackage_details_step : details_step purchasePackage.
Proof.
  apply details_step_same. intros req db. unfold purchasePackage.
  repeat case_match; done.
Qed.

Lemma leaveStream_details_step : details_step leaveStream.
Proof.
  intros req db id s Hs. unfold leaveStream.
  destruct (sessions db !! params_id req) as [s0|] eqn:Hk; [|by exists s; split; [|left]].
  simpl. eapply details_insert; [exact Hk|reflexivity| | |done].
  - unfold set_s_updatedAt. cbn [streamingDetails].
    apply streamingDetails_recordParticipantLeave.
  - unfold set_s_updatedAt. cbn [status].
    by rewrite status_recordParticipantLeave.
Qed.

Lemma endStream_details_step : details_step endStream.
Proof.
  intros req db id s Hs. unfold endStream.
  destruct (sessions db !! params_id req) as [s0|] eqn:Hk; [|by exists s; split; [|left]].
  destruct (negb (String.eqb _ _)); [by exists s; split; [|left]|].
  destruct (negb (bool_decide _)); [by exists s; split; [|left]|].
  destruct (_ && _) eqn:Hrec; [by exists s; split; [|left]|].
  unfold updateSessionStreamStatus. rewrite Hk. simpl.
  destruct (decide (id = params_id req)) as [->|Hne].
  - rewrite lookup_insert_eq. eexists. split; [done|]. right. right.
    rewrite Hk in Hs. injection Hs as <-. split; [|done].
    intros (_ & Hr & Hsid). by rewrite Hr, Hsid in Hrec.
  - rewrite lookup_insert_ne by done. exists s. split; [done|]. by left.
Qed.

Lemma authenticate_details_step (h : Handler) :
  details_step h → details_step (authenticate h).
Proof.
  intros Hh req db id s Hs. unfold authenticate.
  destruct (users db !! user_id req) as [u|]; [|by exists s; split; [|left]].
  by apply Hh.
Qed.

Lemma isTrainer_details_step (h : Handler) :
  details_step h → details_step (isTrainer h).
Proof.
  intros Hh req db id s Hs. unfold isTrainer.
  case_match; [by apply Hh|by exists s; split; [|left]].
Qed.

Lemma isOwnerOrAdmin_details_step (h : Handler) :
  details_step h → details_step (isOwnerOrAdmin h).
Proof.
  intros Hh req db id s Hs. unfold isOwnerOrAdmin.
  case_match; [by apply Hh|by exists s; split; [|left]].
Qed.

Section RecordingProperties.

Variable build : string → string → string → string → RtcRole → Z → string.
Variable svc : AgoraService.

Lemma startStream_details_step : details_step (startStream build svc).
Proof.
  intros req db id s Hs. unfold startStream.
  destruct (sessions db !! params_id req) as [s0|] eqn:Hk; [|by exists s; split; [|left]].
  destruct (negb (isSome _)); [by exists s; split; [|left]|].
  destruct (negb (String.eqb _ _)); [by exists s; split; [|left]|].
  case_bool_decide as Hl; [by exists s; split; [|left]|].
  destruct (_ || _); [by exists s; split; [|left]|].
  unfold updateSessionStreamStatus. rewrite Hk. simpl.
  destruct (decide (id = params_id req)) as [->|Hne].
  - rewrite lookup_insert_eq. eexists. split; [done|]. right. left.
    rewrite Hk in Hs. injection Hs as <-. done.
  - rewrite lookup_insert_ne by done. exists s. split; [done|]. by left.
Qed.

Lemma joinStream_details_step : details_step (joinStream build svc).
Proof.
  intros req db id s Hs. unfold joinStream.
  destruct (sessions db !! params_id req) as [s0|] eqn:Hk; [|by exists s; split; [|left]].
  destruct (negb (bool_decide _)); [by exists s; split; [|left]|].
  simpl. eapply details_insert; [exact Hk|reflexivity| | |done].
  - unfold set_s_updatedAt. cbn [streamingDetails].
    apply streamingDetails_recordParticipantJoin.
  - unfold set_s_updatedAt. cbn [status].
    by rewrite status_recordParticipantJoin.
Qed.

Lemma route_details_step (e : Endpoint) : details_step (route build svc e).
Proof.
  destruct (exported_handlers build svc) as (Hs & He & Hj & Hl).
  destruct e; unfold route; rewrite ?Hs, ?He, ?Hj, ?Hl;
    repeat first [apply authenticate_details_step | apply isTrainer_details_step
                 | apply isOwnerOrAdmin_details_step];
    auto using updateSession_details_step, updateSessionStatus_details_step,
      bookSession_details_step, rateSession_details_step,
      getSessionAnalytics_details_step, startStream_details_step,
      endStream_details_step, joinStream_details_step, leaveStream_details_step,
      updateTokens_details_step, purchasePackage_details_step.
Qed.

(** X29. A live session that carries a recording resource id and a
    recording sid can never be ended through the routes of [route]: after every run of
    requests to them it is still stored, still live and has the same streaming
    details, and the end request of its trainer fails with the 500 of the
    [TypeError] that the call of the missing [stopRecording] raises. *)
Theorem recording_session_never_ends (rs : list (Endpoint * Req)) (db : DB)
    (id : string) (s : Session) :
  sessions db !! id = Some s →
  recording s →
  let db' := serve build svc db rs in
  ∃ s', sessions db' !! id = Some s'
    ∧ status s' = live
    ∧ streamingDetails s' = streamingDetails s
    ∧ ∀ req, params_id req = id → user_id req = s_trainer s' →
        endStream req db' = (next_err "TypeError", db').
Proof.
  intros Hs Hrec db'. subst db'.
  assert (∃ s', sessions (serve build svc db rs) !! id = Some s'
                ∧ status s' = live ∧ streamingDetails s' = streamingDetails s)
    as (s' & Hs' & Hl & Hd).
  { unfold serve. revert db s Hs Hrec.
    induction rs as [|[e req] rs IH]; intros db s Hs Hrec; simpl.
    - exists s. by destruct Hrec.
    - destruct (route_details_step e req db id s Hs)
        as (s1 & Hs1 & [[Hd Hl]|[[_ Hnl]|[Hn _]]]).
      + destruct Hrec as (Hlive & Hr & Hsid).
        destruct (IH _ s1 Hs1) as (s' & Hs' & Hl' & Hd').
        { split; [by apply Hl|]. by rewrite Hd. }
        exists s'. by rewrite Hd' , Hd.
      + by destruct Hrec.
      + done. }
  exists s'. split; [done|]. split; [done|]. split; [done|].
  intros req <- Hu. unfold endStream. rewrite Hs', Hu, String.eqb_refl, Hl. simpl.
  destruct Hrec as (_ & Hr & Hsid). by rewrite Hd, Hr, Hsid.
Qed.

(** X30. None of the routes of [route] stores a recording resource id: a
    session without one is still stored and has none after every run of
    requests to them, and whenever it is live then, the end request of its
    trainer is answered 200 and completes it. *)
Theorem routes_never_store_recording (rs : list (Endpoint * Req)) (db : DB)
    (id : string) (s : Session) :
  sessions db !! id = Some s →
  resourceId (streamingDetails s) = None →
  let db' := serve build svc db rs in
  ∃ s', sessions db' !! id = Some s'
    ∧ resourceId (streamingDetails s') = None
    ∧ ∀ req, params_id req = id → user_id req = s_trainer s' → status s' = live →
        (endStream req db').1 = reply 200 "Stream ended successfully"
        ∧ status <$> sessions (endStream req db').2 !! id = Some completed.
Proof.
  intros Hs Hnone db'. subst db'.
  assert (∃ s', sessions (serve build svc db rs) !! id = Some s'
                ∧ resourceId (streamingDetails s') = None)
    as (s' & Hs' & Hr).
  { unfold serve. revert db s Hs Hnone.
    induction rs as [|[e req] rs IH]; intros db s Hs Hnone; simpl.
    - by exists s.
    - destruct (route_details_step e req db id s Hs)
        as (s1 & Hs1 & [[Hd _]|[[Hn _]|[_ Hn]]]);
        apply (IH _ s1 Hs1); congruence. }
  exists s'. split; [done|]. split; [done|].
  intros req <- Hu Hl. unfold endStream, updateSessionStreamStatus.
  rewrite Hs', Hu, String.eqb_refl, Hl, Hr. simpl.
  by rewrite lookup_insert_eq.
Qed.

End RecordingProperties.

Lemma recording_session_never_ends_witness :
  endStream (mkReq "session1" "trainer1" role_trainer emptyBody 9000)
    (sampleDB
       (set_streamingDetails
          (mkStreamingDetails (Some "session_session1") (Some "res") (Some "sid")
             (Some 6000) None)
          (sampleSession live []))
       (sampleUser 0 []))
  = (next_err "TypeError",
     sampleDB
       (set_streamingDetails
          (mkStreamingDetails (Some "session_session1") (Some "res") (Some "sid")
             (Some 6000) None)
          (sampleSession live []))
       (sampleUser 0 [])).
Proof.
  destruct (recording_session_never_ends sampleBuild (newAgoraService ∅) []
    (sampleDB
       (set_streamingDetails
          (mkStreamingDetails (Some "session_session1") (Some "res") (Some "sid")
             (Some 6000) None)
          (sampleSession live []))
       (sampleUser 0 []))
    "session1" _ eq_refl (conj eq_refl (conj eq_refl eq_refl)))
    as (s' & Hs' & _ & _ & Hend).
  injection Hs' as <-.
  exact (Hend (mkReq "session1" "trainer1" role_trainer emptyBody 9000)
           eq_refl eq_refl).
Defined.

Lemma routes_never_store_recording_witness :
  ∃ s', sessions
          (serve sampleBuild (newAgoraService ∅)
             (sampleDB (sampleSession scheduled []) (sampleUser 0 []))
             [(POST_stream_start,
               mkReq "session1" "trainer1" role_trainer emptyBody 4000)])
          !! "session1" = Some s'
        ∧ resourceId (streamingDetails s') = None.
Proof.
  destruct (routes_never_store_recording sampleBuild (newAgoraService ∅)
    [(POST_stream_start, mkReq "session1" "trainer1" role_trainer emptyBody 4000)]
    (sampleDB (sampleSession scheduled []) (sampleUser 0 []))
    "session1" _ eq_refl eq_refl) as (s' & Hs' & Hr & _).
  exists s'. split; [exact Hs'|exact Hr].
Defined.
